(** * pycalrissian: job specification builder and execution controller

    A shallow embedding of [pycalrissian/job.py] and
    [pycalrissian/execution.py].  Python strings are [string]s, dictionaries
    with string keys are [gmap]s (or association lists where iteration order
    matters), decoded JSON documents are values of [pyobj], and code that
    talks to the cluster runs in a small state-and-exception monad whose
    state is the trace of the calls made so far. *)

From Stdlib Require Import ZArith Ascii.
From stdpp Require Import gmap strings list fin_maps pretty.
From Equations Require Import Equations.

(** ** Python string operations used by the sources *)

Module PyStr.

(** [s[:-1]]: everything but the last character; the empty string stays
    empty. *)
Definition drop_last (s : string) : string :=
  String.substring 0 (String.length s - 1) s.

(** [s.endswith(suffix)]. *)
Definition endswith (s suffix : string) : bool :=
  let n := String.length s in
  let k := String.length suffix in
  (k <=? n)%nat && String.eqb (String.substring (n - k) k s) suffix.

(** [s.startswith(p)]. *)
Definition startswith (s p : string) : bool := String.prefix p s.

(** [s.replace(old, "", 1)]: the first occurrence of [old], if any, is
    removed. *)
Definition remove_first (old s : string) : string :=
  match String.index 0 old s with
  | Some i =>
      String.substring 0 i s +:+
      String.substring (i + String.length old)
                       (String.length s - (i + String.length old)) s
  | None => s
  end.

(** [os.path.join(a, b)] on a POSIX system. *)
Definition os_path_join (a b : string) : string :=
  if startswith b "/" then b
  else if String.eqb a "" || endswith a "/" then a +:+ b
  else a +:+ "/" +:+ b.

End PyStr.

(** ** Job-name shortening ([CalrissianJob.shorten_namespace]) *)

Section Shorten.

Import PyStr.

(** The unfolding lemmas of the two loops are proved without functional
    extensionality. *)
#[local] Unset Equations With Funext.

Lemma length_substring_0 (n : nat) (s : string) :
  String.length (String.substring 0 n s) = Nat.min n (String.length s).
Proof.
  revert n; induction s as [|c s IH]; intros [|n]; simpl; auto.
Qed.

Lemma length_drop_last (s : string) :
  String.length (drop_last s) = String.length s - 1.
Proof. unfold drop_last. rewrite length_substring_0. lia. Qed.

Lemma endswith_nonempty (s : string) :
  endswith s "-" = true -> 0 < String.length s.
Proof.
  unfold endswith. destruct s; simpl; [discriminate | lia].
Qed.

(** The inner loop: [while value.endswith("-"): value = value[:-1]]. *)
Equations? strip_hyphens (value : string) : string
  by wf (String.length value) lt :=
  strip_hyphens value with Logic.inspect (endswith value "-") => {
    | exist _ true E := strip_hyphens (drop_last value);
    | exist _ false E := value }.
Proof.
  rewrite length_drop_last. apply endswith_nonempty in E. lia.
Qed.

Lemma strip_hyphens_length (value : string) :
  String.length (strip_hyphens value) <= String.length value.
Proof.
  funelim (strip_hyphens value); [|lia].
  rewrite length_drop_last in *. lia.
Qed.

(** The outer loop of [shorten_namespace]:
    [while len(value) > 63: value = value[:-1]; <inner loop>]. *)
Equations? shorten_namespace (value : string) : string
  by wf (String.length value) lt :=
  shorten_namespace value with Logic.inspect (63 <? String.length value)%nat => {
    | exist _ true E := shorten_namespace (strip_hyphens (drop_last value));
    | exist _ false E := value }.
Proof.
  apply Nat.ltb_lt in E.
  pose proof (strip_hyphens_length (drop_last value)) as H.
  rewrite length_drop_last in H. lia.
Qed.

End Shorten.

(** ** Python values

    Objects decoded from JSON (the PVC registry, the workspace custom
    resource) and the dictionaries handed to the job by its caller.  JSON
    numbers are restricted to integers. *)

Set Warnings "-register-all".

Inductive pyobj : Type :=
| PNone
| PBool (b : bool)
| PInt (z : Z)
| PStr (s : string)
| PList (l : list pyobj)
| PDict (d : list (string * pyobj)).

(** Exceptions: the class and the text [str(e)]. *)
Inductive ExnClass : Type :=
| ApiException | AttributeError | KeyError | TypeError | IndexError
| JSONDecodeError | OtherException (name : string).

Record Exn : Type := mkExn { exn_class : ExnClass; exn_str : string }.

Inductive Result (A : Type) : Type :=
| Return (a : A)
| Raise (e : Exn).
Arguments Return {A} a.
Arguments Raise {A} e.

Module Py.

(** Truth value of an object in a condition. *)
Definition truthy (o : pyobj) : bool :=
  match o with
  | PNone => false
  | PBool b => b
  | PInt z => negb (z =? 0)%Z
  | PStr s => negb (String.eqb s "")
  | PList l => match l with [] => false | _ => true end
  | PDict d => match d with [] => false | _ => true end
  end.

Definition type_name (o : pyobj) : string :=
  match o with
  | PNone => "NoneType" | PBool _ => "bool" | PInt _ => "int"
  | PStr _ => "str" | PList _ => "list" | PDict _ => "dict"
  end.

Fixpoint assoc (k : string) (d : list (string * pyobj)) : option pyobj :=
  match d with
  | [] => None
  | (k', v) :: d' => if String.eqb k k' then Some v else assoc k d'
  end.

Definition no_attribute (o : pyobj) (attr : string) : Exn :=
  mkExn AttributeError
    ("'" +:+ type_name o +:+ "' object has no attribute '" +:+ attr +:+ "'").

(** [o[key]] for a string key. *)
Definition getitem (o : pyobj) (key : string) : Result pyobj :=
  match o with
  | PDict d =>
      match assoc key d with
      | Some v => Return v
      | None => Raise (mkExn KeyError ("'" +:+ key +:+ "'"))
      end
  | PList _ =>
      Raise (mkExn TypeError "list indices must be integers or slices, not str")
  | PStr _ => Raise (mkExn TypeError "string indices must be integers")
  | _ => Raise (mkExn TypeError
                  ("'" +:+ type_name o +:+ "' object is not subscriptable"))
  end.

(** [o.get(key)]: only dictionaries have the method. *)
Definition get (o : pyobj) (key : string) : Result pyobj :=
  match o with
  | PDict d => Return (default PNone (assoc key d))
  | _ => Raise (no_attribute o "get")
  end.

Fixpoint chars (s : string) : list pyobj :=
  match s with
  | EmptyString => []
  | String c s' => PStr (String c EmptyString) :: chars s'
  end.

(** The items a [for] loop visits. *)
Definition iter (o : pyobj) : Result (list pyobj) :=
  match o with
  | PList l => Return l
  | PDict d => Return (map (fun kv => PStr (fst kv)) d)
  | PStr s => Return (chars s)
  | _ => Raise (mkExn TypeError
                  ("'" +:+ type_name o +:+ "' object is not iterable"))
  end.

(** Keys of a dictionary built at run time: lists and dictionaries are
    not hashable; [True] and [1] (and [False] and [0]) are the same key. *)
Definition hashable (o : pyobj) : Result unit :=
  match o with
  | PList _ | PDict _ =>
      Raise (mkExn TypeError ("unhashable type: '" +:+ type_name o +:+ "'"))
  | _ => Return tt
  end.

Definition key_eqb (a b : pyobj) : bool :=
  match a, b with
  | PNone, PNone => true
  | PStr s, PStr t => String.eqb s t
  | PInt x, PInt y => (x =? y)%Z
  | PBool x, PBool y => Bool.eqb x y
  | PBool x, PInt y | PInt y, PBool x => (y =? (if x then 1 else 0))%Z
  | _, _ => false
  end.

Fixpoint lookup_key (k : pyobj) (d : list (pyobj * pyobj)) : option pyobj :=
  match d with
  | [] => None
  | (k', v) :: d' => if key_eqb k k' then Some v else lookup_key k d'
  end.

(** [s.replace("pv-", "", 1)] on an arbitrary object. *)
Definition replace_first (o : pyobj) (old : string) : Result string :=
  match o with
  | PStr s => Return (PyStr.remove_first old s)
  | _ => Raise (no_attribute o "replace")
  end.

End Py.

(** ** Kubernetes client models (the fields the sources set or read) *)

(** A point in time; later instants are larger. *)
Definition datetime : Type := Z.

Record V1KeyToPath := mkKeyToPath
  { ktp_key : string; ktp_path : string; ktp_mode : Z }.

Record V1ConfigMapVolumeSource := mkConfigMapVolumeSource
  { cmvs_name : string; cmvs_optional : bool;
    cmvs_items : list V1KeyToPath; cmvs_default_mode : Z }.

Record V1PersistentVolumeClaimVolumeSource := mkClaimSource
  { pvcs_claim_name : pyobj; pvcs_read_only : option bool }.

Record V1Volume := mkVolume
  { vol_name : string;
    vol_config_map : option V1ConfigMapVolumeSource;
    vol_persistent_volume_claim : option V1PersistentVolumeClaimVolumeSource }.

Record V1VolumeMount := mkVolumeMount
  { vm_mount_path : string; vm_name : string; vm_read_only : option bool }.

Record V1EnvVar := mkEnvVar
  { env_name : string; env_value : option string;
    env_value_from_field_path : option string }.

Record V1ResourceRequirements := mkResources
  { res_requests : list (string * string); res_limits : list (string * string) }.

Record V1Container := mkContainer
  { c_image : string; c_name : string; c_image_pull_policy : string;
    c_args : list string; c_command : list string;
    c_volume_mounts : list V1VolumeMount; c_env : list V1EnvVar;
    c_lifecycle_pre_stop_exec : list string;
    c_resources : V1ResourceRequirements }.

Record V1PodSecurityContext := mkPodSecurityContext
  { run_as_group : pyobj; run_as_user : pyobj; fs_group : pyobj }.

Record V1ObjectMeta := mkObjectMeta
  { meta_name : string; meta_labels : list (string * string);
    meta_namespace : option string }.

Record V1PodSpec := mkPodSpec
  { ps_restart_policy : string; ps_containers : list V1Container;
    ps_volumes : list V1Volume; ps_node_selector : pyobj;
    ps_security_context : V1PodSecurityContext;
    ps_termination_grace_period_seconds : Z;
    ps_service_account_name : string;
    ps_tolerations : list (list (string * string)) }.

Record V1PodTemplateSpec := mkPodTemplateSpec
  { pts_spec : V1PodSpec; pts_metadata : V1ObjectMeta }.

Record V1JobSpec := mkJobSpec
  { js_backoff_limit : Z; js_template : V1PodTemplateSpec }.

Record V1JobCondition := mkJobCondition
  { cond_type : string; last_transition_time : option datetime }.

Record V1JobStatus := mkJobStatus
  { st_active : option Z; st_start_time : option datetime;
    st_succeeded : option Z; st_failed : option Z;
    st_completion_time : option datetime;
    st_conditions : option (list V1JobCondition) }.

Record V1Job := mkJob
  { job_api_version : string; job_kind : string;
    job_metadata : V1ObjectMeta; job_spec : V1JobSpec;
    job_status : option V1JobStatus }.

Record V1Pod := mkPod { pod_metadata_name : string }.

Record V1ConfigMap := mkConfigMap { cm_data : option (gmap string string) }.

(** ** Calls to the outside world

    Every call the sources make to the cluster, the logger, [print] and
    [time.sleep] is recorded, in order, in a trace. *)

Inductive LogLevel : Type := INFO | WARNING | ERROR.

Inductive Event : Type :=
| ECreateJob (namespace : string) (body : V1Job)
| EReadJobStatus (name namespace : string)
| EListPods (namespace label_selector : string)
| EReadPodLog (name namespace container : string)
| EReadConfigMap (name namespace : string)
| EIsPvcCreated (name : pyobj)
| ELoadInclusterConfig
| EGetCustomObject (group version namespace plural name : string)
| ESleep (seconds : Z)
| ELog (level : LogLevel) (message : string)
| EPrint (text : string).

Definition Trace : Type := list Event.

(** ** The monad of the embedding: a trace and an exception *)

Definition M (A : Type) : Type := Trace -> Result A * Trace.

Definition ret {A} (a : A) : M A := fun t => (Return a, t).

Definition raise {A} (e : Exn) : M A := fun t => (Raise e, t).

Definition bind {A B} (m : M A) (k : A -> M B) : M B :=
  fun t => match m t with
           | (Return a, t') => k a t'
           | (Raise e, t') => (Raise e, t')
           end.

(** A pure computation that may raise. *)
Definition lift {A} (r : Result A) : M A := fun t => (r, t).

(** An event without an answer (logging, sleeping). *)
Definition emit (ev : Event) : M unit := fun t => (Return tt, t ++ [ev]).

(** A call to a collaborator: the answer may depend on everything that
    happened before the call. *)
Definition call {A} (ev : Event) (answer : Trace -> Result A) : M A :=
  fun t => (answer t, t ++ [ev]).

(** [try: m  except <classes>: h]. *)
Definition try_except {A} (m : M A) (catches : ExnClass -> bool)
    (h : Exn -> M A) : M A :=
  fun t => match m t with
           | (Raise e, t') =>
               if catches (exn_class e) then h e t' else (Raise e, t')
           | r => r
           end.

Definition any_Exception (c : ExnClass) : bool := true.

Definition is_ApiException (c : ExnClass) : bool :=
  match c with ApiException => true | _ => false end.

Definition is_JSONDecodeError (c : ExnClass) : bool :=
  match c with JSONDecodeError => true | _ => false end.

Declare Scope py_scope.
Delimit Scope py_scope with py.
Notation "x <- m ;; k" := (bind m (fun x => k))
  (at level 100, m at next level, right associativity) : py_scope.
Notation "m ;; k" := (bind m (fun _ => k))
  (at level 100, right associativity) : py_scope.
Local Open Scope py_scope.

(** [for x in items: acc = body(acc, x)]. *)
Fixpoint for_each {A B} (items : list A) (body : B -> A -> M B) (acc : B) : M B :=
  match items with
  | [] => ret acc
  | x :: rest => acc' <- body acc x ;; for_each rest body acc'
  end.

Definition logger_info (msg : string) : M unit := emit (ELog INFO msg).
Definition logger_warning (msg : string) : M unit := emit (ELog WARNING msg).
Definition logger_error (msg : string) : M unit := emit (ELog ERROR msg).
Definition print (text : string) : M unit := emit (EPrint text).

(** ** Collaborators *)

(** [ContainerNames] of job.py has the single member [CALRISSIAN]; the
    three sidecar members are commented out in the source. *)
Inductive ContainerNames : Type := CALRISSIAN.

Definition ContainerNames_value (c : ContainerNames) : string :=
  match c with CALRISSIAN => "calrissian" end.

(** The expression [ContainerNames.<member>]: looking up a name that is not
    a member of the enumeration raises [AttributeError]. *)
Definition ContainerNames_getattr (member : string) : Result ContainerNames :=
  if String.eqb member "CALRISSIAN" then Return CALRISSIAN
  else Raise (mkExn AttributeError member).

(** Handles of the cluster API.  Each answer is a function of the history
    of calls, so that the cluster may change between two calls. *)
Record CoreV1Api := mkCoreV1Api
  { list_namespaced_pod :
      Trace -> string -> string -> Result (list V1Pod);
    read_namespaced_pod_log :
      Trace -> string -> string -> string -> Result string;
    read_namespaced_config_map :
      Trace -> string -> string -> Result V1ConfigMap }.

Record BatchV1Api := mkBatchV1Api
  { create_namespaced_job : Trace -> string -> V1Job -> Result V1Job;
    read_namespaced_job_status : Trace -> string -> string -> Result V1Job }.

(** [CalrissianContext] (pycalrissian/context.py), as far as the two
    sources use it. *)
Record CalrissianContext := mkContext
  { ctx_namespace : string;
    ctx_service_account : string;
    ctx_calling_service_account : string;
    ctx_calrissian_wdir : string;
    is_pvc_created : Trace -> pyobj -> Result bool;
    core_v1_api : CoreV1Api;
    batch_v1_api : BatchV1Api }.

(** What the sources take from the Python runtime and from the
    [kubernetes] package rather than from the context. *)
Record Runtime := mkRuntime
  { json_loads : string -> Result pyobj;
    py_repr : pyobj -> string;
    os_getenv : string -> option string;
    load_incluster_config : Trace -> Result unit;
    get_namespaced_custom_object :
      Trace -> string -> string -> string -> string -> string -> Result pyobj }.

(** The fields of a [CalrissianJob] once [__init__] has run. *)
Record CalrissianJob := mkCalrissianJob
  { runtime_context : CalrissianContext;
    cwl_entry_point : option string;
    pod_env_vars : pyobj;
    pod_node_selector : pyobj;
    max_ram : string;
    max_cores : string;
    security_context : pyobj;
    service_account : string;
    calling_service_account : string;
    debug : bool;
    no_read_only : bool;
    keep_pods : bool;
    backoff_limit : Z;
    tool_logs : bool;
    calling_workspace : string;
    executing_workspace : string;
    job_id : string;
    job_name : string }.

(** The two attributes [__init__] sets to fixed strings (lines 67, 103). *)
Definition volume_calrissian_wdir (self : CalrissianJob) : string :=
  "volume-calrissian-wdir".
Definition calrissian_base_path (self : CalrissianJob) : string :=
  "/calrissian".

(** [list.extend] and [list.append]. *)
Definition extend {A} (l items : list A) : list A := l ++ items.
Definition append {A} (l : list A) (x : A) : list A := l ++ [x].

Section Sources.

Variable rt : Runtime.

(** The text an f-string puts for an object. *)
Definition py_str (o : pyobj) : string :=
  match o with
  | PNone => "None"
  | PBool true => "True"
  | PBool false => "False"
  | PInt z => pretty z
  | PStr s => s
  | _ => py_repr rt o
  end.

(** *** job.py *)

(** [CalrissianJob._get_calrissian_args]. *)
Definition _get_calrissian_args (self : CalrissianJob) : list string :=
  let args := [] in
  let args := extend args
    ["--stdout"; PyStr.os_path_join (calrissian_base_path self) "output.json"] in
  let args := extend args
    ["--stderr"; PyStr.os_path_join (calrissian_base_path self) "stderr.log"] in
  let args := extend args
    ["--usage-report";
     PyStr.os_path_join (calrissian_base_path self) "report.json"] in
  let args := extend args
    ["--max-ram"; max_ram self; "--max-cores"; max_cores self] in
  let args := extend args ["--pod-serviceaccount"; service_account self] in
  let args := extend args
    ["--tmp-outdir-prefix"; calrissian_base_path self +:+ "/"] in
  let args := extend args ["--outdir"; calrissian_base_path self +:+ "/"] in
  let args :=
    if Py.truthy (pod_node_selector self)
    then extend args
           ["--pod-nodeselectors";
            PyStr.os_path_join "/pod-node-selector" "pod_nodeselectors.yml"]
    else args in
  let args :=
    if Py.truthy (pod_env_vars self)
    then extend args
           ["--pod-env-vars";
            PyStr.os_path_join "/pod-env-vars" "pod_env_vars.json"]
    else args in
  let args := if debug self then append args "--debug" else args in
  let args := if no_read_only self then append args "--no-read-only" else args in
  let args :=
    if tool_logs self
    then extend args ["--tool-logs-basepath"; calrissian_base_path self]
    else args in
  let args := extend args ["--executing-workspace"; executing_workspace self] in
  let args := extend args ["--calling-workspace"; calling_workspace self] in
  let args := extend args
    ["--calling-service-account"; calling_service_account self] in
  let args := extend args ["--enable-ext"] in
  let args :=
    match cwl_entry_point self with
    | Some entry =>
        extend args
          ["/workflow-input/workflow.cwl#" +:+ entry;
           "/workflow-params/params.yml"]
    | None =>
        extend args
          ["/workflow-input/workflow.cwl"; "/workflow-params/params.yml"]
    end in
  args.

(** [CalrissianJob.create_container] (static). *)
Definition create_container (image name : string) (args command : list string)
    (volume_mounts : list V1VolumeMount) (env : list V1EnvVar)
    (pull_policy : string) : V1Container :=
  {| c_image := image; c_name := name; c_image_pull_policy := pull_policy;
     c_args := args; c_command := command;
     c_volume_mounts := volume_mounts; c_env := env;
     c_lifecycle_pre_stop_exec := ["/bin/sh"; "-c"; "sleep 30"];
     c_resources :=
       {| res_requests := [("cpu", "1000m"); ("memory", "1G")];
          res_limits := [("cpu", "2000m"); ("memory", "2G")] |} |}.

(** [CalrissianJob.create_pod_template] (static): the three subscripts of
    [security_context] are evaluated in the order the source writes them. *)
Definition create_pod_template (name : string) (containers : list V1Container)
    (volumes : list V1Volume) (security_context : pyobj)
    (service_account : string) (node_selector : pyobj) : M V1PodTemplateSpec :=
  group <- lift (Py.getitem security_context "runAsGroup") ;;
  user <- lift (Py.getitem security_context "runAsUser") ;;
  fsg <- lift (Py.getitem security_context "fsGroup") ;;
  ret {| pts_spec :=
           {| ps_restart_policy := "Never";
              ps_containers := containers;
              ps_volumes := volumes;
              ps_node_selector := node_selector;
              ps_security_context :=
                {| run_as_group := group; run_as_user := user;
                   fs_group := fsg |};
              ps_termination_grace_period_seconds := 120;
              ps_service_account_name := service_account;
              ps_tolerations :=
                [[("key", "ades.zoo.org/dedicated"); ("operator", "Equal");
                  ("value", "job"); ("effect", "NoSchedule")]] |};
         pts_metadata :=
           {| meta_name := name; meta_labels := [("pod_name", name)];
              meta_namespace := None |} |}.

(** [CalrissianJob.create_job] (static). *)
Definition create_job (name : string) (pod_template : V1PodTemplateSpec)
    (namespace : string) (backoff_limit : Z) : V1Job :=
  {| job_api_version := "batch/v1"; job_kind := "Job";
     job_metadata :=
       {| meta_name := name; meta_labels := [("job_name", name)];
          meta_namespace := Some namespace |};
     job_spec :=
       {| js_backoff_limit := backoff_limit; js_template := pod_template |};
     job_status := None |}.

(** [CalrissianJob._get_calrissian_container]. *)
Definition _get_calrissian_container (self : CalrissianJob)
    (volume_mounts : list V1VolumeMount) : M V1Container :=
  let env_vars := [] in
  let calrissian_pod_name_env_var :=
    {| env_name := "CALRISSIAN_POD_NAME"; env_value := None;
       env_value_from_field_path := Some "metadata.name" |} in
  let env_vars := append env_vars calrissian_pod_name_env_var in
  env_vars <-
    (if keep_pods self
     then
       let calrissian_delete_pod_env_var :=
         {| env_name := "CALRISSIAN_DELETE_PODS"; env_value := Some "false";
            env_value_from_field_path := None |} in
       let env_vars := append env_vars calrissian_delete_pod_env_var in
       logger_info "pods created by calrissian will not be deleted" ;;
       ret env_vars
     else ret env_vars) ;;
  let calrissian_image :=
    default "terradue/calrissian:0.12.0" (os_getenv rt "CALRISSIAN_IMAGE") in
  logger_info ("using Calrissian image: " +:+ calrissian_image) ;;
  name <- lift (ContainerNames_getattr "CALRISSIAN") ;;
  ret (create_container calrissian_image (ContainerNames_value name)
         (_get_calrissian_args self) ["calrissian"] volume_mounts env_vars
         "Always").

(** The pair of lists [to_k8s_job] grows: [volumes] and [volume_mounts]. *)
Definition Mounts : Type := (list V1Volume * list V1VolumeMount)%type.

(** [volumes.append(v); volume_mounts.append(m)]. *)
Definition append_pair (acc : Mounts) (v : V1Volume) (m : V1VolumeMount) : Mounts :=
  (append (fst acc) v, append (snd acc) m).

Definition config_map_volume (name cm_name key path : string) : V1Volume :=
  {| vol_name := name;
     vol_config_map :=
       Some {| cmvs_name := cm_name; cmvs_optional := false;
               cmvs_items := [ {| ktp_key := key; ktp_path := path;
                                  ktp_mode := 420 |} ];
               cmvs_default_mode := 420 |};
     vol_persistent_volume_claim := None |}.

(** [to_k8s_job], lines 158-259: the three fixed volumes, then the
    environment-variables and node-selector volumes when the job has them. *)
Definition initial_mounts (self : CalrissianJob) : Mounts :=
  let workflow_volume :=
    config_map_volume "volume-cwl-workflow" ("cwl-workflow-" +:+ job_id self)
      "cwl-workflow" "workflow.cwl" in
  let workflow_volume_mount :=
    {| vm_mount_path := "/workflow-input"; vm_name := "volume-cwl-workflow";
       vm_read_only := None |} in
  let params_volume :=
    config_map_volume "volume-params" ("params-" +:+ job_id self)
      "params" "params.yml" in
  let params_volume_mount :=
    {| vm_mount_path := "/workflow-params"; vm_name := "volume-params";
       vm_read_only := None |} in
  let calrissian_wdir_volume :=
    {| vol_name := volume_calrissian_wdir self;
       vol_config_map := None;
       vol_persistent_volume_claim :=
         Some {| pvcs_claim_name :=
                   PStr (ctx_calrissian_wdir (runtime_context self));
                 pvcs_read_only := Some false |} |} in
  let calrissian_wdir_volume_mount :=
    {| vm_mount_path := calrissian_base_path self;
       vm_name := volume_calrissian_wdir self;
       vm_read_only := Some false |} in
  let acc : Mounts :=
    ([workflow_volume; params_volume; calrissian_wdir_volume],
     [workflow_volume_mount; params_volume_mount;
      calrissian_wdir_volume_mount]) in
  let acc :=
    if Py.truthy (pod_env_vars self)
    then
      append_pair acc
        (config_map_volume "volume-pod-env-vars"
           ("pod-env-vars-" +:+ job_id self) "pod-env-vars" "pod_env_vars.json")
        {| vm_mount_path := "/pod-env-vars"; vm_name := "volume-pod-env-vars";
           vm_read_only := None |}
    else acc in
  let acc :=
    if Py.truthy (pod_node_selector self)
    then
      append_pair acc
        (config_map_volume "volume-pod-node-selector"
           ("pod-node-selector-" +:+ job_id self) "pod-node-selector"
           "pod_nodeselectors.yml")
        {| vm_mount_path := "/pod-node-selector";
           vm_name := "volume-pod-node-selector"; vm_read_only := None |}
    else acc in
  acc.

(** [to_k8s_job], lines 261-271: the PVC registry.  When the read fails the
    handler logs and leaves [workspace_config = None]; the next statement
    reads [workspace_config.data]. *)
Definition read_pvcs_list (self : CalrissianJob) : M pyobj :=
  let ctx := runtime_context self in
  workspace_config <-
    try_except
      (cm <- call (EReadConfigMap "workspace-config" (ctx_namespace ctx))
               (fun t => read_namespaced_config_map (core_v1_api ctx) t
                           "workspace-config" (ctx_namespace ctx)) ;;
       ret (Some cm))
      any_Exception
      (fun e =>
         logger_error
           ("Failed to read 'workspace-config' ConfigMap: " +:+ exn_str e) ;;
         ret None) ;;
  pvcs_json <-
    match workspace_config with
    | None => raise (Py.no_attribute PNone "data")
    | Some cm =>
        match cm_data cm with
        | None => raise (Py.no_attribute PNone "get")
        | Some data => ret (default "[]" (data !! "pvcs"))
        end
    end ;;
  try_except (lift (json_loads rt pvcs_json)) is_JSONDecodeError
    (fun e =>
       logger_error ("Error parsing PVCs JSON: " +:+ exn_str e) ;;
       ret (PList [])).

(** [to_k8s_job], lines 273-294: the body of [for pvc_map in pvcs_list]. *)
Definition mount_workspace_pvc (self : CalrissianJob) (acc : Mounts)
    (pvc_map : pyobj) : M Mounts :=
  let ctx := runtime_context self in
  pvc_name <- lift (Py.get pvc_map "pvcName") ;;
  pv_name <- lift (Py.get pvc_map "pvName") ;;
  created <-
    (if Py.truthy pvc_name
     then call (EIsPvcCreated pvc_name) (fun t => is_pvc_created ctx t pvc_name)
     else ret false) ;;
  if created : bool then
    let volume_name := "workspace-efs-" +:+ py_str pvc_name in
    let efs_pvc_volume :=
      {| vol_name := volume_name; vol_config_map := None;
         vol_persistent_volume_claim :=
           Some {| pvcs_claim_name := pvc_name; pvcs_read_only := None |} |} in
    let efs_volume_mount :=
      {| vm_mount_path := "/workspace/" +:+ py_str pv_name;
         vm_name := volume_name; vm_read_only := Some false |} in
    logger_info
      ("Mounting workspace EFS volume at " +:+ vm_mount_path efs_volume_mount
       +:+ ".") ;;
    ret (append_pair acc efs_pvc_volume efs_volume_mount)
  else ret acc.

(** [pv_name_map.update({key: value})]. *)
Definition dict_update (d : list (pyobj * pyobj)) (key value : pyobj) :
    M (list (pyobj * pyobj)) :=
  lift (Py.hashable key) ;; ret ((key, value) :: d).

(** [pv_name_map[key]]. *)
Definition dict_getitem (d : list (pyobj * pyobj)) (key : pyobj) : M pyobj :=
  lift (Py.hashable key) ;;
  match Py.lookup_key key d with
  | Some v => ret v
  | None => raise (mkExn KeyError (py_repr rt key))
  end.

(** [to_k8s_job], lines 328-352: the body of
    [for access_point in efs_access_points]. *)
Definition mount_access_point (pv_name_map : list (pyobj * pyobj))
    (acc : Mounts) (access_point : pyobj) : M Mounts :=
  ap_name <- lift (Py.getitem access_point "name") ;;
  pvc_mount_path <- dict_getitem pv_name_map ap_name ;;
  basic_pv_name <- lift (Py.replace_first pvc_mount_path "pv-") ;;
  let pv_name := "temp-pv-" +:+ basic_pv_name in
  let pvc_name := "temp-pvc-workspace-" +:+ basic_pv_name in
  logger_info ("Mount persistent volume " +:+ pv_name) ;;
  let efs_pvc_volume :=
    {| vol_name := pv_name; vol_config_map := None;
       vol_persistent_volume_claim :=
         Some {| pvcs_claim_name := PStr pvc_name; pvcs_read_only := None |} |} in
  let efs_volume_mount :=
    {| vm_mount_path := "/workspace/" +:+ py_str pvc_mount_path;
       vm_name := pv_name; vm_read_only := None |} in
  logger_info
    ("Mounting calling workspace EFS volume " +:+ pv_name +:+ " with claim "
     +:+ pvc_name +:+ " at " +:+ vm_mount_path efs_volume_mount +:+ ".") ;;
  ret (append_pair acc efs_pvc_volume efs_volume_mount).

(** The access points of a workspace resource:
    [ws["status"]["aws"]["efs"]["accessPoints"]]. *)
Definition efs_access_points_of (ws : pyobj) : Result pyobj :=
  match Py.getitem ws "status" with
  | Return st =>
      match Py.getitem st "aws" with
      | Return aws =>
          match Py.getitem aws "efs" with
          | Return efs => Py.getitem efs "accessPoints"
          | Raise e => Raise e
          end
      | Raise e => Raise e
      end
  | Raise e => Raise e
  end.

(** [ws["spec"]["storage"]["persistentVolumes"]]. *)
Definition persistent_volumes_of (ws : pyobj) : Result pyobj :=
  match Py.getitem ws "spec" with
  | Return sp =>
      match Py.getitem sp "storage" with
      | Return sto => Py.getitem sto "persistentVolumes"
      | Raise e => Raise e
      end
  | Raise e => Raise e
  end.

(** [to_k8s_job], lines 298-352: the branch taken when the calling
    workspace is not the executing one. *)
Definition mount_calling_workspace (self : CalrissianJob) (acc : Mounts) :
    M Mounts :=
  call ELoadInclusterConfig (load_incluster_config rt) ;;
  workspace <-
    try_except
      (call (EGetCustomObject "core.telespazio-uk.io" "v1alpha1" "workspaces"
               "workspaces" (calling_workspace self))
         (fun t => get_namespaced_custom_object rt t "core.telespazio-uk.io"
                     "v1alpha1" "workspaces" "workspaces"
                     (calling_workspace self)))
      any_Exception
      (fun e =>
         logger_error ("Error in getting workspace CRD: " +:+ exn_str e) ;;
         raise e) ;;
  efs_access_points <- lift (efs_access_points_of workspace) ;;
  persistent_volumes <- lift (persistent_volumes_of workspace) ;;
  pvs <- lift (Py.iter persistent_volumes) ;;
  pv_name_map <-
    for_each pvs
      (fun pv_name_map pv =>
         source <- lift (Py.getitem pv "volumeSource") ;;
         key <- lift (Py.getitem source "accessPointName") ;;
         value <- lift (Py.getitem pv "name") ;;
         dict_update pv_name_map key value)
      [] ;;
  access_points <- lift (Py.iter efs_access_points) ;;
  for_each access_points (mount_access_point pv_name_map) acc.

(** [CalrissianJob.to_k8s_job]. *)
Definition to_k8s_job (self : CalrissianJob) : M V1Job :=
  let acc := initial_mounts self in
  pvcs_list <- read_pvcs_list self ;;
  pvc_maps <- lift (Py.iter pvcs_list) ;;
  acc <- for_each pvc_maps (mount_workspace_pvc self) acc ;;
  acc <-
    (if negb (String.eqb (calling_workspace self) (executing_workspace self))
     then mount_calling_workspace self acc
     else ret acc) ;;
  container <- _get_calrissian_container self (snd acc) ;;
  pod_spec <-
    create_pod_template "calrissian_pod" [container] (fst acc)
      (security_context self) (service_account self)
      (pod_node_selector self) ;;
  logger_info
    ("Created pod template with service account " +:+ service_account self) ;;
  ret (create_job (job_name self) pod_spec
         (ctx_namespace (runtime_context self)) (backoff_limit self)).

(** *** execution.py *)

Inductive JobStatus : Type := ACTIVE | FAILED | SUCCEEDED.

(** A [CalrissianExecution]: [__init__] sets [job], [runtime_context] and
    [namespaced_job = None]; the attribute [namespaced_job_name] exists only
    once [submit] has assigned it. *)
Record CalrissianExecution := mkExecution
  { job : CalrissianJob;
    exec_runtime_context : CalrissianContext;
    namespaced_job : option V1Job;
    namespaced_job_name : option string }.

Definition CalrissianExecution_init (job : CalrissianJob)
    (runtime_context : CalrissianContext) : CalrissianExecution :=
  {| job := job; exec_runtime_context := runtime_context;
     namespaced_job := None; namespaced_job_name := None |}.

(** [CalrissianExecution.submit]. *)
Definition submit (self : CalrissianExecution) : M CalrissianExecution :=
  let ctx := exec_runtime_context self in
  logger_info ("submit job " +:+ job_name (job self)) ;;
  body <- to_k8s_job (job self) ;;
  response <-
    call (ECreateJob (ctx_namespace ctx) body)
      (fun t => create_namespaced_job (batch_v1_api ctx) t (ctx_namespace ctx)
                  body) ;;
  logger_info ("job " +:+ job_name (job self) +:+ " submitted") ;;
  ret {| job := job self; exec_runtime_context := ctx;
         namespaced_job := Some response;
         namespaced_job_name := Some (job_name (job self)) |}.

(** The expression [self.namespaced_job_name]. *)
Definition get_namespaced_job_name (self : CalrissianExecution) : M string :=
  match namespaced_job_name self with
  | Some name => ret name
  | None =>
      raise (mkExn AttributeError
               "'CalrissianExecution' object has no attribute 'namespaced_job_name'")
  end.

(** The call [read_namespaced_job_status(name=..., namespace=...)] followed
    by the caller's first read of an attribute of [response.status], which
    raises [AttributeError] naming that attribute when the status is
    [None]. *)
Definition read_status (self : CalrissianExecution) (attribute : string) :
    M V1JobStatus :=
  let ctx := exec_runtime_context self in
  name <- get_namespaced_job_name self ;;
  response <-
    call (EReadJobStatus name (ctx_namespace ctx))
      (fun t => read_namespaced_job_status (batch_v1_api ctx) t name
                  (ctx_namespace ctx)) ;;
  match job_status response with
  | Some status => ret status
  | None => raise (Py.no_attribute PNone attribute)
  end.

(** Truth value of an optional count: [None] and [0] are false. *)
Definition count_truthy (c : option Z) : bool :=
  match c with
  | Some z => negb (z =? 0)%Z
  | None => false
  end.

Definition is_None {A} (o : option A) : bool :=
  match o with None => true | Some _ => false end.

Definition newline : string := String (ascii_of_nat 10) EmptyString.

(** [CalrissianExecution.get_status]; the result is [None] when no [return]
    statement is reached. *)
Definition get_status (self : CalrissianExecution) : M (option JobStatus) :=
  try_except
    (status <- read_status self "active" ;;
     if is_None (st_active status) && is_None (st_start_time status)
     then ret (Some ACTIVE)
     else if count_truthy (st_active status) then ret (Some ACTIVE)
     else if count_truthy (st_succeeded status) then ret (Some SUCCEEDED)
     else if count_truthy (st_failed status) then ret (Some FAILED)
     else ret None)
    is_ApiException
    (fun e =>
       logger_error
         ("Exception when calling get status: " +:+ exn_str e +:+ newline) ;;
       raise e).

(** [CalrissianExecution.is_complete]. *)
Definition is_complete (self : CalrissianExecution) : M bool :=
  st <- get_status self ;;
  match st with
  | Some SUCCEEDED | Some FAILED => ret true
  | _ => ret false
  end.

(** [CalrissianExecution.is_succeeded]. *)
Definition is_succeeded (self : CalrissianExecution) : M bool :=
  st <- get_status self ;;
  match st with
  | Some SUCCEEDED => ret true
  | _ => ret false
  end.

(** [CalrissianExecution.is_active]. *)
Definition is_active (self : CalrissianExecution) : M bool :=
  st <- get_status self ;;
  match st with
  | Some ACTIVE => ret true
  | _ => ret false
  end.

(** [CalrissianExecution._get_container_log]. *)
Definition _get_container_log (self : CalrissianExecution)
    (container : ContainerNames) : M string :=
  let ctx := exec_runtime_context self in
  try_except
    (let pod_label_selector := "job-name=" +:+ job_name (job self) in
     pods_list <-
       call (EListPods (ctx_namespace ctx) pod_label_selector)
         (fun t => list_namespaced_pod (core_v1_api ctx) t (ctx_namespace ctx)
                     pod_label_selector) ;;
     pod_name <-
       match pods_list with
       | pod :: _ => ret (pod_metadata_name pod)
       | [] => raise (mkExn IndexError "list index out of range")
       end ;;
     call (EReadPodLog pod_name (ctx_namespace ctx)
             (ContainerNames_value container))
       (fun t => read_namespaced_pod_log (core_v1_api ctx) t pod_name
                   (ctx_namespace ctx) (ContainerNames_value container)))
    is_ApiException
    (fun e =>
       print ("Exception when calling get status: " +:+ exn_str e +:+ newline) ;;
       raise e).

(** The truth value of the expression [self.<method>] without a call: a
    bound method object, which is true whatever the method would return. *)
Definition bound_method_truthy {A} (method : M A) : bool := true.

(** [CalrissianExecution.get_output]. *)
Definition get_output (self : CalrissianExecution) : M (option pyobj) :=
  if bound_method_truthy (is_succeeded self) then
    container <- lift (ContainerNames_getattr "SIDECAR_OUTPUT") ;;
    body <- _get_container_log self container ;;
    parsed <- lift (json_loads rt body) ;;
    ret (Some parsed)
  else ret None.

(** [CalrissianExecution.get_log]. *)
Definition get_log (self : CalrissianExecution) : M (option string) :=
  if bound_method_truthy (is_complete self) then
    container <- lift (ContainerNames_getattr "CALRISSIAN") ;;
    body <- _get_container_log self container ;;
    ret (Some body)
  else ret None.

(** [CalrissianExecution.get_usage_report]. *)
Definition get_usage_report (self : CalrissianExecution) : M (option pyobj) :=
  if bound_method_truthy (is_complete self) then
    container <- lift (ContainerNames_getattr "SIDECAR_USAGE") ;;
    body <- _get_container_log self container ;;
    parsed <- lift (json_loads rt body) ;;
    ret (Some parsed)
  else ret None.

(** [CalrissianExecution.get_start_time]. *)
Definition get_start_time (self : CalrissianExecution) : M (option datetime) :=
  try_except
    (status <- read_status self "start_time" ;;
     match st_start_time status with
     | Some start => ret (Some start)
     | None => ret None
     end)
    is_ApiException
    (fun e =>
       print ("Exception when calling get status: " +:+ exn_str e +:+ newline) ;;
       raise e).

(** [CalrissianExecution.get_completion_time]. *)
Definition get_completion_time (self : CalrissianExecution) :
    M (option datetime) :=
  try_except
    (status <- read_status self "completion_time" ;;
     match st_completion_time status with
     | Some completion => ret (Some completion)
     | None =>
         match st_conditions status with
         | Some conditions =>
             match conditions with
             | first :: _ => ret (last_transition_time first)
             | [] => raise (mkExn IndexError "list index out of range")
             end
         | None => ret None
         end
     end)
    is_ApiException
    (fun e =>
       print ("Exception when calling get status: " +:+ exn_str e +:+ newline) ;;
       raise e).

(** [time.sleep(interval)]. *)
Definition time_sleep (interval : Z) : M unit :=
  if (interval <? 0)%Z
  then raise (mkExn (OtherException "ValueError")
                "sleep length must be non-negative")
  else emit (ESleep interval).

(** [monitor], lines 149-151: the [while self.is_active()] loop.  [fuel]
    bounds the number of times the condition is evaluated; [None] means the
    bound was reached with the job still active. *)
Fixpoint monitor_while (fuel : nat) (self : CalrissianExecution)
    (interval : Z) (t : Trace) : option (Result unit * Trace) :=
  match fuel with
  | O => None
  | S fuel' =>
      match is_active self t with
      | (Return true, t1) =>
          match (logger_info ("job " +:+ job_name (job self) +:+ " is active") ;;
                 time_sleep interval) t1 with
          | (Return _, t2) => monitor_while fuel' self interval t2
          | (Raise e, t2) => Some (Raise e, t2)
          end
      | (Return false, t1) => Some (Return tt, t1)
      | (Raise e, t1) => Some (Raise e, t1)
      end
  end.

(** [monitor], lines 153-156: what follows the loop. *)
Definition monitor_report (self : CalrissianExecution) : M unit :=
  complete <- is_complete self ;;
  (if complete : bool
   then
     again <- is_complete self ;;
     logger_info ("exection is complete " +:+ py_str (PBool again))
   else ret tt) ;;
  succeeded <- is_succeeded self ;;
  if succeeded : bool then logger_info "outcome: success!" else ret tt.

(** [CalrissianExecution.monitor]. *)
Definition monitor (fuel : nat) (self : CalrissianExecution) (interval : Z)
    (t : Trace) : option (Result unit * Trace) :=
  match is_active self t with
  | (Return true, t1) =>
      match monitor_while fuel self interval t1 with
      | Some (Return _, t2) => Some (monitor_report self t2)
      | Some (Raise e, t2) => Some (Raise e, t2)
      | None => None
      end
  | (Return false, t1) => Some (logger_warning "job is not submitted" t1)
  | (Raise e, t1) => Some (Raise e, t1)
  end.

End Sources.

(** ** Vocabulary of the properties *)

(** A count that is present and not zero. *)
Definition nonzero (c : option Z) : Prop := exists z, c = Some z /\ z <> 0%Z.

(** The status query [get_status] sends for a submitted job. *)
Definition status_query (self : CalrissianExecution) (name : string) : Event :=
  EReadJobStatus name (ctx_namespace (exec_runtime_context self)).

(** The pod lookup [_get_container_log] starts with. *)
Definition pod_lookup (self : CalrissianExecution) : Event :=
  EListPods (ctx_namespace (exec_runtime_context self))
    ("job-name=" +:+ job_name (job self)).

(** The log read that follows it for the pod called [pod_name]. *)
Definition log_read (self : CalrissianExecution) (pod_name : string)
    (container : ContainerNames) : Event :=
  EReadPodLog pod_name (ctx_namespace (exec_runtime_context self))
    (ContainerNames_value container).

Definition is_status_query (ev : Event) : bool :=
  match ev with EReadJobStatus _ _ => true | _ => false end.

Definition no_status_query (events : list Event) : Prop :=
  Forall (fun ev => is_status_query ev = false) events.

(** Number of status queries in a trace. *)
Definition status_queries (t : Trace) : nat :=
  length (List.filter is_status_query t).

(** The status oracle answers [s] to the query number [k] (counting from 0). *)
Definition answers (self : CalrissianExecution) (k : nat) (s : JobStatus) : Prop :=
  forall t, status_queries t = k -> fst (get_status self t) = Return (Some s).

(** The intervals slept, in order. *)
Definition sleeps (events : list Event) : list Z :=
  omap (fun ev => match ev with ESleep s => Some s | _ => None end) events.

(** The specification's reading of the fallback of [get_completion_time]:
    the latest transition time among the conditions. *)
Definition most_recent_transition_time (conditions : list V1JobCondition) :
    option datetime :=
  foldr (fun c latest =>
           match last_transition_time c, latest with
           | Some a, Some b => Some (Z.max a b)
           | Some a, None => Some a
           | None, _ => latest
           end)
        None conditions.

(** The volumes and the volume mounts of a built job. *)
Definition job_volumes (j : V1Job) : list V1Volume :=
  ps_volumes (pts_spec (js_template (job_spec j))).

Definition job_containers (j : V1Job) : list V1Container :=
  ps_containers (pts_spec (js_template (job_spec j))).

Definition job_volume_mounts (j : V1Job) : list V1VolumeMount :=
  flat_map c_volume_mounts (job_containers j).

(** The mount at each position names the volume at the same position. *)
Definition aligned (acc : Mounts) : Prop :=
  vol_name <$> fst acc = vm_name <$> snd acc.

(** The volumes and mounts of the cross-workspace branch are the ones named
    [temp-pv-...]. *)
Definition is_temporary_volume (v : V1Volume) : bool :=
  PyStr.startswith (vol_name v) "temp-pv-".

Definition is_temporary_mount (m : V1VolumeMount) : bool :=
  PyStr.startswith (vm_name m) "temp-pv-".

Definition temporary_volumes (j : V1Job) : list V1Volume :=
  List.filter is_temporary_volume (job_volumes j).

Definition temporary_mounts (j : V1Job) : list V1VolumeMount :=
  List.filter is_temporary_mount (job_volume_mounts j).

(** * An example cluster *)

Definition quote : string := String (ascii_of_nat 34) EmptyString.

(** The registry text [[{"pvcName": "pvc-alice", "pvName": "pv-alice"}]]. *)
Definition demo_registry_text : string :=
  "[{" +:+ quote +:+ "pvcName" +:+ quote +:+ ": " +:+ quote +:+ "pvc-alice"
  +:+ quote +:+ ", " +:+ quote +:+ "pvName" +:+ quote +:+ ": " +:+ quote
  +:+ "pv-alice" +:+ quote +:+ "}]".

(** [json.loads] on the three texts the examples use. *)
Definition demo_json_loads (s : string) : Result pyobj :=
  if String.eqb s "[]" then Return (PList [])
  else if String.eqb s "{}" then Return (PDict [])
  else if String.eqb s demo_registry_text
  then Return (PList [PDict [("pvcName", PStr "pvc-alice");
                             ("pvName", PStr "pv-alice")]])
  else Raise (mkExn JSONDecodeError
                "Expecting value: line 1 column 1 (char 0)").

(** A workspace resource with the given access points and volumes. *)
Definition demo_workspace (access_points persistent_volumes : list pyobj) : pyobj :=
  PDict [("status",
          PDict [("aws",
                  PDict [("efs",
                          PDict [("accessPoints", PList access_points)])])]);
         ("spec",
          PDict [("storage",
                  PDict [("persistentVolumes", PList persistent_volumes)])])].

Definition demo_runtime (workspace : pyobj) : Runtime :=
  {| json_loads := demo_json_loads;
     py_repr := fun _ => "<object>";
     os_getenv := fun _ => None;
     load_incluster_config := fun _ => Return tt;
     get_namespaced_custom_object := fun _ _ _ _ _ _ => Return workspace |}.

Definition demo_context (status_answer : Trace -> Result V1Job)
    (config_answer : Result V1ConfigMap) : CalrissianContext :=
  {| ctx_namespace := "processing";
     ctx_service_account := "calrissian-sa";
     ctx_calling_service_account := "alice-sa";
     ctx_calrissian_wdir := "calrissian-wdir";
     is_pvc_created := fun _ _ => Return true;
     core_v1_api :=
       {| list_namespaced_pod := fun _ _ _ => Return [mkPod "job-1-x7k2p"];
          read_namespaced_pod_log := fun _ _ _ _ => Return "{}";
          read_namespaced_config_map := fun _ _ _ => config_answer |};
     batch_v1_api :=
       {| create_namespaced_job := fun _ _ body => Return body;
          read_namespaced_job_status := fun h _ _ => status_answer h |} |}.

Definition demo_job (ctx : CalrissianContext) (calling executing : string)
    (entry : option string) : CalrissianJob :=
  {| runtime_context := ctx;
     cwl_entry_point := entry;
     pod_env_vars := PDict [];
     pod_node_selector := PNone;
     max_ram := "4G";
     max_cores := "8";
     security_context :=
       PDict [("runAsUser", PInt 0); ("runAsGroup", PInt 0);
              ("fsGroup", PInt 0)];
     service_account := ctx_service_account ctx;
     calling_service_account := ctx_calling_service_account ctx;
     debug := false;
     no_read_only := false;
     keep_pods := false;
     backoff_limit := 2;
     tool_logs := false;
     calling_workspace := calling;
     executing_workspace := executing;
     job_id := "42";
     job_name := "job-1" |}.

(** A submitted execution of [demo_job]. *)
Definition demo_execution (ctx : CalrissianContext) : CalrissianExecution :=
  {| job := demo_job ctx "alice" "alice" None;
     exec_runtime_context := ctx;
     namespaced_job := None;
     namespaced_job_name := Some "job-1" |}.

Definition demo_response (status : V1JobStatus) : V1Job :=
  {| job_api_version := "batch/v1"; job_kind := "Job";
     job_metadata :=
       {| meta_name := "job-1"; meta_labels := [("job_name", "job-1")];
          meta_namespace := Some "processing" |};
     job_spec :=
       {| js_backoff_limit := 2;
          js_template :=
            {| pts_spec :=
                 {| ps_restart_policy := "Never"; ps_containers := [];
                    ps_volumes := []; ps_node_selector := PNone;
                    ps_security_context :=
                      {| run_as_group := PInt 0; run_as_user := PInt 0;
                         fs_group := PInt 0 |};
                    ps_termination_grace_period_seconds := 120;
                    ps_service_account_name := "calrissian-sa";
                    ps_tolerations := [] |};
               pts_metadata :=
                 {| meta_name := "calrissian_pod"; meta_labels := [];
                    meta_namespace := None |} |} |};
     job_status := Some status |}.

Definition status_running : V1JobStatus :=
  {| st_active := Some 1%Z; st_start_time := Some 1000%Z;
     st_succeeded := None; st_failed := None;
     st_completion_time := None; st_conditions := None |}.

Definition status_succeeded : V1JobStatus :=
  {| st_active := None; st_start_time := Some 1000%Z;
     st_succeeded := Some 1%Z; st_failed := None;
     st_completion_time := Some 2000%Z;
     st_conditions :=
       Some [ {| cond_type := "Complete";
                 last_transition_time := Some 2000%Z |} ] |}.

(** A failed job with two conditions and no completion time: the first
    condition was reached at 1500, the second at 1800. *)
Definition status_failed_two_conditions : V1JobStatus :=
  {| st_active := None; st_start_time := Some 1000%Z;
     st_succeeded := None; st_failed := Some 1%Z;
     st_completion_time := None;
     st_conditions :=
       Some [ {| cond_type := "FailureTarget";
                 last_transition_time := Some 1500%Z |};
              {| cond_type := "Failed";
                 last_transition_time := Some 1800%Z |} ] |}.

Definition empty_registry : Result V1ConfigMap :=
  Return {| cm_data := Some ({[ "pvcs" := "[]" ]} : gmap string string) |}.

Definition alice_registry : Result V1ConfigMap :=
  Return {| cm_data :=
              Some ({[ "pvcs" := demo_registry_text ]} : gmap string string) |}.

Definition unreadable_registry : Result V1ConfigMap :=
  Raise (mkExn ApiException "(404) Reason: Not Found").

(** A registry whose stored list is not JSON. *)
Definition garbled_registry : Result V1ConfigMap :=
  Return {| cm_data := Some ({[ "pvcs" := "pvc-alice" ]} : gmap string string) |}.

(** The oracle of the monitoring scenario: ACTIVE for the first two status
    queries, SUCCEEDED from the third on. *)
Definition active_active_succeeded (h : Trace) : Result V1Job :=
  if (status_queries h <? 2)%nat
  then Return (demo_response status_running)
  else Return (demo_response status_succeeded).

Definition running_execution : CalrissianExecution :=
  demo_execution
    (demo_context (fun _ => Return (demo_response status_running))
       empty_registry).

Definition succeeded_execution : CalrissianExecution :=
  demo_execution
    (demo_context (fun _ => Return (demo_response status_succeeded))
       empty_registry).

Definition failed_execution : CalrissianExecution :=
  demo_execution
    (demo_context (fun _ => Return (demo_response status_failed_two_conditions))
       empty_registry).

Definition monitored_execution : CalrissianExecution :=
  demo_execution (demo_context active_active_succeeded empty_registry).

(** The calling workspace [alice] with one access point, resolved to the
    persistent volume [pv-alice-data]. *)
Definition alice_workspace : pyobj :=
  demo_workspace
    [PDict [("name", PStr "ap-1")]]
    [PDict [("name", PStr "pv-alice-data");
            ("volumeSource", PDict [("accessPointName", PStr "ap-1")])]].

(** A calling workspace without access points. *)
Definition bare_workspace : pyobj := demo_workspace [] [].

Definition demo_cluster (config_answer : Result V1ConfigMap) : CalrissianContext :=
  demo_context (fun _ => Return (demo_response status_running)) config_answer.

(** [alice] runs a workflow in the workspace of [bob]. *)
Definition cross_workspace_job : CalrissianJob :=
  demo_job (demo_cluster alice_registry) "alice" "bob" (Some "main").

Definition same_workspace_job : CalrissianJob :=
  demo_job (demo_cluster alice_registry) "alice" "alice" None.

Definition unreadable_registry_job : CalrissianJob :=
  demo_job (demo_cluster unreadable_registry) "alice" "alice" None.

Definition garbled_registry_job : CalrissianJob :=
  demo_job (demo_cluster garbled_registry) "alice" "alice" None.

Definition long_job_name : string :=
  "job-1699999999123456-2b0e4a46-5d1c-4b7e-9d0a-aaaaaaaaaaaa-bb---cccccccccc".

(** * Construction of a job ([CalrissianJob.__init__])

    The constructor stages configuration objects through the context's
    [create_configmap] and writes to the log; its calls are recorded in a
    trace of their own. *)

Inductive StagingEvent : Type :=
| SCreateConfigMap (name key content : string)
| SLog (level : LogLevel) (message : string).

(** What the constructor takes from outside: the two serialisers, the
    context's [create_configmap], the text of [datetime.now().timestamp()]
    and the text of [uuid.uuid4()]. *)
Record Staging := mkStaging
  { yaml_dump : pyobj -> string;
    json_dumps : pyobj -> string;
    create_configmap :
      list StagingEvent -> string -> string -> string -> Result unit;
    now_timestamp : string;
    uuid4 : string }.

(** The parameters of [__init__]; a parameter left out by the caller has
    the default of the signature. *)
Record JobArguments := mkJobArguments
  { arg_cwl : pyobj;
    arg_params : pyobj;
    arg_runtime_context : CalrissianContext;
    arg_calling_workspace : string;
    arg_executing_workspace : string;
    arg_job_id : string;
    arg_cwl_entry_point : option string;
    arg_pod_env_vars : pyobj;
    arg_pod_node_selector : pyobj;
    arg_max_ram : string;
    arg_max_cores : string;
    arg_security_context : pyobj;
    arg_service_account : option string;
    arg_storage_class : option string;
    arg_debug : bool;
    arg_no_read_only : bool;
    arg_keep_pods : bool;
    arg_backoff_limit : Z;
    arg_tool_logs : bool }.

(** The state-and-exception monad over an arbitrary kind of event. *)
Definition Run (E A : Type) : Type := list E -> Result A * list E.

Definition run_ret {E A} (a : A) : Run E A := fun t => (Return a, t).

Definition run_bind {E A B} (m : Run E A) (k : A -> Run E B) : Run E B :=
  fun t => match m t with
           | (Return a, t') => k a t'
           | (Raise e, t') => (Raise e, t')
           end.

Definition run_emit {E} (ev : E) : Run E unit :=
  fun t => (Return tt, t ++ [ev]).

Definition run_call {E A} (ev : E) (answer : list E -> Result A) : Run E A :=
  fun t => (answer t, t ++ [ev]).

Declare Scope run_scope.
Delimit Scope run_scope with run.
Notation "x <- m ;; k" := (run_bind m (fun x => k))
  (at level 100, m at next level, right associativity) : run_scope.
Notation "m ;; k" := (run_bind m (fun _ => k))
  (at level 100, right associativity) : run_scope.

(** [s.replace('.', '')]: every dot is removed. *)
Fixpoint remove_dots (s : string) : string :=
  match s with
  | EmptyString => EmptyString
  | String c s' =>
      if Ascii.eqb c "."%char then remove_dots s' else String c (remove_dots s')
  end.

Section Construction.

Variable stg : Staging.

Local Open Scope run_scope.

Definition staging_info (msg : string) : Run StagingEvent unit :=
  run_emit (SLog INFO msg).

(** [runtime_context.create_configmap(name=..., key=..., content=...)]. *)
Definition stage (name key content : string) : Run StagingEvent unit :=
  run_call (SCreateConfigMap name key content)
    (fun h => create_configmap stg h name key content).

(** [CalrissianJob._create_cwl_cm]. *)
Definition _create_cwl_cm (job_id : string) (cwl : pyobj) :
    Run StagingEvent unit :=
  stage ("cwl-workflow-" +:+ job_id) "cwl-workflow" (yaml_dump stg cwl).

(** [CalrissianJob._create_params_cm]. *)
Definition _create_params_cm (job_id : string) (params : pyobj) :
    Run StagingEvent unit :=
  stage ("params-" +:+ job_id) "params" (yaml_dump stg params).

(** [CalrissianJob._create_pod_env_vars_cm]. *)
Definition _create_pod_env_vars_cm (job_id : string) (pod_env_vars : pyobj) :
    Run StagingEvent unit :=
  stage ("pod-env-vars-" +:+ job_id) "pod-env-vars" (json_dumps stg pod_env_vars).

(** [CalrissianJob._create_pod_node_selector_cm]. *)
Definition _create_pod_node_selector_cm (job_id : string)
    (pod_node_selector : pyobj) : Run StagingEvent unit :=
  stage ("pod-node-selector-" +:+ job_id) "pod-node-selector"
    (json_dumps stg pod_node_selector).

(** The name before shortening:
    [f"job-{str(datetime.now().timestamp()).replace('.', '')}-{uuid.uuid4()}"]. *)
Definition raw_job_name : string :=
  "job-" +:+ remove_dots (now_timestamp stg) +:+ "-" +:+ uuid4 stg.

Definition default_security_context : pyobj :=
  PDict [("runAsUser", PInt 0); ("runAsGroup", PInt 0); ("fsGroup", PInt 0)].

(** [CalrissianJob.__init__]. *)
Definition CalrissianJob_init (a : JobArguments) : Run StagingEvent CalrissianJob :=
  security_context <-
    (match arg_security_context a with
     | PNone =>
         staging_info
           ("using default security context " +:+
            "{'runAsUser': 0, 'runAsGroup': 0, 'fsGroup': 0}") ;;
         run_ret default_security_context
     | given => run_ret given
     end) ;;
  let job_name := shorten_namespace raw_job_name in
  staging_info ("job name: " +:+ job_name) ;;
  staging_info "create CWL config map" ;;
  _create_cwl_cm (arg_job_id a) (arg_cwl a) ;;
  staging_info "create processing parameters config map" ;;
  _create_params_cm (arg_job_id a) (arg_params a) ;;
  let pod_env_vars :=
    if negb (Py.truthy (arg_pod_env_vars a)) then PDict []
    else arg_pod_env_vars a in
  (if Py.truthy pod_env_vars
   then
     staging_info "create pod environment variables config map" ;;
     _create_pod_env_vars_cm (arg_job_id a) pod_env_vars
   else run_ret tt) ;;
  (if Py.truthy (arg_pod_node_selector a)
   then
     staging_info "create Pod node selector config map" ;;
     _create_pod_node_selector_cm (arg_job_id a) (arg_pod_node_selector a)
   else run_ret tt) ;;
  run_ret
    {| runtime_context := arg_runtime_context a;
       cwl_entry_point := arg_cwl_entry_point a;
       pod_env_vars := pod_env_vars;
       pod_node_selector := arg_pod_node_selector a;
       max_ram := arg_max_ram a;
       max_cores := arg_max_cores a;
       security_context := security_context;
       service_account := ctx_service_account (arg_runtime_context a);
       calling_service_account :=
         ctx_calling_service_account (arg_runtime_context a);
       debug := arg_debug a;
       no_read_only := arg_no_read_only a;
       keep_pods := arg_keep_pods a;
       backoff_limit := arg_backoff_limit a;
       tool_logs := arg_tool_logs a;
       calling_workspace := arg_calling_workspace a;
       executing_workspace := arg_executing_workspace a;
       job_id := arg_job_id a;
       job_name := job_name |}.

End Construction.

(** ** Further examples *)

(** A runtime that is refused the workspace resources. *)
Definition offline_runtime : Runtime :=
  {| json_loads := demo_json_loads;
     py_repr := fun _ => "<object>";
     os_getenv := fun _ => None;
     load_incluster_config := fun _ => Return tt;
     get_namespaced_custom_object := fun _ _ _ _ _ _ =>
       Raise (mkExn ApiException "(403) Reason: Forbidden") |}.

(** A submitted execution on a cluster that does not answer status
    queries. *)
Definition unreachable_execution : CalrissianExecution :=
  demo_execution
    (demo_context
       (fun _ => Raise (mkExn ApiException "(500) Reason: Internal Server Error"))
       empty_registry).

(** The oracle of a job that is active for three status queries and has
    failed from the fourth on. *)
Definition active_then_failed (h : Trace) : Result V1Job :=
  if (status_queries h <? 3)%nat
  then Return (demo_response status_running)
  else Return (demo_response status_failed_two_conditions).

Definition slow_failed_execution : CalrissianExecution :=
  demo_execution (demo_context active_then_failed empty_registry).

(** A cluster that lists no pod for the job. *)
Definition podless_context : CalrissianContext :=
  {| ctx_namespace := "processing";
     ctx_service_account := "calrissian-sa";
     ctx_calling_service_account := "alice-sa";
     ctx_calrissian_wdir := "calrissian-wdir";
     is_pvc_created := fun _ _ => Return true;
     core_v1_api :=
       {| list_namespaced_pod := fun _ _ _ => Return [];
          read_namespaced_pod_log := fun _ _ _ _ => Return "{}";
          read_namespaced_config_map := fun _ _ _ => empty_registry |};
     batch_v1_api :=
       {| create_namespaced_job := fun _ _ body => Return body;
          read_namespaced_job_status := fun _ _ _ =>
            Return (demo_response status_running) |} |}.

Definition podless_execution : CalrissianExecution :=
  demo_execution podless_context.

(** An execution of the cross-workspace job as the constructor leaves it,
    before [submit]. *)
Definition new_execution : CalrissianExecution :=
  CalrissianExecution_init cross_workspace_job (demo_cluster alice_registry).

(** A cluster that refuses to list the pods of the job. *)
Definition unauthorized_context : CalrissianContext :=
  {| ctx_namespace := "processing";
     ctx_service_account := "calrissian-sa";
     ctx_calling_service_account := "alice-sa";
     ctx_calrissian_wdir := "calrissian-wdir";
     is_pvc_created := fun _ _ => Return true;
     core_v1_api :=
       {| list_namespaced_pod := fun _ _ _ =>
            Raise (mkExn ApiException "(401) Reason: Unauthorized");
          read_namespaced_pod_log := fun _ _ _ _ => Return "{}";
          read_namespaced_config_map := fun _ _ _ => empty_registry |};
     batch_v1_api :=
       {| create_namespaced_job := fun _ _ body => Return body;
          read_namespaced_job_status := fun _ _ _ =>
            Return (demo_response status_running) |} |}.

Definition unauthorized_execution : CalrissianExecution :=
  demo_execution unauthorized_context.

(** An execution, not yet submitted, on the cluster whose registry cannot
    be read. *)
Definition unreadable_execution : CalrissianExecution :=
  CalrissianExecution_init unreadable_registry_job
    (demo_cluster unreadable_registry).


(** A staging service that accepts every configuration object. *)
Definition demo_staging : Staging :=
  {| yaml_dump := fun _ => "cwlVersion: v1.0";
     json_dumps := fun _ => "{}";
     create_configmap := fun _ _ _ _ => Return tt;
     now_timestamp := "1699999999.123456";
     uuid4 := "2b0e4a46-5d1c-4b7e-9d0a-3c1f8e7a6b5d" |}.

(** A staging service on which the parameters' object already exists. *)
Definition conflicting_staging : Staging :=
  {| yaml_dump := fun _ => "cwlVersion: v1.0";
     json_dumps := fun _ => "{}";
     create_configmap := fun _ name _ _ =>
       if PyStr.startswith name "params-"
       then Raise (mkExn ApiException "(409) Reason: Conflict")
       else Return tt;
     now_timestamp := "1699999999.123456";
     uuid4 := "2b0e4a46-5d1c-4b7e-9d0a-3c1f8e7a6b5d" |}.

(** A request of [alice] for a run in the workspace of [bob], with
    environment variables, no node selector and no security context. *)
Definition demo_arguments : JobArguments :=
  {| arg_cwl := PDict [("cwlVersion", PStr "v1.0")];
     arg_params := PDict [];
     arg_runtime_context := demo_cluster alice_registry;
     arg_calling_workspace := "alice";
     arg_executing_workspace := "bob";
     arg_job_id := "42";
     arg_cwl_entry_point := Some "main";
     arg_pod_env_vars := PDict [("A", PStr "1")];
     arg_pod_node_selector := PNone;
     arg_max_ram := "4G";
     arg_max_cores := "8";
     arg_security_context := PNone;
     arg_service_account := Some "another-sa";
     arg_storage_class := None;
     arg_debug := false;
     arg_no_read_only := false;
     arg_keep_pods := true;
     arg_backoff_limit := 2;
     arg_tool_logs := false |}.


(** ** Vocabulary of the further properties *)

(** Every run of [m] only appends events that satisfy [P] to the trace,
    whether it returns or raises. *)
Definition emits {A} (P : Event -> Prop) (m : M A) : Prop :=
  forall t, exists events, snd (m t) = t ++ events /\ Forall P events.

(** Events that only read the PVC registry or write to the log. *)
Definition is_registry_event (ev : Event) : Prop :=
  match ev with
  | EReadConfigMap _ _ | EIsPvcCreated _ | ELog _ _ => True
  | _ => False
  end.

(** Events of a build: the registry, the calling workspace's resource and
    the log. *)
Definition is_build_event (ev : Event) : Prop :=
  match ev with
  | EReadConfigMap _ _ | EIsPvcCreated _ | ELog _ _
  | ELoadInclusterConfig | EGetCustomObject _ _ _ _ _ => True
  | _ => False
  end.

(** Events of the status methods: status queries, the log and [print]. *)
Definition is_status_event (ev : Event) : Prop :=
  match ev with
  | EReadJobStatus _ _ | ELog _ _ | EPrint _ => True
  | _ => False
  end.

(** Events of the artifact getters: pod lookups, log reads and [print]. *)
Definition is_artifact_event (ev : Event) : Prop :=
  match ev with
  | EListPods _ _ | EReadPodLog _ _ _ | EPrint _ => True
  | _ => False
  end.

(** Events of [monitor]: status queries, the log and sleeps. *)
Definition is_monitor_event (ev : Event) : Prop :=
  match ev with
  | EReadJobStatus _ _ | ELog _ _ | ESleep _ => True
  | _ => False
  end.

Section Mount_vocabulary.

Variable rt : Runtime.

(** A volume and its mount as the registry loop adds them for the claim
    [claim] and the mount suffix [pv]. *)
Definition workspace_pair (ctx : CalrissianContext) (p : V1Volume * V1VolumeMount) : Prop :=
  exists claim pv : pyobj,
    fst p =
      {| vol_name := "workspace-efs-" +:+ py_str rt claim;
         vol_config_map := None;
         vol_persistent_volume_claim :=
           Some {| pvcs_claim_name := claim; pvcs_read_only := None |} |} /\
    snd p =
      {| vm_mount_path := "/workspace/" +:+ py_str rt pv;
         vm_name := "workspace-efs-" +:+ py_str rt claim;
         vm_read_only := Some false |} /\
    Py.truthy claim = true /\
    exists h, is_pvc_created ctx h claim = Return true.


(** A volume and its mount as the cross-workspace loop adds them for the
    persistent volume called [pv]. *)
Definition temporary_pair (p : V1Volume * V1VolumeMount) : Prop :=
  exists pv : string,
    fst p =
      {| vol_name := "temp-pv-" +:+ PyStr.remove_first "pv-" pv;
         vol_config_map := None;
         vol_persistent_volume_claim :=
           Some {| pvcs_claim_name :=
                     PStr ("temp-pvc-workspace-" +:+ PyStr.remove_first "pv-" pv);
                   pvcs_read_only := None |} |} /\
    snd p =
      {| vm_mount_path := "/workspace/" +:+ pv;
         vm_name := "temp-pv-" +:+ PyStr.remove_first "pv-" pv;
         vm_read_only := None |}.


End Mount_vocabulary.

(** The request for the calling workspace's resource. *)
Definition workspace_request (self : CalrissianJob) : Event :=
  EGetCustomObject "core.telespazio-uk.io" "v1alpha1" "workspaces" "workspaces"
    (calling_workspace self).

(** The exception of reading [namespaced_job_name] before [submit] has set it. *)
Definition missing_job_name : Exn :=
  mkExn AttributeError
    "'CalrissianExecution' object has no attribute 'namespaced_job_name'".

(** One turn of the loop of [monitor]: the test, the log line, the sleep. *)
Definition loop_turn (self : CalrissianExecution) (name : string)
    (interval : Z) : list Event :=
  [status_query self name;
   ELog INFO ("job " +:+ job_name (job self) +:+ " is active");
   ESleep interval].

(** The events [__init__] leaves when every staging call succeeds. *)
Definition staged (stg : Staging) (a : JobArguments) : list StagingEvent :=
  (match arg_security_context a with
   | PNone =>
       [SLog INFO
          "using default security context {'runAsUser': 0, 'runAsGroup': 0, 'fsGroup': 0}"]
   | _ => []
   end)
  ++ [SLog INFO ("job name: " +:+ shorten_namespace (raw_job_name stg));
      SLog INFO "create CWL config map";
      SCreateConfigMap ("cwl-workflow-" +:+ arg_job_id a) "cwl-workflow"
        (yaml_dump stg (arg_cwl a));
      SLog INFO "create processing parameters config map";
      SCreateConfigMap ("params-" +:+ arg_job_id a) "params"
        (yaml_dump stg (arg_params a))]
  ++ (if Py.truthy (arg_pod_env_vars a)
      then [SLog INFO "create pod environment variables config map";
            SCreateConfigMap ("pod-env-vars-" +:+ arg_job_id a) "pod-env-vars"
              (json_dumps stg (arg_pod_env_vars a))]
      else [])
  ++ (if Py.truthy (arg_pod_node_selector a)
      then [SLog INFO "create Pod node selector config map";
            SCreateConfigMap ("pod-node-selector-" +:+ arg_job_id a)
              "pod-node-selector" (json_dumps stg (arg_pod_node_selector a))]
      else []).

(** The configuration objects a constructor run has created: name and key. *)
Definition created_config_maps (h : list StagingEvent) : list (string * string) :=
  omap (fun ev => match ev with
                  | SCreateConfigMap name key _ => Some (name, key)
                  | SLog _ _ => None
                  end) h.


(** * Properties *)

Ltac run_monad :=
  unfold bind, ret, raise, lift, call, emit, try_except,
    logger_info, logger_warning, logger_error, print in *;
  simpl in *.

(** ** Job-name shortening *)

Section Shorten_properties.

Import PyStr.

Lemma string_app_cons (c : ascii) (a b : string) :
  String c a +:+ b = String c (a +:+ b).
Proof. reflexivity. Qed.

Lemma string_app_nil_r (a : string) : a +:+ "" = a.
Proof. induction a as [|x a IH]; [done | by rewrite string_app_cons, IH]. Qed.

Lemma substring_0_app (n : nat) (s : string) :
  exists t, s = String.substring 0 n s +:+ t.
Proof.
  revert n; induction s as [|c s IH]; intros [|n]; simpl.
  - by exists "".
  - by exists "".
  - by exists (String c s).
  - destruct (IH n) as [t Ht]. exists t. by rewrite string_app_cons, <- Ht.
Qed.

Lemma string_prefix_app (r t : string) : String.prefix r (r +:+ t) = true.
Proof.
  induction r as [|c r IH]; [by destruct t|].
  rewrite string_app_cons. simpl. destruct (ascii_dec c c); [exact IH | done].
Qed.

Lemma string_app_assoc (a b c : string) : (a +:+ b) +:+ c = a +:+ (b +:+ c).
Proof. induction a as [|x a IH]; [done | by rewrite !string_app_cons, IH]. Qed.

Lemma strip_hyphens_app (value : string) :
  exists t, value = strip_hyphens value +:+ t.
Proof.
  funelim (strip_hyphens value); [|by exists ""; rewrite string_app_nil_r].
  match goal with IH : exists _, drop_last _ = _ |- _ => destruct IH as [t Ht] end.
  destruct (substring_0_app (String.length value - 1) value) as [u Hu].
  fold (drop_last value) in Hu.
  exists (t +:+ u). rewrite <- string_app_assoc, <- Ht. exact Hu.
Qed.

Lemma strip_hyphens_no_trailing (value : string) :
  endswith (strip_hyphens value) "-" = false.
Proof. funelim (strip_hyphens value); assumption. Qed.

Lemma shorten_namespace_length (value : string) :
  String.length (shorten_namespace value) <= 63.
Proof.
  funelim (shorten_namespace value); [assumption|].
  by apply Nat.ltb_ge.
Qed.

Lemma shorten_namespace_app (value : string) :
  exists t, value = shorten_namespace value +:+ t.
Proof.
  funelim (shorten_namespace value);
    [|by exists ""; rewrite string_app_nil_r].
  match goal with IH : exists _, strip_hyphens _ = _ |- _ => destruct IH as [t Ht] end.
  destruct (strip_hyphens_app (drop_last value)) as [u Hu].
  destruct (substring_0_app (String.length value - 1) value) as [w Hw].
  fold (drop_last value) in Hw.
  exists (t +:+ u +:+ w).
  rewrite <- !string_app_assoc, <- Ht, <- Hu. exact Hw.
Qed.

Lemma shorten_namespace_keeps_no_trailing (value : string) :
  endswith value "-" = false ->
  endswith (shorten_namespace value) "-" = false.
Proof.
  funelim (shorten_namespace value); intros Hv; [|exact Hv].
  match goal with IH : _ -> endswith _ _ = false |- _ => apply IH end.
  apply strip_hyphens_no_trailing.
Qed.

(** One turn of each loop, as the source writes them. *)
Lemma strip_hyphens_loop (value : string) :
  strip_hyphens value =
  if endswith value "-" then strip_hyphens (drop_last value) else value.
Proof. funelim (strip_hyphens value); rewrite E; [|done]. by simp strip_hyphens. Qed.

Lemma shorten_namespace_loop (value : string) :
  shorten_namespace value =
  if (63 <? String.length value)%nat
  then shorten_namespace (strip_hyphens (drop_last value))
  else value.
Proof.
  funelim (shorten_namespace value); rewrite E; [|done].
  by simp shorten_namespace.
Qed.

Lemma shorten_namespace_idempotent (value : string) :
  shorten_namespace (shorten_namespace value) = shorten_namespace value.
Proof.
  rewrite (shorten_namespace_loop (shorten_namespace value)).
  pose proof (shorten_namespace_length value).
  by destruct (Nat.ltb_spec 63 (String.length (shorten_namespace value)));
    [lia|].
Qed.

End Shorten_properties.

Example shorten_namespace_plain :
  shorten_namespace
    "job-1699999999123456-2b0e4a46-5d1c-4b7e-9d0a-aaaaaaaaaaaa-bbbbbbbbbbbbbbbb"
  = "job-1699999999123456-2b0e4a46-5d1c-4b7e-9d0a-aaaaaaaaaaaa-bbbbb".
Proof. vm_compute. reflexivity. Qed.

(** A hyphen run that straddles position 63 is removed as a whole. *)
Example shorten_namespace_hyphen_run :
  shorten_namespace
    "job-1699999999123456-2b0e4a46-5d1c-4b7e-9d0a-aaaaaaaaaaaa-bb---cccccccccc"
  = "job-1699999999123456-2b0e4a46-5d1c-4b7e-9d0a-aaaaaaaaaaaa-bb".
Proof. vm_compute. reflexivity. Qed.

Example shorten_namespace_short : shorten_namespace "job-1-" = "job-1-".
Proof. vm_compute. reflexivity. Qed.

(** C5.  For every input longer than 63 characters, [shorten_namespace]
    returns a string of at most 63 characters that does not end with a
    hyphen and is a prefix of the input; the function is the loop "while the
    length exceeds 63, drop the last character, then strip the trailing
    hyphens". *)
Theorem shorten_namespace_long (value : string) :
  63 < String.length value ->
  String.length (shorten_namespace value) <= 63 /\
  PyStr.endswith (shorten_namespace value) "-" = false /\
  String.prefix (shorten_namespace value) value = true /\
  shorten_namespace value =
    shorten_namespace (strip_hyphens (PyStr.drop_last value)) /\
  (forall v, strip_hyphens v =
     if PyStr.endswith v "-" then strip_hyphens (PyStr.drop_last v) else v) /\
  (forall v, shorten_namespace v =
     if (63 <? String.length v)%nat
     then shorten_namespace (strip_hyphens (PyStr.drop_last v)) else v).
Proof.
  intros Hlen.
  assert (Hstep : shorten_namespace value =
                  shorten_namespace (strip_hyphens (PyStr.drop_last value))).
  { rewrite (shorten_namespace_loop value).
    by destruct (Nat.ltb_spec 63 (String.length value)); [|lia]. }
  repeat split.
  - apply shorten_namespace_length.
  - rewrite Hstep. apply shorten_namespace_keeps_no_trailing,
      strip_hyphens_no_trailing.
  - destruct (shorten_namespace_app value) as [t Ht].
    rewrite Ht at 2. apply string_prefix_app.
  - exact Hstep.
  - apply strip_hyphens_loop.
  - apply shorten_namespace_loop.
Qed.

Lemma shorten_namespace_long_witness :
  63 < String.length long_job_name /\
  String.length (shorten_namespace long_job_name) <= 63 /\
  PyStr.endswith (shorten_namespace long_job_name) "-" = false /\
  String.prefix (shorten_namespace long_job_name) long_job_name = true.
Proof.
  assert (H : 63 < String.length long_job_name) by (vm_compute; lia).
  split; [exact H|].
  destruct (shorten_namespace_long long_job_name H) as (H1 & H2 & H3 & _).
  exact (conj H1 (conj H2 H3)).
Defined.

(** ** Execution controller *)

Lemma count_truthy_nonzero (c : option Z) :
  count_truthy c = true <-> nonzero c.
Proof.
  unfold count_truthy, nonzero. destruct c as [z|].
  - destruct (Z.eqb_spec z 0); simpl; split.
    + discriminate.
    + intros (z' & [= <-] & Hz). contradiction.
    + intros _. by exists z.
    + done.
  - split; [discriminate | intros (z & [=] & _)].
Qed.

Lemma count_truthy_not_nonzero (c : option Z) :
  count_truthy c = false <-> ~ nonzero c.
Proof.
  rewrite <- count_truthy_nonzero. destruct (count_truthy c); split; done.
Qed.

Section Execution_properties.

Variable rt : Runtime.

(** C1.  When the cluster answers the status query, [get_status] classifies
    the answer by precedence: active count and start time both absent gives
    ACTIVE; otherwise a nonzero active count gives ACTIVE; otherwise a
    nonzero succeeded count gives SUCCEEDED; otherwise a nonzero failed
    count gives FAILED (and nothing is returned when none applies).  The
    four field combinations of the specification are classified ACTIVE,
    ACTIVE, SUCCEEDED, FAILED. *)
Theorem get_status_precedence (self : CalrissianExecution) (name : string)
    (t : Trace) (response : V1Job) (status : V1JobStatus) :
  namespaced_job_name self = Some name ->
  read_namespaced_job_status (batch_v1_api (exec_runtime_context self)) t name
    (ctx_namespace (exec_runtime_context self)) = Return response ->
  job_status response = Some status ->
  exists r : option JobStatus,
    get_status self t = (Return r, t ++ [status_query self name]) /\
    let absent := st_active status = None /\ st_start_time status = None in
    (absent -> r = Some ACTIVE) /\
    (~ absent -> nonzero (st_active status) -> r = Some ACTIVE) /\
    (~ absent -> ~ nonzero (st_active status) ->
     nonzero (st_succeeded status) -> r = Some SUCCEEDED) /\
    (~ absent -> ~ nonzero (st_active status) ->
     ~ nonzero (st_succeeded status) -> nonzero (st_failed status) ->
     r = Some FAILED) /\
    (~ absent -> ~ nonzero (st_active status) ->
     ~ nonzero (st_succeeded status) -> ~ nonzero (st_failed status) ->
     r = None) /\
    (st_active status = None -> st_start_time status = None ->
     r = Some ACTIVE) /\
    (forall T, st_active status = Some 1%Z -> st_start_time status = Some T ->
     r = Some ACTIVE) /\
    (forall T, st_active status = None -> st_start_time status = Some T ->
     st_succeeded status = Some 1%Z -> r = Some SUCCEEDED) /\
    (forall T, st_active status = None -> st_start_time status = Some T ->
     st_succeeded status = None -> st_failed status = Some 1%Z ->
     r = Some FAILED).
Proof.
  intros Hname Hresp Hstatus.
  unfold get_status, read_status, get_namespaced_job_name, status_query.
  rewrite Hname. run_monad. rewrite Hresp, Hstatus.
  destruct status as [active start succeeded failed completion conditions].
  simpl.
  destruct (is_None active && is_None start) eqn:Habsent.
  - apply andb_prop in Habsent as [Ha Hs].
    destruct active; [discriminate|]. destruct start; [discriminate|].
    eexists; split; [reflexivity|].
    repeat split; try done; intros; try tauto; exfalso; tauto.
  - assert (Hna : ~ (active = None /\ start = None)).
    { intros [-> ->]. discriminate. }
    destruct (count_truthy active) eqn:Hact.
    { apply count_truthy_nonzero in Hact.
      eexists; split; [reflexivity|].
      repeat split; try done; intros; subst; try tauto;
        destruct Hact as (? & [=] & _). }
    apply count_truthy_not_nonzero in Hact.
    assert (Hone : active <> Some 1%Z).
    { intros ->. apply Hact. by exists 1%Z. }
    destruct (count_truthy succeeded) eqn:Hsuc.
    { apply count_truthy_nonzero in Hsuc.
      eexists; split; [reflexivity|].
      repeat split; try done; intros; subst; try tauto;
        destruct Hsuc as (? & [=] & _). }
    apply count_truthy_not_nonzero in Hsuc.
    assert (Hsone : succeeded <> Some 1%Z).
    { intros ->. apply Hsuc. by exists 1%Z. }
    destruct (count_truthy failed) eqn:Hfail.
    { apply count_truthy_nonzero in Hfail.
      eexists; split; [reflexivity|].
      repeat split; try done; intros; subst; try tauto. }
    apply count_truthy_not_nonzero in Hfail.
    eexists; split; [reflexivity|].
    repeat split; try done; intros; subst; try tauto.
    exfalso. apply Hfail. by exists 1%Z.
Qed.

(** C3.  [get_output] and [get_usage_report] never reach the pod lookup:
    each evaluates a member of [ContainerNames] that the enumeration does
    not have and raises [AttributeError], leaving the trace untouched. *)
Theorem structured_getters_raise (self : CalrissianExecution) (t : Trace) :
  get_output rt self t = (Raise (mkExn AttributeError "SIDECAR_OUTPUT"), t) /\
  get_usage_report rt self t =
    (Raise (mkExn AttributeError "SIDECAR_USAGE"), t).
Proof. split; reflexivity. Qed.

(** [get_log] hands back the text of the first pod's log as it is. *)
Lemma get_log_raw_text (self : CalrissianExecution) (t : Trace)
    (pod : V1Pod) (pods : list V1Pod) (body : string) :
  list_namespaced_pod (core_v1_api (exec_runtime_context self)) t
    (ctx_namespace (exec_runtime_context self))
    ("job-name=" +:+ job_name (job self)) = Return (pod :: pods) ->
  read_namespaced_pod_log (core_v1_api (exec_runtime_context self))
    (t ++ [pod_lookup self]) (pod_metadata_name pod)
    (ctx_namespace (exec_runtime_context self)) "calrissian" = Return body ->
  get_log self t =
    (Return (Some body),
     (t ++ [pod_lookup self]) ++ [log_read self (pod_metadata_name pod) CALRISSIAN]).
Proof.
  intros Hpods Hlog. unfold get_log, _get_container_log, pod_lookup, log_read in *.
  run_monad. by rewrite Hpods, Hlog.
Qed.

(** C10.  The guards of the artifact getters are vacuous: whatever the
    cluster would answer to a status query, [get_log] sends none and goes on
    to the pod lookup and, when a pod is listed, to the log read.
    [get_output] and [get_usage_report] pass the same vacuous guard but do
    not proceed: each names a member of [ContainerNames] that the
    enumeration lacks and raises [AttributeError] before the pod lookup,
    whatever the status of the job, leaving the trace as it was. *)
Theorem structured_getters_stop_before_lookup (self : CalrissianExecution)
    (t : Trace) :
  (exists events,
     snd (get_log self t) = t ++ pod_lookup self :: events /\
     no_status_query events) /\
  (forall pod pods,
     list_namespaced_pod (core_v1_api (exec_runtime_context self)) t
       (ctx_namespace (exec_runtime_context self))
       ("job-name=" +:+ job_name (job self)) = Return (pod :: pods) ->
     exists events,
       snd (get_log self t) =
         t ++ pod_lookup self
           :: log_read self (pod_metadata_name pod) CALRISSIAN :: events) /\
  get_output rt self t = (Raise (mkExn AttributeError "SIDECAR_OUTPUT"), t) /\
  get_usage_report rt self t =
    (Raise (mkExn AttributeError "SIDECAR_USAGE"), t).
Proof.
  assert (Hcons : forall (l : Trace) a r, (l ++ [a]) ++ r = l ++ a :: r).
  { intros. by rewrite <- app_assoc. }
  repeat split.
  - unfold get_log, _get_container_log, pod_lookup. run_monad.
    destruct (list_namespaced_pod _ _ _ _) as [[|pod pods]|e]; simpl.
    + exists []. split; [done | constructor].
    + destruct (read_namespaced_pod_log _ _ _ _ _) as [body|e]; simpl.
      * eexists. split; [apply Hcons | by repeat constructor].
      * destruct (is_ApiException (exn_class e)); simpl.
        -- eexists. rewrite !Hcons. split; [reflexivity | by repeat constructor].
        -- eexists. split; [apply Hcons | by repeat constructor].
    + destruct (is_ApiException (exn_class e)); simpl.
      * eexists. split; [apply Hcons | by repeat constructor].
      * exists []. split; [done | constructor].
  - intros pod pods Hpods.
    unfold get_log, _get_container_log, pod_lookup, log_read. run_monad.
    rewrite Hpods. simpl.
    destruct (read_namespaced_pod_log _ _ _ _ _) as [body|e]; simpl.
    + exists []. apply Hcons.
    + destruct (is_ApiException (exn_class e)); simpl.
      * eexists. rewrite !Hcons. reflexivity.
      * exists []. apply Hcons.
Qed.

(** C8 (amended).  [get_completion_time] returns the explicit completion
    time when the status has one; when it has none and the list of status
    conditions is present and not empty, it returns the transition time of
    the first condition of the list. *)
Theorem get_completion_time_first_condition (self : CalrissianExecution)
    (name : string) (t : Trace) (response : V1Job) (status : V1JobStatus) :
  namespaced_job_name self = Some name ->
  read_namespaced_job_status (batch_v1_api (exec_runtime_context self)) t name
    (ctx_namespace (exec_runtime_context self)) = Return response ->
  job_status response = Some status ->
  (forall completion,
     st_completion_time status = Some completion ->
     get_completion_time self t =
       (Return (Some completion), t ++ [status_query self name])) /\
  (forall first rest,
     st_completion_time status = None ->
     st_conditions status = Some (first :: rest) ->
     get_completion_time self t =
       (Return (last_transition_time first), t ++ [status_query self name])).
Proof.
  intros Hname Hresp Hstatus.
  unfold get_completion_time, read_status, get_namespaced_job_name, status_query.
  rewrite Hname. run_monad. rewrite Hresp, Hstatus.
  split.
  - intros completion ->. reflexivity.
  - intros first rest -> ->. reflexivity.
Qed.

Lemma status_queries_app (t u : Trace) :
  status_queries (t ++ u) = status_queries t + status_queries u.
Proof. unfold status_queries. by rewrite List.filter_app, length_app. Qed.

Lemma get_status_returns (self : CalrissianExecution) (name : string)
    (t : Trace) (r : option JobStatus) :
  namespaced_job_name self = Some name ->
  fst (get_status self t) = Return r ->
  get_status self t = (Return r, t ++ [status_query self name]).
Proof.
  intros Hname. unfold get_status, read_status, get_namespaced_job_name,
    status_query.
  rewrite Hname. run_monad.
  destruct (read_namespaced_job_status _ _ _ _) as [response|e]; simpl.
  - destruct (job_status response) as [status|]; simpl; [|discriminate].
    repeat (match goal with |- context [if ?b then _ else _] => destruct b end;
            simpl); by intros [= <-].
  - destruct (is_ApiException (exn_class e)); simpl; discriminate.
Qed.

Lemma get_status_answer (self : CalrissianExecution) (name : string)
    (t : Trace) (k : nat) (s : JobStatus) :
  namespaced_job_name self = Some name ->
  answers self k s -> status_queries t = k ->
  get_status self t = (Return (Some s), t ++ [status_query self name]).
Proof. intros Hname Hans Hk. by apply get_status_returns, Hans. Qed.

(** C4 (amended).  With a status oracle that answers ACTIVE, ACTIVE and then
    SUCCEEDED for ever, [monitor] ends after one sleep of the given interval:
    the first answer is used by the opening test, the second by the first
    turn of the loop, the third ends the loop; it then reports that the run
    is complete and that it succeeded. *)
Theorem monitor_active_active_succeeded (self : CalrissianExecution)
    (name : string) (interval : Z) (t : Trace) (fuel : nat) :
  namespaced_job_name self = Some name ->
  (0 <= interval)%Z ->
  status_queries t = 0 ->
  answers self 0 ACTIVE ->
  answers self 1 ACTIVE ->
  (forall k, 2 <= k -> answers self k SUCCEEDED) ->
  2 <= fuel ->
  exists events,
    monitor rt fuel self interval t = Some (Return tt, t ++ events) /\
    events =
      [status_query self name; status_query self name;
       ELog INFO ("job " +:+ job_name (job self) +:+ " is active");
       ESleep interval;
       status_query self name; status_query self name;
       status_query self name;
       ELog INFO "exection is complete True";
       status_query self name;
       ELog INFO "outcome: success!"] /\
    sleeps events = [interval].
Proof.
  intros Hname Hint Ht H0 H1 H2 Hfuel.
  destruct fuel as [|[|fuel]]; [lia | lia |].
  assert (Hq : forall u, status_queries (u ++ [status_query self name])
                         = S (status_queries u)).
  { intros u. rewrite status_queries_app. unfold status_queries; simpl. lia. }
  assert (Hl : forall u l m,
             status_queries (u ++ [ELog l m]) = status_queries u).
  { intros. rewrite status_queries_app. unfold status_queries; simpl. lia. }
  assert (Hs : forall u, status_queries (u ++ [ESleep interval]) = status_queries u).
  { intros. rewrite status_queries_app. unfold status_queries; simpl. lia. }
  eexists. split; [|split; [reflexivity|]].
  - unfold monitor, is_active.
    unfold bind at 1.
    rewrite (get_status_answer self name t 0 ACTIVE Hname H0 Ht).
    unfold ret at 1.
    (* first turn of the loop *)
    cbn [monitor_while]. unfold is_active. unfold bind at 1.
    rewrite (get_status_answer self name _ 1 ACTIVE Hname H1)
      by (repeat first [rewrite Hq | rewrite Hs | rewrite Hl]; lia).
    unfold ret at 1. unfold time_sleep.
    destruct (Z.ltb_spec interval 0) as [?|_]; [lia|].
    unfold bind at 1, logger_info, emit at 1, emit at 1.
    (* second turn: the loop ends *)
    unfold bind at 1.
    rewrite (get_status_answer self name _ 2 SUCCEEDED Hname (H2 2 (le_n 2)))
      by (repeat first [rewrite Hq | rewrite Hs | rewrite Hl]; lia).
    unfold ret at 1.
    (* the report *)
    unfold monitor_report, is_complete, is_succeeded.
    unfold bind at 1. unfold bind at 1.
    rewrite (get_status_answer self name _ 3 SUCCEEDED Hname (H2 3 ltac:(lia)))
      by (repeat first [rewrite Hq | rewrite Hs | rewrite Hl]; lia).
    unfold ret at 1. unfold bind at 1. unfold bind at 1. unfold bind at 1.
    rewrite (get_status_answer self name _ 4 SUCCEEDED Hname (H2 4 ltac:(lia)))
      by (repeat first [rewrite Hq | rewrite Hs | rewrite Hl]; lia).
    unfold ret at 1, logger_info, emit at 1.
    unfold bind at 1. unfold bind at 1.
    rewrite (get_status_answer self name _ 5 SUCCEEDED Hname (H2 5 ltac:(lia)))
      by (repeat first [rewrite Hq | rewrite Hs | rewrite Hl]; lia).
    unfold ret at 1, emit. simpl py_str.
    rewrite <- !app_assoc. reflexivity.
  - reflexivity.
Qed.

End Execution_properties.

(** *** Witnesses and counterexamples on the example cluster *)

Lemma get_status_precedence_witness :
  exists r,
    get_status succeeded_execution []
      = (Return r, [EReadJobStatus "job-1" "processing"]) /\
    r = Some SUCCEEDED.
Proof.
  destruct (get_status_precedence succeeded_execution "job-1" []
              (demo_response status_succeeded) status_succeeded
              eq_refl eq_refl eq_refl)
    as (r & Hrun & _ & _ & _ & _ & _ & _ & _ & Hthird & _).
  exists r. split; [exact Hrun|].
  exact (Hthird 1000%Z eq_refl eq_refl eq_refl).
Defined.

Lemma get_completion_time_first_condition_witness :
  get_completion_time succeeded_execution []
    = (Return (Some 2000%Z), [EReadJobStatus "job-1" "processing"]) /\
  get_completion_time failed_execution []
    = (Return (Some 1500%Z), [EReadJobStatus "job-1" "processing"]).
Proof.
  split.
  - exact (proj1 (get_completion_time_first_condition succeeded_execution
                    "job-1" [] (demo_response status_succeeded)
                    status_succeeded eq_refl eq_refl eq_refl)
             2000%Z eq_refl).
  - exact (proj2 (get_completion_time_first_condition failed_execution
                    "job-1" [] (demo_response status_failed_two_conditions)
                    status_failed_two_conditions eq_refl eq_refl eq_refl)
             _ _ eq_refl eq_refl).
Defined.

(** C8, as stated, fails: with two conditions and no completion time the
    function returns the time of the first condition (1500), not the most
    recent transition time (1800). *)
Lemma get_completion_time_not_most_recent :
  fst (get_completion_time failed_execution []) = Return (Some 1500%Z) /\
  st_completion_time status_failed_two_conditions = None /\
  (exists conditions,
     st_conditions status_failed_two_conditions = Some conditions /\
     most_recent_transition_time conditions = Some 1800%Z) /\
  Some 1500%Z <> Some 1800%Z.
Proof.
  split; [reflexivity|]. split; [reflexivity|]. split.
  - eexists. split; reflexivity.
  - discriminate.
Qed.

(** On the running job of the example cluster, whose pod is listed:
    [get_log] looks the pod up and reads its log without asking for the
    status, [get_output] and [get_usage_report] raise with an empty trace. *)
Lemma structured_getters_stop_before_lookup_witness :
  fst (get_status running_execution []) = Return (Some ACTIVE) /\
  (exists events,
     snd (get_log running_execution []) =
       [] ++ pod_lookup running_execution
          :: log_read running_execution "job-1-x7k2p" CALRISSIAN :: events) /\
  get_output (demo_runtime PNone) running_execution [] =
    (Raise (mkExn AttributeError "SIDECAR_OUTPUT"), []) /\
  get_usage_report (demo_runtime PNone) running_execution [] =
    (Raise (mkExn AttributeError "SIDECAR_USAGE"), []).
Proof.
  destruct (structured_getters_stop_before_lookup (demo_runtime PNone)
              running_execution []) as (_ & Hread & Hout & Husage).
  exact (conj eq_refl
           (conj (Hread (mkPod "job-1-x7k2p") [] eq_refl) (conj Hout Husage))).
Defined.

(** On a finished job [get_log] returns the log body as text, unparsed. *)
Example get_log_succeeded :
  get_log succeeded_execution [] =
    (Return (Some "{}"),
     [EListPods "processing" "job-name=job-1";
      EReadPodLog "job-1-x7k2p" "processing" "calrissian"]).
Proof. reflexivity. Qed.

Lemma monitored_execution_answers :
  answers monitored_execution 0 ACTIVE /\
  answers monitored_execution 1 ACTIVE /\
  (forall k, 2 <= k -> answers monitored_execution k SUCCEEDED).
Proof.
  unfold answers, get_status, read_status, get_namespaced_job_name.
  repeat split; [intros h Hh | intros h Hh | intros k Hk h Hh];
    run_monad; unfold active_active_succeeded; rewrite Hh.
  - reflexivity.
  - reflexivity.
  - destruct (Nat.ltb_spec k 2); [lia | reflexivity].
Qed.

Lemma monitor_active_active_succeeded_witness :
  exists events,
    monitor (demo_runtime PNone) 2 monitored_execution 5 []
      = Some (Return tt, [] ++ events) /\
    events =
      [EReadJobStatus "job-1" "processing"; EReadJobStatus "job-1" "processing";
       ELog INFO "job job-1 is active"; ESleep 5;
       EReadJobStatus "job-1" "processing"; EReadJobStatus "job-1" "processing";
       EReadJobStatus "job-1" "processing";
       ELog INFO "exection is complete True";
       EReadJobStatus "job-1" "processing";
       ELog INFO "outcome: success!"] /\
    sleeps events = [5%Z].
Proof.
  exact (monitor_active_active_succeeded (demo_runtime PNone)
           monitored_execution "job-1" 5 [] 2 eq_refl
           ltac:(discriminate) eq_refl
           (proj1 monitored_execution_answers)
           (proj1 (proj2 monitored_execution_answers))
           (proj2 (proj2 monitored_execution_answers))
           (le_n 2)).
Defined.

(** C4, as stated, fails: under the oracle ACTIVE, ACTIVE, SUCCEEDED...
    [monitor] sleeps once, not twice, whatever bound is put on the loop. *)
Lemma monitor_sleeps_once :
  (answers monitored_execution 0 ACTIVE /\
   answers monitored_execution 1 ACTIVE /\
   (forall k, 2 <= k -> answers monitored_execution k SUCCEEDED)) /\
  (exists events,
     monitor (demo_runtime PNone) 10 monitored_execution 5 []
       = Some (Return tt, events) /\
     sleeps events = [5%Z] /\ length (sleeps events) <> 2) /\
  (forall fuel outcome,
     monitor (demo_runtime PNone) fuel monitored_execution 5 [] = Some outcome ->
     fst outcome = Return tt /\ length (sleeps (snd outcome)) = 1).
Proof.
  split; [exact monitored_execution_answers|]. split.
  - eexists. split; [vm_compute; reflexivity|]. split; [reflexivity|].
    simpl. lia.
  - intros [|[|fuel]] outcome; [discriminate | discriminate |].
    intros [= <-]. split; reflexivity.
Qed.

(** ** Job specification builder *)

Section Job_properties.

Variable rt : Runtime.

(** *** Reasoning about runs that return *)

Lemma bind_Return {A B} (m : M A) (k : A -> M B) (t t' : Trace) (b : B) :
  bind m k t = (Return b, t') ->
  exists a t1, m t = (Return a, t1) /\ k a t1 = (Return b, t').
Proof.
  unfold bind. destruct (m t) as [[a|e] t1]; [eauto | discriminate].
Qed.

Lemma lift_Return {A} (r : Result A) (t t' : Trace) (a : A) :
  lift r t = (Return a, t') -> r = Return a /\ t' = t.
Proof. unfold lift. by intros [= -> ->]. Qed.

Lemma ret_Return {A} (x a : A) (t t' : Trace) :
  ret x t = (Return a, t') -> a = x /\ t' = t.
Proof. unfold ret. by intros [= -> ->]. Qed.

Ltac inv_bind H :=
  let a := fresh "a" in
  let t1 := fresh "t" in
  let H1 := fresh "Hrun" in
  apply bind_Return in H as (a & t1 & H1 & H).

(** A property of the accumulator that every turn of a loop keeps is kept
    by the loop. *)
Lemma for_each_invariant {A B} (P : B -> Prop) (body : B -> A -> M B) :
  (forall acc x t acc' t', P acc -> body acc x t = (Return acc', t') -> P acc') ->
  forall items acc t acc' t',
    P acc -> for_each items body acc t = (Return acc', t') -> P acc'.
Proof.
  intros Hbody items. induction items as [|x items IH]; intros acc t acc' t' HP H.
  - apply ret_Return in H as [-> _]. exact HP.
  - simpl in H. inv_bind H. eauto.
Qed.

Lemma _get_calrissian_container_Return (self : CalrissianJob)
    (volume_mounts : list V1VolumeMount) (t t' : Trace) (c : V1Container) :
  _get_calrissian_container rt self volume_mounts t = (Return c, t') ->
  c_volume_mounts c = volume_mounts /\ c_args c = _get_calrissian_args self /\
  c_name c = "calrissian" /\ c_command c = ["calrissian"].
Proof.
  unfold _get_calrissian_container. intros H.
  inv_bind H. inv_bind H. inv_bind H.
  apply ret_Return in H as [-> _].
  apply lift_Return in Hrun1 as [[= <-] _]. done.
Qed.

Lemma create_pod_template_Return (name : string) (containers : list V1Container)
    (volumes : list V1Volume) (sc : pyobj) (sa : string) (ns : pyobj)
    (t t' : Trace) (p : V1PodTemplateSpec) :
  create_pod_template name containers volumes sc sa ns t = (Return p, t') ->
  ps_containers (pts_spec p) = containers /\ ps_volumes (pts_spec p) = volumes.
Proof.
  unfold create_pod_template. intros H.
  inv_bind H. inv_bind H. inv_bind H.
  apply ret_Return in H as [-> _]. done.
Qed.

(** The accumulator [to_k8s_job] hands to the pod template: the initial
    mounts, extended by the registry loop and then, across workspaces, by
    the calling workspace's access points. *)
Lemma to_k8s_job_Return (self : CalrissianJob) (t t' : Trace) (j : V1Job) :
  to_k8s_job rt self t = (Return j, t') ->
  exists pvc_maps acc1 acc2 t1 t2 t3,
    for_each pvc_maps (mount_workspace_pvc rt self) (initial_mounts self) t1
      = (Return acc1, t2) /\
    (if negb (String.eqb (calling_workspace self) (executing_workspace self))
     then mount_calling_workspace rt self acc1
     else ret acc1) t2 = (Return acc2, t3) /\
    job_volumes j = fst acc2 /\
    job_volume_mounts j = snd acc2 /\
    (exists c, job_containers j = [c] /\ c_args c = _get_calrissian_args self).
Proof.
  unfold to_k8s_job. intros H.
  inv_bind H. inv_bind H. inv_bind H. inv_bind H. inv_bind H. inv_bind H.
  inv_bind H. apply ret_Return in H as [-> _].
  apply _get_calrissian_container_Return in Hrun3 as (Hvm & Hargs & _).
  apply create_pod_template_Return in Hrun4 as (Hc & Hv).
  exists a0, a1, a2, t1, t2, t3.
  split; [exact Hrun1|]. split; [exact Hrun2|].
  unfold job_volumes, job_volume_mounts, job_containers. simpl.
  rewrite Hc, Hv. simpl. rewrite app_nil_r, Hvm.
  repeat split. exists a3. by split.
Qed.

(** *** Alignment of volumes and mounts *)

Lemma aligned_append_pair (acc : Mounts) (v : V1Volume) (m : V1VolumeMount) :
  aligned acc -> vm_name m = vol_name v -> aligned (append_pair acc v m).
Proof.
  unfold aligned, append_pair, append. simpl. intros Hacc Hname.
  by rewrite !fmap_app, Hacc; simpl; rewrite Hname.
Qed.

Lemma aligned_initial_mounts (self : CalrissianJob) :
  aligned (initial_mounts self).
Proof.
  unfold initial_mounts.
  destruct (Py.truthy (pod_env_vars self)),
    (Py.truthy (pod_node_selector self)); reflexivity.
Qed.

Lemma mount_workspace_pvc_Return (self : CalrissianJob) (acc acc' : Mounts)
    (pvc_map : pyobj) (t t' : Trace) :
  mount_workspace_pvc rt self acc pvc_map t = (Return acc', t') ->
  acc' = acc \/
  exists v m, acc' = append_pair acc v m /\ vm_name m = vol_name v /\
              exists suffix, vol_name v = "workspace-efs-" +:+ suffix.
Proof.
  unfold mount_workspace_pvc. intros H.
  inv_bind H. inv_bind H. inv_bind H.
  destruct a1.
  - inv_bind H. apply ret_Return in H as [-> _].
    right. eexists _, _. split; [reflexivity|]. split; [reflexivity|].
    simpl. eauto.
  - apply ret_Return in H as [-> _]. by left.
Qed.

Lemma mount_access_point_Return (pv_name_map : list (pyobj * pyobj))
    (acc acc' : Mounts) (access_point : pyobj) (t t' : Trace) :
  mount_access_point rt pv_name_map acc access_point t = (Return acc', t') ->
  exists v m, acc' = append_pair acc v m /\ vm_name m = vol_name v /\
              exists suffix, vol_name v = "temp-pv-" +:+ suffix.
Proof.
  unfold mount_access_point. intros H.
  inv_bind H. inv_bind H. inv_bind H. inv_bind H. inv_bind H.
  apply ret_Return in H as [-> _].
  eexists _, _. split; [reflexivity|]. split; [reflexivity|].
  simpl. eauto.
Qed.

Lemma mount_calling_workspace_Return (self : CalrissianJob) (acc acc' : Mounts)
    (t t' : Trace) :
  mount_calling_workspace rt self acc t = (Return acc', t') ->
  exists h workspace access_points items pv_name_map t1 t2,
    get_namespaced_custom_object rt h "core.telespazio-uk.io" "v1alpha1"
      "workspaces" "workspaces" (calling_workspace self) = Return workspace /\
    efs_access_points_of workspace = Return access_points /\
    Py.iter access_points = Return items /\
    for_each items (mount_access_point rt pv_name_map) acc t1
      = (Return acc', t2).
Proof.
  unfold mount_calling_workspace. intros H.
  inv_bind H. inv_bind H. inv_bind H. inv_bind H. inv_bind H. inv_bind H.
  inv_bind H.
  apply lift_Return in Hrun1 as [Haps _].
  apply lift_Return in Hrun5 as [Hitems _].
  unfold try_except, call in Hrun0.
  destruct (get_namespaced_custom_object _ _ _ _ _ _ _) as [ws|e] eqn:Hget.
  - injection Hrun0 as <- _.
    by exists t0, ws, a1, a5, a4, t6, t'.
  - simpl in Hrun0. discriminate.
Qed.

Lemma aligned_mount_calling_workspace (self : CalrissianJob)
    (acc acc' : Mounts) (t t' : Trace) :
  aligned acc ->
  mount_calling_workspace rt self acc t = (Return acc', t') -> aligned acc'.
Proof.
  intros Hacc H.
  apply mount_calling_workspace_Return in H
    as (h & ws & aps & items & m & t1 & t2 & _ & _ & _ & H).
  revert H. apply for_each_invariant; [|exact Hacc].
  intros acc0 x u acc1 u' Hal Hstep.
  apply mount_access_point_Return in Hstep as (v & vm & -> & Hn & _).
  by apply aligned_append_pair.
Qed.

Lemma aligned_to_k8s_job (self : CalrissianJob) (t t' : Trace) (j : V1Job) :
  to_k8s_job rt self t = (Return j, t') ->
  vol_name <$> job_volumes j = vm_name <$> job_volume_mounts j.
Proof.
  intros H.
  apply to_k8s_job_Return in H
    as (pvc_maps & acc1 & acc2 & t1 & t2 & t3 & Hloop & Hcross & -> & -> & _).
  assert (H1 : aligned acc1).
  { revert Hloop. apply for_each_invariant; [|apply aligned_initial_mounts].
    intros acc0 x u acc' u' Hal Hstep.
    apply mount_workspace_pvc_Return in Hstep as [->|(v & m & -> & Hn & _)];
      [done | by apply aligned_append_pair]. }
  destruct (negb _).
  - by eapply aligned_mount_calling_workspace.
  - by apply ret_Return in Hcross as [-> _].
Qed.

(** C9.  In every job that [to_k8s_job] builds, the list of volumes and the
    list of volume mounts have the same length, and the mount at each
    position refers, by name, to the volume at that position. *)
Theorem volumes_and_mounts_aligned (self : CalrissianJob) (t t' : Trace)
    (j : V1Job) :
  to_k8s_job rt self t = (Return j, t') ->
  length (job_volumes j) = length (job_volume_mounts j) /\
  forall (i : nat) (v : V1Volume) (m : V1VolumeMount),
    job_volumes j !! i = Some v -> job_volume_mounts j !! i = Some m ->
    vm_name m = vol_name v.
Proof.
  intros H. apply aligned_to_k8s_job in H. split.
  - by rewrite <- (length_fmap vol_name), H, length_fmap.
  - intros i v m Hv Hm.
    assert (Hi : (vol_name <$> job_volumes j) !! i = Some (vol_name v))
      by (by rewrite list_lookup_fmap, Hv).
    rewrite H, list_lookup_fmap, Hm in Hi. by injection Hi.
Qed.

(** *** Temporary cross-workspace volumes *)

Lemma filter_none {A} (f : A -> bool) (l : list A) :
  Forall (fun x => f x = false) l -> List.filter f l = [].
Proof.
  induction 1 as [|x l Hx _ IH]; simpl; [done | by rewrite Hx].
Qed.

Lemma filter_all {A} (f : A -> bool) (l : list A) :
  Forall (fun x => f x = true) l -> List.filter f l = l.
Proof.
  induction 1 as [|x l Hx _ IH]; simpl; [done | by rewrite Hx, IH].
Qed.

Lemma aligned_temporary (vols : list V1Volume) (mounts : list V1VolumeMount) :
  vol_name <$> vols = vm_name <$> mounts ->
  length (List.filter is_temporary_volume vols)
  = length (List.filter is_temporary_mount mounts).
Proof.
  revert mounts. induction vols as [|v vols IH]; intros [|m mounts] H;
    try discriminate; [done|].
  injection H as Hn H. simpl.
  unfold is_temporary_volume at 1, is_temporary_mount at 1. rewrite Hn.
  destruct (PyStr.startswith (vm_name m) "temp-pv-"); simpl; auto.
Qed.

Lemma initial_mounts_not_temporary (self : CalrissianJob) :
  Forall (fun v => is_temporary_volume v = false) (fst (initial_mounts self)).
Proof.
  unfold initial_mounts.
  destruct (Py.truthy (pod_env_vars self)),
    (Py.truthy (pod_node_selector self)); simpl; by repeat constructor.
Qed.

Lemma registry_loop_not_temporary (self : CalrissianJob)
    (pvc_maps : list pyobj) (acc acc' : Mounts) (t t' : Trace) :
  Forall (fun v => is_temporary_volume v = false) (fst acc) ->
  for_each pvc_maps (mount_workspace_pvc rt self) acc t = (Return acc', t') ->
  Forall (fun v => is_temporary_volume v = false) (fst acc').
Proof.
  intros Hacc H. revert H.
  apply (for_each_invariant
           (fun a : Mounts =>
              Forall (fun v => is_temporary_volume v = false) (fst a)));
    [|exact Hacc].
  intros acc0 x u acc1 u' H0 Hstep.
  apply mount_workspace_pvc_Return in Hstep
    as [->|(v & m & -> & _ & suffix & Hv)]; [done|].
  simpl. unfold append. apply Forall_app. split; [done|].
  constructor; [|constructor].
  unfold is_temporary_volume. rewrite Hv. reflexivity.
Qed.

Lemma access_point_loop_volumes (pv_name_map : list (pyobj * pyobj))
    (items : list pyobj) (acc acc' : Mounts) (t t' : Trace) :
  for_each items (mount_access_point rt pv_name_map) acc t = (Return acc', t') ->
  exists new,
    fst acc' = fst acc ++ new /\ length new = length items /\
    Forall (fun v => is_temporary_volume v = true) new.
Proof.
  revert acc t. induction items as [|x items IH]; intros acc t H.
  - apply ret_Return in H as [-> _]. exists []. by rewrite app_nil_r.
  - simpl in H. inv_bind H.
    apply mount_access_point_Return in Hrun as (v & m & -> & _ & suffix & Hv).
    apply IH in H as (new & Hfst & Hlen & Hall).
    exists (v :: new). simpl in *. unfold append in Hfst.
    rewrite Hfst, <- app_assoc. split; [done|]. split; [by rewrite Hlen|].
    constructor; [|done].
    unfold is_temporary_volume. rewrite Hv. apply string_prefix_app.
Qed.

(** C7 (amended).  A built job has temporary cross-workspace volumes or
    mounts only if the calling workspace differs from the executing one; in
    particular it has none when the two are equal.  When they differ, it has
    one temporary volume and one temporary mount for each access point that
    the calling workspace's resource lists, hence none when the resource
    lists no access point. *)
Theorem temporary_volumes_across_workspaces (self : CalrissianJob)
    (t t' : Trace) (j : V1Job) :
  to_k8s_job rt self t = (Return j, t') ->
  (temporary_volumes j <> [] \/ temporary_mounts j <> [] ->
   calling_workspace self <> executing_workspace self) /\
  (calling_workspace self = executing_workspace self ->
   temporary_volumes j = [] /\ temporary_mounts j = []) /\
  (calling_workspace self <> executing_workspace self ->
   exists h workspace access_points items,
     get_namespaced_custom_object rt h "core.telespazio-uk.io" "v1alpha1"
       "workspaces" "workspaces" (calling_workspace self) = Return workspace /\
     efs_access_points_of workspace = Return access_points /\
     Py.iter access_points = Return items /\
     length (temporary_volumes j) = length items /\
     length (temporary_mounts j) = length items).
Proof.
  intros H.
  pose proof (aligned_to_k8s_job _ _ _ _ H) as Hal.
  apply aligned_temporary in Hal.
  fold (temporary_volumes j) (temporary_mounts j) in Hal.
  apply to_k8s_job_Return in H
    as (pvc_maps & acc1 & acc2 & t1 & t2 & t3 & Hloop & Hcross & Hv & _ & _).
  apply registry_loop_not_temporary in Hloop;
    [|apply initial_mounts_not_temporary].
  assert (Hsame : calling_workspace self = executing_workspace self ->
                  temporary_volumes j = [] /\ temporary_mounts j = []).
  { intros Heq. rewrite Heq, String.eqb_refl in Hcross. simpl in Hcross.
    apply ret_Return in Hcross as [-> _].
    assert (Hnone : temporary_volumes j = []).
    { unfold temporary_volumes. rewrite Hv. by apply filter_none. }
    split; [exact Hnone|].
    rewrite Hnone in Hal. simpl in Hal.
    by destruct (temporary_mounts j). }
  split; [|split; [exact Hsame|]].
  - intros Htemp Heq. destruct (Hsame Heq) as [Hvs Hms].
    destruct Htemp; congruence.
  - intros Hne. apply String.eqb_neq in Hne. rewrite Hne in Hcross.
    simpl in Hcross.
    apply mount_calling_workspace_Return in Hcross
      as (h & ws & aps & items & m & u & u' & Hget & Haps & Hiter & Hfor).
    apply access_point_loop_volumes in Hfor as (new & Hfst & Hlen & Hall).
    assert (Hcount : length (temporary_volumes j) = length items).
    { unfold temporary_volumes. rewrite Hv, Hfst, List.filter_app.
      rewrite (filter_none _ _ Hloop), (filter_all _ _ Hall). by simpl. }
    exists h, ws, aps, items. repeat split; try done. by rewrite <- Hal.
Qed.

(** C2.  When the read of the [workspace-config] object fails,
    [to_k8s_job] logs the error and then fails itself: with
    [workspace_config = None] the expression [workspace_config.data] raises
    [AttributeError], so no job is built. *)
Theorem to_k8s_job_registry_unreadable (self : CalrissianJob) (t : Trace)
    (e : Exn) :
  read_namespaced_config_map (core_v1_api (runtime_context self)) t
    "workspace-config" (ctx_namespace (runtime_context self)) = Raise e ->
  to_k8s_job rt self t =
    (Raise (Py.no_attribute PNone "data"),
     t ++ [EReadConfigMap "workspace-config"
             (ctx_namespace (runtime_context self));
           ELog ERROR
             ("Failed to read 'workspace-config' ConfigMap: " +:+ exn_str e)]).
Proof.
  intros Hread. unfold to_k8s_job, read_pvcs_list. run_monad.
  rewrite Hread. simpl. by rewrite <- app_assoc.
Qed.

(** The other half of the registry handling works: an unparseable list is
    logged and replaced by the empty list. *)
Lemma read_pvcs_list_unparseable (self : CalrissianJob) (t : Trace)
    (cm : V1ConfigMap) (data : gmap string string) (e : Exn) :
  read_namespaced_config_map (core_v1_api (runtime_context self)) t
    "workspace-config" (ctx_namespace (runtime_context self)) = Return cm ->
  cm_data cm = Some data ->
  json_loads rt (default "[]" (data !! "pvcs")) = Raise e ->
  exn_class e = JSONDecodeError ->
  read_pvcs_list rt self t =
    (Return (PList []),
     t ++ [EReadConfigMap "workspace-config"
             (ctx_namespace (runtime_context self));
           ELog ERROR ("Error parsing PVCs JSON: " +:+ exn_str e)]).
Proof.
  intros Hread Hdata Hjson Hclass. unfold read_pvcs_list. run_monad.
  rewrite Hread. simpl. rewrite Hdata. simpl. rewrite Hjson. simpl.
  rewrite Hclass. simpl. by rewrite <- app_assoc.
Qed.

(** C6.  The argument list is, in this order: the stdout, stderr and
    usage-report paths, max-RAM, max-cores, the pod service account, the
    tmp-outdir prefix and the outdir; then, each only when the job has it,
    the node-selector path, the env-vars path, the debug flag, the
    no-read-only flag and the tool-logs base path; then the executing
    workspace, the calling workspace, the calling service account and the
    enable-extensions flag; last the workflow reference, which ends with
    [#<entry-point>] exactly when an entry point was supplied, and the
    parameter file path. *)
Theorem calrissian_args_order (self : CalrissianJob) :
  _get_calrissian_args self =
    ["--stdout"; "/calrissian/output.json";
     "--stderr"; "/calrissian/stderr.log";
     "--usage-report"; "/calrissian/report.json";
     "--max-ram"; max_ram self; "--max-cores"; max_cores self;
     "--pod-serviceaccount"; service_account self;
     "--tmp-outdir-prefix"; "/calrissian/";
     "--outdir"; "/calrissian/"]
    ++ (if Py.truthy (pod_node_selector self)
        then ["--pod-nodeselectors"; "/pod-node-selector/pod_nodeselectors.yml"]
        else [])
    ++ (if Py.truthy (pod_env_vars self)
        then ["--pod-env-vars"; "/pod-env-vars/pod_env_vars.json"]
        else [])
    ++ (if debug self then ["--debug"] else [])
    ++ (if no_read_only self then ["--no-read-only"] else [])
    ++ (if tool_logs self then ["--tool-logs-basepath"; "/calrissian"] else [])
    ++ ["--executing-workspace"; executing_workspace self;
        "--calling-workspace"; calling_workspace self;
        "--calling-service-account"; calling_service_account self;
        "--enable-ext"]
    ++ [match cwl_entry_point self with
        | Some entry => "/workflow-input/workflow.cwl" +:+ "#" +:+ entry
        | None => "/workflow-input/workflow.cwl"
        end;
        "/workflow-params/params.yml"].
Proof.
  unfold _get_calrissian_args, extend, append, calrissian_base_path.
  destruct (Py.truthy (pod_node_selector self)),
    (Py.truthy (pod_env_vars self)), (debug self), (no_read_only self),
    (tool_logs self), (cwl_entry_point self); reflexivity.
Qed.

End Job_properties.

(** *** Witnesses and counterexamples on the example cluster *)

Lemma to_k8s_job_registry_unreadable_witness :
  to_k8s_job (demo_runtime bare_workspace) unreadable_registry_job [] =
    (Raise (mkExn AttributeError "'NoneType' object has no attribute 'data'"),
     [EReadConfigMap "workspace-config" "processing";
      ELog ERROR
        "Failed to read 'workspace-config' ConfigMap: (404) Reason: Not Found"]).
Proof.
  exact (to_k8s_job_registry_unreadable (demo_runtime bare_workspace)
           unreadable_registry_job []
           (mkExn ApiException "(404) Reason: Not Found") eq_refl).
Defined.

Lemma volumes_and_mounts_aligned_witness :
  exists j t',
    to_k8s_job (demo_runtime alice_workspace) cross_workspace_job []
      = (Return j, t') /\
    vol_name <$> job_volumes j =
      ["volume-cwl-workflow"; "volume-params"; "volume-calrissian-wdir";
       "workspace-efs-pvc-alice"; "temp-pv-alice-data"] /\
    length (job_volumes j) = length (job_volume_mounts j) /\
    forall (i : nat) (v : V1Volume) (m : V1VolumeMount),
      job_volumes j !! i = Some v -> job_volume_mounts j !! i = Some m ->
      vm_name m = vol_name v.
Proof.
  eexists _, _. split; [vm_compute; reflexivity|].
  split; [vm_compute; reflexivity|].
  eapply (volumes_and_mounts_aligned (demo_runtime alice_workspace)
            cross_workspace_job []).
  vm_compute. reflexivity.
Defined.

Lemma temporary_volumes_across_workspaces_witness :
  exists j t',
    to_k8s_job (demo_runtime alice_workspace) cross_workspace_job []
      = (Return j, t') /\
    calling_workspace cross_workspace_job
      <> executing_workspace cross_workspace_job /\
    length (temporary_volumes j) = 1 /\ length (temporary_mounts j) = 1.
Proof.
  eexists _, _. split; [vm_compute; reflexivity|].
  assert (Hne : calling_workspace cross_workspace_job
                <> executing_workspace cross_workspace_job) by discriminate.
  split; [exact Hne|].
  edestruct (temporary_volumes_across_workspaces
               (demo_runtime alice_workspace) cross_workspace_job [])
    as (_ & _ & Hcross); [vm_compute; reflexivity|].
  destruct (Hcross Hne)
    as (h & ws & aps & items & Hget & Haps & Hitems & Hv & Hm).
  injection Hget as <-. injection Haps as <-. injection Hitems as <-.
  split; [exact Hv | exact Hm].
Defined.

(** C7, as stated, fails in one direction: the calling workspace differs
    from the executing one, the job is built, and it has no temporary
    volume, because the calling workspace lists no access point. *)
Lemma different_workspaces_without_temporary_volumes :
  exists j t',
    to_k8s_job (demo_runtime bare_workspace) cross_workspace_job []
      = (Return j, t') /\
    calling_workspace cross_workspace_job
      <> executing_workspace cross_workspace_job /\
    temporary_volumes j = [] /\ temporary_mounts j = [].
Proof.
  eexists _, _. split; [vm_compute; reflexivity|].
  split; [discriminate|]. split; reflexivity.
Qed.

(** The scenario of the specification: 4G of RAM, 8 cores, no entry point,
    no environment variables, no node selector. *)
Example calrissian_args_scenario :
  _get_calrissian_args same_workspace_job =
    ["--stdout"; "/calrissian/output.json";
     "--stderr"; "/calrissian/stderr.log";
     "--usage-report"; "/calrissian/report.json";
     "--max-ram"; "4G"; "--max-cores"; "8";
     "--pod-serviceaccount"; "calrissian-sa";
     "--tmp-outdir-prefix"; "/calrissian/"; "--outdir"; "/calrissian/";
     "--executing-workspace"; "alice"; "--calling-workspace"; "alice";
     "--calling-service-account"; "alice-sa"; "--enable-ext";
     "/workflow-input/workflow.cwl"; "/workflow-params/params.yml"].
Proof. reflexivity. Qed.

Example calrissian_args_entry_point :
  last (_get_calrissian_args cross_workspace_job)
    = Some "/workflow-params/params.yml" /\
  _get_calrissian_args cross_workspace_job !! 23
    = Some "/workflow-input/workflow.cwl#main".
Proof. split; reflexivity. Qed.

(** A registry list that is not JSON is logged and ignored: the job is
    built with the three fixed volumes only. *)
Example to_k8s_job_garbled_registry :
  exists j,
    to_k8s_job (demo_runtime bare_workspace) garbled_registry_job [] =
      (Return j,
       [EReadConfigMap "workspace-config" "processing";
        ELog ERROR
          "Error parsing PVCs JSON: Expecting value: line 1 column 1 (char 0)";
        ELog INFO "using Calrissian image: terradue/calrissian:0.12.0";
        ELog INFO "Created pod template with service account calrissian-sa"]) /\
    vol_name <$> job_volumes j =
      ["volume-cwl-workflow"; "volume-params"; "volume-calrissian-wdir"].
Proof. eexists. split; vm_compute; reflexivity. Qed.

(** * Further properties *)

Ltac inv_step H :=
  let a := fresh "a" in
  let t1 := fresh "t" in
  let H1 := fresh "Hrun" in
  apply bind_Return in H as (a & t1 & H1 & H).

(** ** What a run may append to the trace *)

Lemma emits_ret {A} (P : Event -> Prop) (a : A) : emits P (ret a).
Proof. intros t. exists []. by rewrite app_nil_r. Qed.

Lemma emits_raise {A} (P : Event -> Prop) (e : Exn) : emits P (@raise A e).
Proof. intros t. exists []. by rewrite app_nil_r. Qed.

Lemma emits_lift {A} (P : Event -> Prop) (r : Result A) : emits P (lift r).
Proof. intros t. exists []. by rewrite app_nil_r. Qed.

Lemma emits_emit (P : Event -> Prop) (ev : Event) : P ev -> emits P (emit ev).
Proof. intros HP t. exists [ev]. split; [done | by constructor]. Qed.

Lemma emits_call {A} (P : Event -> Prop) (ev : Event)
    (answer : Trace -> Result A) :
  P ev -> emits P (call ev answer).
Proof. intros HP t. exists [ev]. split; [done | by constructor]. Qed.

Lemma emits_bind {A B} (P : Event -> Prop) (m : M A) (k : A -> M B) :
  emits P m -> (forall a, emits P (k a)) -> emits P (bind m k).
Proof.
  intros Hm Hk t. unfold bind. destruct (Hm t) as (ev1 & Ht1 & HP1).
  destruct (m t) as [[a|e] t1]; simpl in Ht1; subst t1.
  - destruct (Hk a (t ++ ev1)) as (ev2 & Ht2 & HP2).
    exists (ev1 ++ ev2). rewrite Ht2, app_assoc. split; [done|].
    by apply Forall_app.
  - by exists ev1.
Qed.

Lemma emits_try_except {A} (P : Event -> Prop) (m : M A)
    (catches : ExnClass -> bool) (h : Exn -> M A) :
  emits P m -> (forall e, emits P (h e)) -> emits P (try_except m catches h).
Proof.
  intros Hm Hh t. unfold try_except. destruct (Hm t) as (ev1 & Ht1 & HP1).
  destruct (m t) as [[a|e] t1]; simpl in Ht1; subst t1.
  - by exists ev1.
  - destruct (catches (exn_class e)); [|by exists ev1].
    destruct (Hh e (t ++ ev1)) as (ev2 & Ht2 & HP2).
    exists (ev1 ++ ev2). rewrite Ht2, app_assoc. split; [done|].
    by apply Forall_app.
Qed.

Lemma emits_for_each {A B} (P : Event -> Prop) (items : list A)
    (body : B -> A -> M B) (acc : B) :
  (forall acc x, emits P (body acc x)) -> emits P (for_each items body acc).
Proof.
  intros Hbody. revert acc. induction items as [|x items IH]; intros acc.
  - apply emits_ret.
  - simpl. apply emits_bind; [apply Hbody | intros; apply IH].
Qed.

Lemma emits_weaken {A} (P Q : Event -> Prop) (m : M A) :
  (forall ev, P ev -> Q ev) -> emits P m -> emits Q m.
Proof.
  intros HPQ Hm t. destruct (Hm t) as (events & Ht & HP).
  exists events. split; [done|]. eapply Forall_impl; eauto.
Qed.

Ltac emits_tac :=
  unfold logger_info, logger_warning, logger_error, print;
  repeat first
    [ apply emits_ret | apply emits_raise | apply emits_lift
    | apply emits_emit | apply emits_call
    | apply emits_bind; [|intros ?]
    | apply emits_try_except; [|intros ?]
    | apply emits_for_each; intros ? ?
    | match goal with
      | |- emits _ (match ?x with _ => _ end) => destruct x
      end ];
  try exact I.

(** ** The job specification builder, continued *)

Section Build_properties.

Variable rt : Runtime.

Lemma mount_workspace_pvc_pair (self : CalrissianJob) (acc acc' : Mounts)
    (pvc_map : pyobj) (t t' : Trace) :
  mount_workspace_pvc rt self acc pvc_map t = (Return acc', t') ->
  acc' = acc \/
  exists v m, acc' = append_pair acc v m /\
              workspace_pair rt (runtime_context self) (v, m).
Proof.
  unfold mount_workspace_pvc. intros H.
  inv_step H. inv_step H. inv_step H.
  destruct a1.
  - inv_step H. apply ret_Return in H as [-> _].
    right. eexists _, _. split; [reflexivity|].
    exists a, a0. split; [reflexivity|]. split; [reflexivity|].
    destruct (Py.truthy a) eqn:Htruthy.
    + split; [reflexivity|]. unfold call in Hrun1.
      injection Hrun1 as Hans _. eauto.
    + apply ret_Return in Hrun1 as [[=] _].
  - apply ret_Return in H as [-> _]. by left.
Qed.

Lemma mount_access_point_pair (pv_name_map : list (pyobj * pyobj))
    (acc acc' : Mounts) (access_point : pyobj) (t t' : Trace) :
  mount_access_point rt pv_name_map acc access_point t = (Return acc', t') ->
  exists v m, acc' = append_pair acc v m /\ temporary_pair (v, m).
Proof.
  unfold mount_access_point. intros H.
  inv_step H. inv_step H. inv_step H. inv_step H. inv_step H.
  apply ret_Return in H as [-> _].
  apply lift_Return in Hrun1 as [Hrep _].
  destruct a0; try discriminate. injection Hrep as <-.
  eexists _, _. split; [reflexivity|]. exists s. split; reflexivity.
Qed.

(** A loop whose turns either leave the two lists alone or append one pair
    to them appends a list of pairs. *)
Lemma for_each_appends {A} (Q : V1Volume * V1VolumeMount -> Prop)
    (body : Mounts -> A -> M Mounts) :
  (forall acc x t acc' t',
     body acc x t = (Return acc', t') ->
     acc' = acc \/ exists v m, acc' = append_pair acc v m /\ Q (v, m)) ->
  forall items acc t acc' t',
    for_each items body acc t = (Return acc', t') ->
    exists new : list (V1Volume * V1VolumeMount),
      fst acc' = fst acc ++ new.*1 /\ snd acc' = snd acc ++ new.*2 /\
      Forall Q new.
Proof.
  intros Hbody items. induction items as [|x items IH]; intros acc t acc' t' H.
  - apply ret_Return in H as [-> _]. exists []. by rewrite !app_nil_r.
  - simpl in H. inv_step H. apply IH in H as (new & Hv & Hm & HQ).
    apply Hbody in Hrun as [->|(v & m & -> & Hq)].
    + by exists new.
    + exists ((v, m) :: new). unfold append_pair, append in *. simpl in *.
      rewrite Hv, Hm, <- !app_assoc.
      split; [done|]. split; [done|]. by constructor.
Qed.

(** The two lists of a built job: the initial mounts, then the pairs of the
    registry loop, then the pairs of the cross-workspace loop. *)
Lemma to_k8s_job_mounts (self : CalrissianJob) (t t' : Trace) (j : V1Job) :
  to_k8s_job rt self t = (Return j, t') ->
  exists ws tmp : list (V1Volume * V1VolumeMount),
    job_volumes j = fst (initial_mounts self) ++ ws.*1 ++ tmp.*1 /\
    job_volume_mounts j = snd (initial_mounts self) ++ ws.*2 ++ tmp.*2 /\
    Forall (workspace_pair rt (runtime_context self)) ws /\
    Forall temporary_pair tmp /\
    (calling_workspace self = executing_workspace self -> tmp = []).
Proof.
  intros H.
  apply to_k8s_job_Return in H
    as (pvc_maps & acc1 & acc2 & t1 & t2 & t3 & Hloop & Hcross & -> & -> & _).
  apply (for_each_appends (workspace_pair rt (runtime_context self))) in Hloop
    as (ws & Hv1 & Hm1 & Hws);
    [|intros; by eapply mount_workspace_pvc_pair].
  destruct (String.eqb_spec (calling_workspace self) (executing_workspace self))
    as [Heq|Hne]; simpl in Hcross.
  - apply ret_Return in Hcross as [-> _].
    exists ws, []. simpl. rewrite !app_nil_r. by repeat split.
  - apply mount_calling_workspace_Return in Hcross
      as (h & wsp & aps & items & m & u & u' & _ & _ & _ & Hfor).
    apply (for_each_appends temporary_pair) in Hfor as (tmp & Hv2 & Hm2 & Htmp);
      [|intros; right; by eapply mount_access_point_pair].
    exists ws, tmp. rewrite Hv2, Hm2, Hv1, Hm1, <- !app_assoc.
    by repeat split.
Qed.


Lemma read_pvcs_list_emits (self : CalrissianJob) :
  emits is_registry_event (read_pvcs_list rt self).
Proof. unfold read_pvcs_list. emits_tac. Qed.

Lemma mount_workspace_pvc_emits (self : CalrissianJob) (acc : Mounts)
    (pvc_map : pyobj) :
  emits is_registry_event (mount_workspace_pvc rt self acc pvc_map).
Proof. unfold mount_workspace_pvc. emits_tac. Qed.

Lemma mount_calling_workspace_emits (self : CalrissianJob) (acc : Mounts) :
  emits is_build_event (mount_calling_workspace rt self acc).
Proof.
  unfold mount_calling_workspace, mount_access_point, dict_update, dict_getitem.
  emits_tac.
Qed.

Lemma _get_calrissian_container_emits (self : CalrissianJob)
    (volume_mounts : list V1VolumeMount) :
  emits is_registry_event (_get_calrissian_container rt self volume_mounts).
Proof. unfold _get_calrissian_container. emits_tac. Qed.

Lemma create_pod_template_emits (name : string) (containers : list V1Container)
    (volumes : list V1Volume) (sc : pyobj) (sa : string) (ns : pyobj) :
  emits is_registry_event (create_pod_template name containers volumes sc sa ns).
Proof. unfold create_pod_template. emits_tac. Qed.

Lemma registry_event_build_event (ev : Event) :
  is_registry_event ev -> is_build_event ev.
Proof. by destruct ev. Qed.

Lemma to_k8s_job_emits (self : CalrissianJob) :
  emits is_build_event (to_k8s_job rt self).
Proof.
  unfold to_k8s_job.
  apply emits_bind;
    [eapply emits_weaken, read_pvcs_list_emits;
     apply registry_event_build_event | intros ?].
  apply emits_bind; [apply emits_lift | intros ?].
  apply emits_bind;
    [apply emits_for_each; intros ? ?;
     eapply emits_weaken, mount_workspace_pvc_emits;
     apply registry_event_build_event | intros ?].
  apply emits_bind;
    [destruct (negb _);
     [apply mount_calling_workspace_emits | apply emits_ret] | intros ?].
  apply emits_bind;
    [eapply emits_weaken, _get_calrissian_container_emits;
     apply registry_event_build_event | intros ?].
  apply emits_bind;
    [eapply emits_weaken, create_pod_template_emits;
     apply registry_event_build_event | intros ?].
  emits_tac.
Qed.

Lemma to_k8s_job_emits_same_workspace (self : CalrissianJob) :
  calling_workspace self = executing_workspace self ->
  emits is_registry_event (to_k8s_job rt self).
Proof.
  intros Heq. unfold to_k8s_job. rewrite Heq, String.eqb_refl. simpl.
  apply emits_bind; [apply read_pvcs_list_emits | intros ?].
  apply emits_bind; [apply emits_lift | intros ?].
  apply emits_bind;
    [apply emits_for_each; intros ? ?; apply mount_workspace_pvc_emits
    | intros ?].
  apply emits_bind; [apply emits_ret | intros ?].
  apply emits_bind; [apply _get_calrissian_container_emits | intros ?].
  apply emits_bind; [apply create_pod_template_emits | intros ?].
  emits_tac.
Qed.

(** X1.  Building a job only reads: whether it returns a job or raises,
    [to_k8s_job] appends to the trace nothing but reads of the PVC registry,
    reads of the calling workspace's resource and log lines -- it creates
    nothing in the cluster and never sleeps -- and when the calling workspace
    is the executing one it does not touch the calling workspace's resource
    either. *)
Theorem to_k8s_job_only_reads (self : CalrissianJob) :
  emits is_build_event (to_k8s_job rt self) /\
  (calling_workspace self = executing_workspace self ->
   emits is_registry_event (to_k8s_job rt self)).
Proof.
  split; [apply to_k8s_job_emits | apply to_k8s_job_emits_same_workspace].
Qed.


Lemma initial_mounts_names (self : CalrissianJob) :
  vol_name <$> fst (initial_mounts self) =
    ["volume-cwl-workflow"; "volume-params"; "volume-calrissian-wdir"]
    ++ (if Py.truthy (pod_env_vars self) then ["volume-pod-env-vars"] else [])
    ++ (if Py.truthy (pod_node_selector self)
        then ["volume-pod-node-selector"] else []) /\
  vm_mount_path <$> snd (initial_mounts self) =
    ["/workflow-input"; "/workflow-params"; "/calrissian"]
    ++ (if Py.truthy (pod_env_vars self) then ["/pod-env-vars"] else [])
    ++ (if Py.truthy (pod_node_selector self)
        then ["/pod-node-selector"] else []).
Proof.
  unfold initial_mounts.
  destruct (Py.truthy (pod_env_vars self)),
    (Py.truthy (pod_node_selector self)); split; reflexivity.
Qed.

(** X2.  The volumes of a built job come in a fixed order: the workflow,
    the parameters and the working directory; then the environment-variables
    volume and the node-selector volume, each exactly when the job has a
    non-empty value for it; then the registry volumes, all named
    [workspace-efs-...]; then the cross-workspace volumes, all named
    [temp-pv-...] and absent when the calling workspace is the executing
    one.  The mounts follow the same order, at [/workflow-input],
    [/workflow-params], [/calrissian], [/pod-env-vars],
    [/pod-node-selector] and under [/workspace/]. *)
Theorem job_volume_order (self : CalrissianJob) (t t' : Trace) (j : V1Job) :
  to_k8s_job rt self t = (Return j, t') ->
  exists wnames tnames wpaths tpaths : list string,
    vol_name <$> job_volumes j =
      (["volume-cwl-workflow"; "volume-params"; "volume-calrissian-wdir"]
       ++ (if Py.truthy (pod_env_vars self)
           then ["volume-pod-env-vars"] else [])
       ++ (if Py.truthy (pod_node_selector self)
           then ["volume-pod-node-selector"] else []))
      ++ wnames ++ tnames /\
    vm_mount_path <$> job_volume_mounts j =
      (["/workflow-input"; "/workflow-params"; "/calrissian"]
       ++ (if Py.truthy (pod_env_vars self) then ["/pod-env-vars"] else [])
       ++ (if Py.truthy (pod_node_selector self)
           then ["/pod-node-selector"] else []))
      ++ wpaths ++ tpaths /\
    length wpaths = length wnames /\ length tpaths = length tnames /\
    Forall (fun n => PyStr.startswith n "workspace-efs-" = true) wnames /\
    Forall (fun n => PyStr.startswith n "temp-pv-" = true) tnames /\
    Forall (fun p => PyStr.startswith p "/workspace/" = true)
      (wpaths ++ tpaths) /\
    (calling_workspace self = executing_workspace self -> tnames = []).
Proof.
  intros H.
  apply to_k8s_job_mounts in H as (ws & tmp & Hv & Hm & Hws & Htmp & Hsame).
  destruct (initial_mounts_names self) as [Hn Hp].
  exists (vol_name <$> ws.*1), (vol_name <$> tmp.*1),
    (vm_mount_path <$> ws.*2), (vm_mount_path <$> tmp.*2).
  rewrite Hv, Hm, !fmap_app, Hn, Hp, !length_fmap.
  do 4 (split; [done|]).
  assert (Hwn : Forall (fun p : V1Volume * V1VolumeMount =>
                          PyStr.startswith (vol_name p.1) "workspace-efs-" = true
                          /\ PyStr.startswith (vm_mount_path p.2) "/workspace/"
                             = true) ws).
  { eapply Forall_impl; [exact Hws|].
    intros [v m] (claim & pv & -> & -> & _). simpl.
    split; apply string_prefix_app. }
  assert (Htn : Forall (fun p : V1Volume * V1VolumeMount =>
                          PyStr.startswith (vol_name p.1) "temp-pv-" = true
                          /\ PyStr.startswith (vm_mount_path p.2) "/workspace/"
                             = true) tmp).
  { eapply Forall_impl; [exact Htmp|].
    intros [v m] (pv & -> & ->). simpl. split; apply string_prefix_app. }
  split; [|split; [|split]].
  - rewrite <- list_fmap_compose. apply Forall_fmap.
    eapply Forall_impl; [exact Hwn|]. by intros p [? _].
  - rewrite <- list_fmap_compose. apply Forall_fmap.
    eapply Forall_impl; [exact Htn|]. by intros p [? _].
  - apply Forall_app. split; rewrite <- list_fmap_compose; apply Forall_fmap.
    + eapply Forall_impl; [exact Hwn|]. by intros p [_ ?].
    + eapply Forall_impl; [exact Htn|]. by intros p [_ ?].
  - intros Heq. by rewrite (Hsame Heq).
Qed.














(** The job [to_k8s_job] returns, written out. *)
Lemma to_k8s_job_built (self : CalrissianJob) (t t' : Trace) (j : V1Job) :
  to_k8s_job rt self t = (Return j, t') ->
  exists (acc : Mounts) (group user fsg : pyobj),
    Py.getitem (security_context self) "runAsGroup" = Return group /\
    Py.getitem (security_context self) "runAsUser" = Return user /\
    Py.getitem (security_context self) "fsGroup" = Return fsg /\
    j =
      create_job (job_name self)
        {| pts_spec :=
             {| ps_restart_policy := "Never";
                ps_containers :=
                  [create_container
                     (default "terradue/calrissian:0.12.0"
                        (os_getenv rt "CALRISSIAN_IMAGE"))
                     "calrissian" (_get_calrissian_args self) ["calrissian"]
                     (snd acc)
                     ({| env_name := "CALRISSIAN_POD_NAME"; env_value := None;
                         env_value_from_field_path := Some "metadata.name" |}
                      :: (if keep_pods self
                          then [ {| env_name := "CALRISSIAN_DELETE_PODS";
                                    env_value := Some "false";
                                    env_value_from_field_path := None |} ]
                          else []))
                     "Always"];
                ps_volumes := fst acc;
                ps_node_selector := pod_node_selector self;
                ps_security_context :=
                  {| run_as_group := group; run_as_user := user;
                     fs_group := fsg |};
                ps_termination_grace_period_seconds := 120;
                ps_service_account_name := service_account self;
                ps_tolerations :=
                  [[("key", "ades.zoo.org/dedicated"); ("operator", "Equal");
                    ("value", "job"); ("effect", "NoSchedule")]] |};
           pts_metadata :=
             {| meta_name := "calrissian_pod";
                meta_labels := [("pod_name", "calrissian_pod")];
                meta_namespace := None |} |}
        (ctx_namespace (runtime_context self)) (backoff_limit self).
Proof.
  unfold to_k8s_job. intros H.
  apply bind_Return in H as (pvcs & t1 & _ & H).
  apply bind_Return in H as (pvc_maps & t2 & _ & H).
  apply bind_Return in H as (acc1 & t3 & _ & H).
  apply bind_Return in H as (acc & t4 & _ & H).
  apply bind_Return in H as (c & t5 & Hc & H).
  apply bind_Return in H as (p & t6 & Hp & H).
  apply bind_Return in H as (u & t7 & _ & H).
  apply ret_Return in H as [-> _].
  unfold _get_calrissian_container in Hc.
  apply bind_Return in Hc as (env & t8 & Henv & Hc).
  apply bind_Return in Hc as (u1 & t9 & _ & Hc).
  apply bind_Return in Hc as (name & t10 & Hname & Hc).
  apply ret_Return in Hc as [-> _].
  apply lift_Return in Hname as [[= <-] _].
  assert (Henv' : env =
            {| env_name := "CALRISSIAN_POD_NAME"; env_value := None;
               env_value_from_field_path := Some "metadata.name" |}
            :: (if keep_pods self
                then [ {| env_name := "CALRISSIAN_DELETE_PODS";
                          env_value := Some "false";
                          env_value_from_field_path := None |} ]
                else [])).
  { destruct (keep_pods self).
    - apply bind_Return in Henv as (u2 & t11 & _ & Henv).
      by apply ret_Return in Henv as [-> _].
    - by apply ret_Return in Henv as [-> _]. }
  subst env.
  unfold create_pod_template in Hp.
  apply bind_Return in Hp as (group & t12 & Hg & Hp).
  apply bind_Return in Hp as (user & t13 & Hu & Hp).
  apply bind_Return in Hp as (fsg & t14 & Hf & Hp).
  apply ret_Return in Hp as [-> _].
  apply lift_Return in Hg as [Hg _].
  apply lift_Return in Hu as [Hu _].
  apply lift_Return in Hf as [Hf _].
  by exists acc, group, user, fsg.
Qed.

(** X5.  The pod of a built job runs under the request's security context:
    the three subscripts [runAsGroup], [runAsUser] and [fsGroup] of the
    job's security context all succeed and are handed, each to its own
    field, to the pod's security context.  A security context that lacks one
    of the three keys, or is not a dictionary, therefore never yields a
    job. *)
Theorem security_context_wiring (self : CalrissianJob) (t t' : Trace)
    (j : V1Job) :
  to_k8s_job rt self t = (Return j, t') ->
  let pod := ps_security_context (pts_spec (js_template (job_spec j))) in
  Py.getitem (security_context self) "runAsGroup" = Return (run_as_group pod) /\
  Py.getitem (security_context self) "runAsUser" = Return (run_as_user pod) /\
  Py.getitem (security_context self) "fsGroup" = Return (fs_group pod) /\
  exists d, security_context self = PDict d.
Proof.
  intros H. apply to_k8s_job_built in H
    as (acc & group & user & fsg & Hg & Hu & Hf & ->).
  simpl. do 3 (split; [done|]).
  destruct (security_context self); try discriminate. eauto.
Qed.

(** X6.  A built job has exactly one container.  It is called
    [calrissian], runs the command [calrissian] with the arguments of
    [_get_calrissian_args], and uses the image named by the environment
    variable [CALRISSIAN_IMAGE] or else [terradue/calrissian:0.12.0], always
    pulled.  Its resource requests and limits and its pre-stop hook are
    fixed, whatever [max_ram] and [max_cores] are.  Its environment is
    [CALRISSIAN_POD_NAME], bound to the pod's name, followed by
    [CALRISSIAN_DELETE_PODS=false] exactly when [keep_pods] is set. *)
Theorem job_container (self : CalrissianJob) (t t' : Trace) (j : V1Job) :
  to_k8s_job rt self t = (Return j, t') ->
  exists c : V1Container,
    job_containers j = [c] /\
    c_name c = "calrissian" /\ c_command c = ["calrissian"] /\
    c_args c = _get_calrissian_args self /\
    c_image c =
      default "terradue/calrissian:0.12.0" (os_getenv rt "CALRISSIAN_IMAGE") /\
    c_image_pull_policy c = "Always" /\
    c_resources c =
      {| res_requests := [("cpu", "1000m"); ("memory", "1G")];
         res_limits := [("cpu", "2000m"); ("memory", "2G")] |} /\
    c_lifecycle_pre_stop_exec c = ["/bin/sh"; "-c"; "sleep 30"] /\
    c_env c =
      {| env_name := "CALRISSIAN_POD_NAME"; env_value := None;
         env_value_from_field_path := Some "metadata.name" |}
      :: (if keep_pods self
          then [ {| env_name := "CALRISSIAN_DELETE_PODS";
                    env_value := Some "false";
                    env_value_from_field_path := None |} ]
          else []) /\
    c_volume_mounts c = job_volume_mounts j.
Proof.
  intros H. apply to_k8s_job_built in H
    as (acc & group & user & fsg & _ & _ & _ & ->).
  eexists. split; [reflexivity|]. unfold job_volume_mounts. simpl.
  rewrite app_nil_r. by repeat split.
Qed.

(** X7.  The wrapper of a built job: a [batch/v1] [Job] named and labelled
    with the job's name in the context's namespace, with the job's backoff
    limit, and a pod template called [calrissian_pod] that is never
    restarted, has 120 seconds to terminate, runs under the job's service
    account with the job's node selector, and tolerates the dedicated-node
    taint.  The job carries no status. *)
Theorem job_wrapper (self : CalrissianJob) (t t' : Trace) (j : V1Job) :
  to_k8s_job rt self t = (Return j, t') ->
  let pod := pts_spec (js_template (job_spec j)) in
  job_api_version j = "batch/v1" /\ job_kind j = "Job" /\
  job_metadata j =
    {| meta_name := job_name self;
       meta_labels := [("job_name", job_name self)];
       meta_namespace := Some (ctx_namespace (runtime_context self)) |} /\
  js_backoff_limit (job_spec j) = backoff_limit self /\
  pts_metadata (js_template (job_spec j)) =
    {| meta_name := "calrissian_pod";
       meta_labels := [("pod_name", "calrissian_pod")];
       meta_namespace := None |} /\
  ps_restart_policy pod = "Never" /\
  ps_termination_grace_period_seconds pod = 120%Z /\
  ps_service_account_name pod = service_account self /\
  ps_node_selector pod = pod_node_selector self /\
  ps_tolerations pod =
    [[("key", "ades.zoo.org/dedicated"); ("operator", "Equal");
      ("value", "job"); ("effect", "NoSchedule")]] /\
  job_status j = None.
Proof.
  intros H. apply to_k8s_job_built in H
    as (acc & group & user & fsg & _ & _ & _ & ->).
  simpl. by repeat split.
Qed.



(** X8.  When the calling workspace is not the executing one and its
    resource cannot be fetched, no job is built: [to_k8s_job] never returns,
    and once the build reaches the fetch it logs the error and raises the
    very exception of the fetch, whatever its class. *)
Theorem calling_workspace_fetch_fatal (self : CalrissianJob) :
  calling_workspace self <> executing_workspace self ->
  (forall h, exists e,
     get_namespaced_custom_object rt h "core.telespazio-uk.io" "v1alpha1"
       "workspaces" "workspaces" (calling_workspace self) = Raise e) ->
  (forall t j t', to_k8s_job rt self t <> (Return j, t')) /\
  (forall acc t,
     load_incluster_config rt t = Return tt ->
     exists e,
       get_namespaced_custom_object rt (t ++ [ELoadInclusterConfig])
         "core.telespazio-uk.io" "v1alpha1" "workspaces" "workspaces"
         (calling_workspace self) = Raise e /\
       mount_calling_workspace rt self acc t =
         (Raise e,
          t ++ [ELoadInclusterConfig; workspace_request self;
                ELog ERROR ("Error in getting workspace CRD: " +:+ exn_str e)])).
Proof.
  intros Hne Hfail. split.
  - intros t j t' H.
    apply to_k8s_job_Return in H
      as (pvc_maps & acc1 & acc2 & t1 & t2 & t3 & _ & Hcross & _).
    apply String.eqb_neq in Hne. rewrite Hne in Hcross. simpl in Hcross.
    apply mount_calling_workspace_Return in Hcross
      as (h & ws & _ & _ & _ & _ & _ & Hget & _).
    destruct (Hfail h) as [e He]. congruence.
  - intros acc t Hload.
    destruct (Hfail (t ++ [ELoadInclusterConfig])) as [e He].
    exists e. split; [exact He|].
    unfold mount_calling_workspace, workspace_request. run_monad.
    rewrite Hload. simpl. rewrite He. simpl. by rewrite <- !app_assoc.
Qed.

Lemma key_eqb_refl (key : pyobj) :
  Py.hashable key = Return tt -> Py.key_eqb key key = true.
Proof.
  destruct key as [|b|z|s|l|d]; simpl; try done.
  - by destruct b.
  - intros _. apply Z.eqb_refl.
  - intros _. apply String.eqb_refl.
Qed.

(** The dictionary from access-point names to persistent-volume names
    behaves as a dictionary: after [update] with a hashable key, a lookup of
    that key returns the new value, whatever the dictionary held before (so
    the last persistent volume that names an access point wins), and lookups
    of other keys are unchanged; a key missing from the dictionary raises
    [KeyError]; a list or a dictionary used as a key raises [TypeError] in
    both operations. *)
Lemma dict_update_getitem (d : list (pyobj * pyobj)) (key value : pyobj)
    (t : Trace) :
  (Py.hashable key = Return tt ->
   dict_update d key value t = (Return ((key, value) :: d), t) /\
   dict_getitem rt ((key, value) :: d) key t = (Return value, t) /\
   (forall other,
      Py.key_eqb other key = false ->
      dict_getitem rt ((key, value) :: d) other t = dict_getitem rt d other t)) /\
  (Py.hashable key = Return tt ->
   dict_getitem rt [] key t = (Raise (mkExn KeyError (py_repr rt key)), t)) /\
  (forall e, Py.hashable key = Raise e ->
     exn_class e = TypeError /\
     dict_update d key value t = (Raise e, t) /\
     dict_getitem rt d key t = (Raise e, t)).
Proof.
  unfold dict_update, dict_getitem. run_monad. repeat split.
  - by rewrite H.
  - rewrite H. simpl. by rewrite (key_eqb_refl key H).
  - intros other Hother. destruct (Py.hashable other) as [[]|e]; [|done].
    by rewrite Hother.
  - intros ->. reflexivity.
  - destruct key; simpl in H; try discriminate; by injection H as <-.
  - by rewrite H.
  - by rewrite H.
Qed.

End Build_properties.

(** ** The builder on the example cluster *)

Lemma job_volume_order_witness :
  exists j t',
    to_k8s_job (demo_runtime alice_workspace) cross_workspace_job []
      = (Return j, t') /\
    vol_name <$> job_volumes j =
      ["volume-cwl-workflow"; "volume-params"; "volume-calrissian-wdir";
       "workspace-efs-pvc-alice"; "temp-pv-alice-data"] /\
    vm_mount_path <$> job_volume_mounts j =
      ["/workflow-input"; "/workflow-params"; "/calrissian";
       "/workspace/pv-alice"; "/workspace/pv-alice-data"] /\
    exists wnames tnames wpaths tpaths : list string,
      vol_name <$> job_volumes j =
        (["volume-cwl-workflow"; "volume-params"; "volume-calrissian-wdir"]
         ++ (if Py.truthy (pod_env_vars cross_workspace_job)
             then ["volume-pod-env-vars"] else [])
         ++ (if Py.truthy (pod_node_selector cross_workspace_job)
             then ["volume-pod-node-selector"] else []))
        ++ wnames ++ tnames /\
      vm_mount_path <$> job_volume_mounts j =
        (["/workflow-input"; "/workflow-params"; "/calrissian"]
         ++ (if Py.truthy (pod_env_vars cross_workspace_job)
             then ["/pod-env-vars"] else [])
         ++ (if Py.truthy (pod_node_selector cross_workspace_job)
             then ["/pod-node-selector"] else []))
        ++ wpaths ++ tpaths /\
      length wpaths = length wnames /\ length tpaths = length tnames /\
      Forall (fun n => PyStr.startswith n "workspace-efs-" = true) wnames /\
      Forall (fun n => PyStr.startswith n "temp-pv-" = true) tnames /\
      Forall (fun p => PyStr.startswith p "/workspace/" = true)
        (wpaths ++ tpaths) /\
      (calling_workspace cross_workspace_job
         = executing_workspace cross_workspace_job -> tnames = []).
Proof.
  eexists _, _. split; [vm_compute; reflexivity|].
  split; [vm_compute; reflexivity|]. split; [vm_compute; reflexivity|].
  eapply (job_volume_order (demo_runtime alice_workspace)
            cross_workspace_job []).
  vm_compute. reflexivity.
Defined.



Lemma security_context_wiring_witness :
  exists j t',
    to_k8s_job (demo_runtime alice_workspace) cross_workspace_job []
      = (Return j, t') /\
    ps_security_context (pts_spec (js_template (job_spec j))) =
      {| run_as_group := PInt 0; run_as_user := PInt 0; fs_group := PInt 0 |} /\
    Py.getitem (security_context cross_workspace_job) "runAsGroup" =
      Return (run_as_group
                (ps_security_context (pts_spec (js_template (job_spec j))))) /\
    Py.getitem (security_context cross_workspace_job) "runAsUser" =
      Return (run_as_user
                (ps_security_context (pts_spec (js_template (job_spec j))))) /\
    Py.getitem (security_context cross_workspace_job) "fsGroup" =
      Return (fs_group
                (ps_security_context (pts_spec (js_template (job_spec j))))) /\
    exists d, security_context cross_workspace_job = PDict d.
Proof.
  eexists _, _. split; [vm_compute; reflexivity|].
  split; [vm_compute; reflexivity|].
  eapply (security_context_wiring (demo_runtime alice_workspace)
            cross_workspace_job []).
  vm_compute. reflexivity.
Defined.

Lemma job_container_witness :
  exists j t',
    to_k8s_job (demo_runtime alice_workspace) cross_workspace_job []
      = (Return j, t') /\
    exists c : V1Container,
      job_containers j = [c] /\
      c_name c = "calrissian" /\ c_command c = ["calrissian"] /\
      c_args c = _get_calrissian_args cross_workspace_job /\
      c_image c =
        default "terradue/calrissian:0.12.0"
          (os_getenv (demo_runtime alice_workspace) "CALRISSIAN_IMAGE") /\
      c_image_pull_policy c = "Always" /\
      c_resources c =
        {| res_requests := [("cpu", "1000m"); ("memory", "1G")];
           res_limits := [("cpu", "2000m"); ("memory", "2G")] |} /\
      c_lifecycle_pre_stop_exec c = ["/bin/sh"; "-c"; "sleep 30"] /\
      c_env c =
        {| env_name := "CALRISSIAN_POD_NAME"; env_value := None;
           env_value_from_field_path := Some "metadata.name" |}
        :: (if keep_pods cross_workspace_job
            then [ {| env_name := "CALRISSIAN_DELETE_PODS";
                      env_value := Some "false";
                      env_value_from_field_path := None |} ]
            else []) /\
      c_volume_mounts c = job_volume_mounts j.
Proof.
  eexists _, _. split; [vm_compute; reflexivity|].
  eapply (job_container (demo_runtime alice_workspace) cross_workspace_job []).
  vm_compute. reflexivity.
Defined.

Lemma job_wrapper_witness :
  exists j t',
    to_k8s_job (demo_runtime alice_workspace) cross_workspace_job []
      = (Return j, t') /\
    job_api_version j = "batch/v1" /\ job_kind j = "Job" /\
    job_metadata j =
      {| meta_name := "job-1"; meta_labels := [("job_name", "job-1")];
         meta_namespace := Some "processing" |} /\
    js_backoff_limit (job_spec j) = 2%Z /\
    ps_service_account_name (pts_spec (js_template (job_spec j)))
      = "calrissian-sa" /\
    job_status j = None.
Proof.
  eexists _, _. split; [vm_compute; reflexivity|].
  edestruct (job_wrapper (demo_runtime alice_workspace) cross_workspace_job [])
    as (Hv & Hk & Hmeta & Hb & _ & _ & _ & Hsa & _ & _ & Hst);
    [vm_compute; reflexivity|].
  exact (conj Hv (conj Hk (conj Hmeta (conj Hb (conj Hsa Hst))))).
Defined.

Lemma calling_workspace_fetch_fatal_witness :
  calling_workspace cross_workspace_job
    <> executing_workspace cross_workspace_job /\
  (forall h, exists e,
     get_namespaced_custom_object offline_runtime h "core.telespazio-uk.io"
       "v1alpha1" "workspaces" "workspaces"
       (calling_workspace cross_workspace_job) = Raise e) /\
  (forall t j t',
     to_k8s_job offline_runtime cross_workspace_job t <> (Return j, t')) /\
  mount_calling_workspace offline_runtime cross_workspace_job
    (initial_mounts cross_workspace_job) [] =
    (Raise (mkExn ApiException "(403) Reason: Forbidden"),
     [ELoadInclusterConfig;
      EGetCustomObject "core.telespazio-uk.io" "v1alpha1" "workspaces"
        "workspaces" "alice";
      ELog ERROR "Error in getting workspace CRD: (403) Reason: Forbidden"]).
Proof.
  assert (Hne : calling_workspace cross_workspace_job
                <> executing_workspace cross_workspace_job) by discriminate.
  assert (Hfetch : forall h, exists e,
            get_namespaced_custom_object offline_runtime h
              "core.telespazio-uk.io" "v1alpha1" "workspaces" "workspaces"
              (calling_workspace cross_workspace_job) = Raise e)
    by (intros h; eexists; reflexivity).
  destruct (calling_workspace_fetch_fatal offline_runtime cross_workspace_job
              Hne Hfetch) as [Hnever Hraise].
  split; [exact Hne|]. split; [exact Hfetch|]. split; [exact Hnever|].
  destruct (Hraise (initial_mounts cross_workspace_job) [] eq_refl)
    as (e & He & Hrun).
  injection He as <-. exact Hrun.
Defined.

(** ** Job-name shortening, continued *)

(** X9.  On every input, long or short, [shorten_namespace] returns a
    prefix of the input of at most 63 characters, and shortening twice is
    shortening once.  A name of at most 63 characters is returned as it is,
    trailing hyphens included; a name that does not end with a hyphen gives
    a name that does not end with a hyphen. *)
Theorem shorten_namespace_bounds (value : string) :
  String.length (shorten_namespace value) <= 63 /\
  String.prefix (shorten_namespace value) value = true /\
  shorten_namespace (shorten_namespace value) = shorten_namespace value /\
  (String.length value <= 63 -> shorten_namespace value = value) /\
  (PyStr.endswith value "-" = false ->
   PyStr.endswith (shorten_namespace value) "-" = false).
Proof.
  split; [apply shorten_namespace_length|].
  split.
  { destruct (shorten_namespace_app value) as [rest Hrest].
    rewrite Hrest at 2. apply string_prefix_app. }
  split; [apply shorten_namespace_idempotent|].
  split; [|apply shorten_namespace_keeps_no_trailing].
  intros Hlen. rewrite shorten_namespace_loop.
  by destruct (Nat.ltb_spec 63 (String.length value)); [lia|].
Qed.

Lemma shorten_namespace_bounds_witness :
  String.length "job-1-" <= 63 /\ shorten_namespace "job-1-" = "job-1-" /\
  PyStr.endswith "job-1" "-" = false /\
  PyStr.endswith (shorten_namespace "job-1") "-" = false.
Proof.
  destruct (shorten_namespace_bounds "job-1-") as (_ & _ & _ & Hshort & _).
  destruct (shorten_namespace_bounds "job-1") as (_ & _ & _ & _ & Hkeep).
  assert (Hlen : String.length "job-1-" <= 63) by (simpl; lia).
  exact (conj Hlen (conj (Hshort Hlen) (conj eq_refl (Hkeep eq_refl)))).
Defined.

(** ** The execution controller, continued *)

Section Controller_properties.

Variable rt : Runtime.

(** X10.  When the cluster fails to answer the status query, [get_status]
    raises the very exception of the cluster after the one query; the error
    is written to the log exactly when it is an [ApiException].  An answer
    without a status raises [AttributeError].  [is_active], [is_complete] and
    [is_succeeded] fail in the same way. *)
Theorem get_status_failure (self : CalrissianExecution) (name : string)
    (t : Trace) :
  namespaced_job_name self = Some name ->
  (forall e,
     read_namespaced_job_status (batch_v1_api (exec_runtime_context self)) t
       name (ctx_namespace (exec_runtime_context self)) = Raise e ->
     let after :=
       t ++ status_query self name
         :: (if is_ApiException (exn_class e)
             then [ELog ERROR
                     ("Exception when calling get status: " +:+ exn_str e
                      +:+ newline)]
             else []) in
     get_status self t = (Raise e, after) /\
     is_active self t = (Raise e, after) /\
     is_complete self t = (Raise e, after) /\
     is_succeeded self t = (Raise e, after)) /\
  (forall response,
     read_namespaced_job_status (batch_v1_api (exec_runtime_context self)) t
       name (ctx_namespace (exec_runtime_context self)) = Return response ->
     job_status response = None ->
     get_status self t =
       (Raise (Py.no_attribute PNone "active"), t ++ [status_query self name])).
Proof.
  intros Hname. split.
  - intros e He.
    unfold is_active, is_complete, is_succeeded, get_status, read_status,
      get_namespaced_job_name, status_query.
    rewrite Hname. run_monad. rewrite He. simpl.
    destruct (is_ApiException (exn_class e)); simpl;
      rewrite <- ?app_assoc; by repeat split.
  - intros response Hresp Hnone.
    unfold get_status, read_status, get_namespaced_job_name, status_query.
    rewrite Hname. run_monad. by rewrite Hresp, Hnone.
Qed.


(** X11.  An execution that was constructed but never submitted has no
    [namespaced_job_name]: every status method raises [AttributeError]
    before any call to the cluster, and so does [monitor], which therefore
    never reaches its warning that the job is not submitted. *)
Theorem unsubmitted_execution (j : CalrissianJob) (ctx : CalrissianContext)
    (t : Trace) (fuel : nat) (interval : Z) :
  let self := CalrissianExecution_init j ctx in
  get_status self t = (Raise missing_job_name, t) /\
  is_active self t = (Raise missing_job_name, t) /\
  is_complete self t = (Raise missing_job_name, t) /\
  is_succeeded self t = (Raise missing_job_name, t) /\
  get_start_time self t = (Raise missing_job_name, t) /\
  get_completion_time self t = (Raise missing_job_name, t) /\
  monitor rt fuel self interval t = Some (Raise missing_job_name, t).
Proof. by repeat split. Qed.

(** X12.  The three predicates agree with each other when they see the same
    answer of the cluster: a job that is active is neither complete nor
    succeeded, a job that succeeded is complete, and a complete job is not
    active; the three leave the same trace and fail together. *)
Theorem status_predicates_consistent (self : CalrissianExecution) (t : Trace) :
  (fst (is_active self t) = Return true ->
   fst (is_complete self t) = Return false /\
   fst (is_succeeded self t) = Return false) /\
  (fst (is_succeeded self t) = Return true ->
   fst (is_complete self t) = Return true /\
   fst (is_active self t) = Return false) /\
  (fst (is_complete self t) = Return true ->
   fst (is_active self t) = Return false) /\
  snd (is_active self t) = snd (get_status self t) /\
  snd (is_complete self t) = snd (get_status self t) /\
  snd (is_succeeded self t) = snd (get_status self t) /\
  (forall e,
     fst (get_status self t) = Raise e <-> fst (is_active self t) = Raise e) /\
  (forall e,
     fst (get_status self t) = Raise e <-> fst (is_complete self t) = Raise e) /\
  (forall e,
     fst (get_status self t) = Raise e <-> fst (is_succeeded self t) = Raise e).
Proof.
  unfold is_active, is_complete, is_succeeded, bind, ret.
  destruct (get_status self t) as [[[[]|]|e] t1]; simpl;
    repeat split; intros; try done; try discriminate;
    match goal with H : Raise _ = Raise _ |- _ => by injection H as -> end.
Qed.

(** X13.  [monitor] on a job whose first status is anything but ACTIVE --
    finished already, or not classified -- logs the warning that the job is
    not submitted and returns: it does not sleep and it reports neither
    completion nor success. *)
Theorem monitor_not_active (self : CalrissianExecution) (name : string)
    (t : Trace) (r : option JobStatus) (fuel : nat) (interval : Z) :
  namespaced_job_name self = Some name ->
  fst (get_status self t) = Return r ->
  r <> Some ACTIVE ->
  monitor rt fuel self interval t =
    Some (Return tt,
          t ++ [status_query self name; ELog WARNING "job is not submitted"]).
Proof.
  intros Hname Hr Hna. unfold monitor, is_active, bind.
  rewrite (get_status_returns self name t r Hname Hr).
  destruct r as [[]|]; try done; unfold ret, logger_warning, emit;
    by rewrite <- app_assoc.
Qed.


Lemma status_queries_loop_turn (self : CalrissianExecution) (name : string)
    (interval : Z) (k : nat) :
  status_queries (concat (replicate k (loop_turn self name interval))) = k.
Proof.
  induction k as [|k IH]; [done|].
  cbn [replicate concat]. rewrite status_queries_app, IH. reflexivity.
Qed.

Lemma sleeps_loop_turn (self : CalrissianExecution) (name : string)
    (interval : Z) (k : nat) :
  sleeps (concat (replicate k (loop_turn self name interval)))
  = replicate k interval.
Proof.
  unfold sleeps. induction k as [|k IH]; [done|].
  cbn [replicate concat]. by rewrite omap_app, IH.
Qed.

Lemma monitor_while_active (self : CalrissianExecution) (name : string)
    (interval : Z) (s : JobStatus) :
  namespaced_job_name self = Some name ->
  (0 <= interval)%Z ->
  s <> ACTIVE ->
  forall (k : nat) (t : Trace) (fuel : nat),
    (forall i, i < k -> answers self (status_queries t + i) ACTIVE) ->
    answers self (status_queries t + k) s ->
    k < fuel ->
    monitor_while fuel self interval t =
      Some (Return tt,
            t ++ concat (replicate k (loop_turn self name interval))
              ++ [status_query self name]).
Proof.
  intros Hname Hint Hs. induction k as [|k IH]; intros t fuel Hact Hend Hfuel;
    (destruct fuel as [|fuel]; [lia|]); cbn [monitor_while];
    unfold is_active, bind.
  - rewrite (get_status_answer self name t _ s Hname Hend) by lia.
    by destruct s.
  - rewrite (get_status_answer self name t _ ACTIVE Hname (Hact 0 ltac:(lia)))
      by lia.
    unfold ret, time_sleep, logger_info, emit.
    destruct (Z.ltb_spec interval 0) as [?|_]; [lia|].
    assert (Hcount :
              status_queries
                (((t ++ [status_query self name]) ++
                  [ELog INFO ("job " +:+ job_name (job self) +:+ " is active")])
                 ++ [ESleep interval]) = S (status_queries t)).
    { rewrite !status_queries_app. unfold status_queries at 2 3 4. simpl. lia. }
    rewrite IH.
    + simpl. by rewrite <- !app_assoc.
    + intros i Hi. rewrite Hcount.
      replace (S (status_queries t) + i) with (status_queries t + S i) by lia.
      apply Hact. lia.
    + rewrite Hcount.
      by replace (S (status_queries t) + k) with (status_queries t + S k) by lia.
    + lia.
Qed.

(** X14.  With a status oracle that answers ACTIVE to the first [n] status
    queries ([n] at least 1) and a final status, SUCCEEDED or FAILED, to all
    later ones, [monitor] terminates after exactly [n - 1] sleeps of the
    given interval and [n + 4] status queries: the opening test takes the
    first answer, each further ACTIVE answer costs one log line and one
    sleep, and the report asks the status three more times.  It logs that
    the execution is complete, and that the outcome is a success exactly
    when the final status is SUCCEEDED. *)
Theorem monitor_sleeps (self : CalrissianExecution) (name : string)
    (interval : Z) (t : Trace) (n : nat) (s : JobStatus) (fuel : nat) :
  namespaced_job_name self = Some name ->
  (0 <= interval)%Z ->
  s <> ACTIVE ->
  1 <= n ->
  (forall k, k < n -> answers self (status_queries t + k) ACTIVE) ->
  (forall k, n <= k -> answers self (status_queries t + k) s) ->
  n <= fuel ->
  exists events,
    monitor rt fuel self interval t = Some (Return tt, t ++ events) /\
    events =
      status_query self name
      :: concat (replicate (n - 1) (loop_turn self name interval))
      ++ [status_query self name;
          status_query self name; status_query self name;
          ELog INFO "exection is complete True";
          status_query self name]
      ++ (match s with
          | SUCCEEDED => [ELog INFO "outcome: success!"]
          | _ => []
          end) /\
    sleeps events = replicate (n - 1) interval /\
    status_queries events = n + 4.
Proof.
  intros Hname Hint Hs Hn Hact Hend Hfuel.
  eexists. split; [|split; [reflexivity|]].
  - unfold monitor, is_active. unfold bind at 1.
    rewrite (get_status_answer self name t _ ACTIVE Hname (Hact 0 ltac:(lia)))
      by lia.
    unfold ret at 1.
    assert (Hq : forall u, status_queries (u ++ [status_query self name])
                           = S (status_queries u)).
    { intros u. rewrite status_queries_app. unfold status_queries; simpl. lia. }
    assert (Hl : forall u l m,
               status_queries (u ++ [ELog l m]) = status_queries u).
    { intros. rewrite status_queries_app. unfold status_queries; simpl. lia. }
    rewrite (monitor_while_active self name interval s Hname Hint Hs (n - 1)).
    + set (t2 := (t ++ [status_query self name]) ++
                 concat (replicate (n - 1) (loop_turn self name interval)) ++
                 [status_query self name]).
      assert (Ht2 : status_queries t2 = status_queries t + (n + 1)).
      { unfold t2. rewrite !status_queries_app, status_queries_loop_turn.
        unfold status_queries at 2 3. simpl. lia. }
      unfold monitor_report, is_complete, is_succeeded.
      unfold bind at 1. unfold bind at 1.
      rewrite (get_status_answer self name t2 _ s Hname (Hend (n + 1) ltac:(lia)))
        by lia.
      assert (Hc : (match s with
                    | SUCCEEDED | FAILED => ret true
                    | ACTIVE => ret false
                    end) = @ret bool true) by (by destruct s).
      simpl. rewrite Hc. unfold ret at 1.
      unfold bind at 1. unfold bind at 1. unfold bind at 1.
      rewrite (get_status_answer self name _ _ s Hname (Hend (n + 2) ltac:(lia)))
        by (repeat first [rewrite Hq | rewrite Hl]; lia).
      simpl. rewrite Hc. unfold ret at 1, logger_info, emit at 1.
      unfold bind at 1. unfold bind at 1.
      rewrite (get_status_answer self name _ _ s Hname (Hend (n + 3) ltac:(lia)))
        by (repeat first [rewrite Hq | rewrite Hl]; lia).
      unfold t2. destruct s; [done| |]; unfold ret, emit; simpl;
        rewrite <- !app_assoc; simpl; by rewrite <- ?app_assoc.
    + intros i Hi. rewrite Hq.
      replace (S (status_queries t) + i) with (status_queries t + S i) by lia.
      apply Hact. lia.
    + rewrite Hq.
      replace (S (status_queries t) + (n - 1)) with (status_queries t + n) by lia.
      by apply Hend.
    + lia.
  - split.
    + unfold sleeps. simpl. rewrite omap_app.
      fold (sleeps (concat (replicate (n - 1) (loop_turn self name interval)))).
      rewrite sleeps_loop_turn. destruct s; simpl; by rewrite app_nil_r.
    + change (status_query self name :: ?l) with ([status_query self name] ++ l).
      rewrite !status_queries_app, status_queries_loop_turn.
      unfold status_queries. destruct s; simpl; lia.
Qed.


Lemma monitor_while_forever (self : CalrissianExecution) (name : string)
    (interval : Z) :
  namespaced_job_name self = Some name ->
  (0 <= interval)%Z ->
  (forall k, answers self k ACTIVE) ->
  forall (fuel : nat) (t : Trace), monitor_while fuel self interval t = None.
Proof.
  intros Hname Hint Hact. induction fuel as [|fuel IH]; intros t; [done|].
  cbn [monitor_while]. unfold is_active, bind.
  rewrite (get_status_answer self name t _ ACTIVE Hname (Hact _) eq_refl).
  unfold ret, time_sleep, logger_info, emit.
  destruct (Z.ltb_spec interval 0) as [?|_]; [lia|]. apply IH.
Qed.

(** X15.  While the cluster keeps answering ACTIVE, [monitor] never comes
    back: whatever bound is put on the number of turns of its loop, the bound
    is reached with the job still active.  There is no timeout. *)
Theorem monitor_polls_forever (self : CalrissianExecution) (name : string)
    (interval : Z) (fuel : nat) (t : Trace) :
  namespaced_job_name self = Some name ->
  (0 <= interval)%Z ->
  (forall k, answers self k ACTIVE) ->
  monitor rt fuel self interval t = None.
Proof.
  intros Hname Hint Hact. unfold monitor, is_active, bind.
  rewrite (get_status_answer self name t _ ACTIVE Hname (Hact _) eq_refl).
  unfold ret.
  by rewrite (monitor_while_forever self name interval Hname Hint Hact).
Qed.

(** X16.  [get_log] on a job without a pod: when the pod lookup returns an
    empty list, [get_log] raises [IndexError] right after the lookup; no log
    is read, and nothing is printed, because the handler only catches
    [ApiException]. *)
Theorem get_log_without_pod (self : CalrissianExecution) (t : Trace) :
  list_namespaced_pod (core_v1_api (exec_runtime_context self)) t
    (ctx_namespace (exec_runtime_context self))
    ("job-name=" +:+ job_name (job self)) = Return [] ->
  get_log self t =
    (Raise (mkExn IndexError "list index out of range"),
     t ++ [pod_lookup self]).
Proof.
  intros Hpods. unfold get_log, _get_container_log, pod_lookup. run_monad.
  by rewrite Hpods.
Qed.

(** X17.  [get_log] when the cluster fails: an exception of the pod lookup,
    or of the log read of the first pod, is raised again as it is; its text
    is printed first exactly when it is an [ApiException]. *)
Theorem get_log_cluster_failure (self : CalrissianExecution) (t : Trace)
    (e : Exn) :
  let printed :=
    if is_ApiException (exn_class e)
    then [EPrint ("Exception when calling get status: " +:+ exn_str e
                  +:+ newline)]
    else [] in
  (list_namespaced_pod (core_v1_api (exec_runtime_context self)) t
     (ctx_namespace (exec_runtime_context self))
     ("job-name=" +:+ job_name (job self)) = Raise e ->
   get_log self t = (Raise e, t ++ pod_lookup self :: printed)) /\
  (forall pod pods,
     list_namespaced_pod (core_v1_api (exec_runtime_context self)) t
       (ctx_namespace (exec_runtime_context self))
       ("job-name=" +:+ job_name (job self)) = Return (pod :: pods) ->
     read_namespaced_pod_log (core_v1_api (exec_runtime_context self))
       (t ++ [pod_lookup self]) (pod_metadata_name pod)
       (ctx_namespace (exec_runtime_context self)) "calrissian" = Raise e ->
     get_log self t =
       (Raise e,
        t ++ pod_lookup self
          :: log_read self (pod_metadata_name pod) CALRISSIAN :: printed)).
Proof.
  split.
  - intros Hpods. unfold get_log, _get_container_log, pod_lookup. run_monad.
    rewrite Hpods. simpl.
    destruct (is_ApiException (exn_class e)); simpl; by rewrite <- ?app_assoc.
  - intros pod pods Hpods Hlog.
    unfold get_log, _get_container_log, pod_lookup, log_read in *. run_monad.
    rewrite Hpods. simpl. rewrite Hlog. simpl.
    destruct (is_ApiException (exn_class e)); simpl; by rewrite <- ?app_assoc.
Qed.

(** X18.  The edges of the two time getters, for a status the cluster
    returns: [get_start_time] returns the start time, or [None] for a job
    that has not started; [get_completion_time] returns [None] when the
    status has neither a completion time nor a list of conditions, and
    raises [IndexError] when the completion time is absent and the list of
    conditions is present but empty.  Each sends one status query. *)
Theorem time_getters_edges (self : CalrissianExecution) (name : string)
    (t : Trace) (response : V1Job) (status : V1JobStatus) :
  namespaced_job_name self = Some name ->
  read_namespaced_job_status (batch_v1_api (exec_runtime_context self)) t name
    (ctx_namespace (exec_runtime_context self)) = Return response ->
  job_status response = Some status ->
  get_start_time self t =
    (Return (st_start_time status), t ++ [status_query self name]) /\
  (st_completion_time status = None -> st_conditions status = None ->
   get_completion_time self t = (Return None, t ++ [status_query self name])) /\
  (st_completion_time status = None -> st_conditions status = Some [] ->
   get_completion_time self t =
     (Raise (mkExn IndexError "list index out of range"),
      t ++ [status_query self name])).
Proof.
  intros Hname Hresp Hstatus.
  unfold get_start_time, get_completion_time, read_status,
    get_namespaced_job_name, status_query.
  rewrite Hname. run_monad. rewrite Hresp, Hstatus.
  split; [by destruct (st_start_time status)|].
  split; by intros -> ->.
Qed.


(** X19.  What a successful [submit] leaves: a handle for the same job and
    context whose [namespaced_job_name] is the job's name and whose
    [namespaced_job] is the answer of the cluster; on the trace, the opening
    log line, the events of building the job, the one creation call with the
    job that was built, and the closing log line.  From then on the status
    methods of the handle query the cluster under the job's name. *)
Theorem submit_returns (self self' : CalrissianExecution) (t t' : Trace) :
  submit rt self t = (Return self', t') ->
  job self' = job self /\
  exec_runtime_context self' = exec_runtime_context self /\
  namespaced_job_name self' = Some (job_name (job self)) /\
  (exists body t1 response,
     to_k8s_job rt (job self)
       (t ++ [ELog INFO ("submit job " +:+ job_name (job self))])
       = (Return body, t1) /\
     create_namespaced_job (batch_v1_api (exec_runtime_context self)) t1
       (ctx_namespace (exec_runtime_context self)) body = Return response /\
     namespaced_job self' = Some response /\
     t' = t1 ++ [ECreateJob (ctx_namespace (exec_runtime_context self)) body;
                 ELog INFO ("job " +:+ job_name (job self) +:+ " submitted")]) /\
  (forall u, exists rest,
     snd (get_status self' u) =
       u ++ EReadJobStatus (job_name (job self))
              (ctx_namespace (exec_runtime_context self)) :: rest).
Proof.
  unfold submit. intros H.
  apply bind_Return in H as (u0 & t0 & Hlog & H).
  apply bind_Return in H as (body & t1 & Hbody & H).
  apply bind_Return in H as (response & t2 & Hcreate & H).
  apply bind_Return in H as (u1 & t3 & Hdone & H).
  apply ret_Return in H as [-> ->].
  unfold logger_info, emit in Hlog, Hdone.
  injection Hlog as _ <-. unfold call in Hcreate.
  injection Hcreate as Hresp <-. injection Hdone as _ <-.
  simpl. do 3 (split; [done|]). split.
  - exists body, t1, response. by rewrite <- app_assoc.
  - intros u. unfold get_status, read_status, get_namespaced_job_name.
    run_monad.
    destruct (read_namespaced_job_status _ _ _ _) as [r|e]; simpl.
    + destruct (job_status r) as [status|]; simpl.
      * repeat (match goal with
                | |- context [if ?b then _ else _] => destruct b
                end); by exists [].
      * by exists [].
    + destruct (is_ApiException (exn_class e)); simpl.
      * eexists. by rewrite <- app_assoc.
      * by exists [].
Qed.

(** X20.  When [submit] fails.  If building the job raises, [submit] raises
    the same exception and nothing was sent to the cluster but the reads of
    the build: no job is created.  If the cluster rejects the creation,
    [submit] raises the exception of the cluster right after the creation
    call, and the closing log line is not written. *)
Theorem submit_failure (self : CalrissianExecution) (t : Trace) :
  (forall e t1,
     to_k8s_job rt (job self)
       (t ++ [ELog INFO ("submit job " +:+ job_name (job self))])
       = (Raise e, t1) ->
     submit rt self t = (Raise e, t1) /\
     exists events, t1 = t ++ events /\ Forall is_build_event events) /\
  (forall body t1 e,
     to_k8s_job rt (job self)
       (t ++ [ELog INFO ("submit job " +:+ job_name (job self))])
       = (Return body, t1) ->
     create_namespaced_job (batch_v1_api (exec_runtime_context self)) t1
       (ctx_namespace (exec_runtime_context self)) body = Raise e ->
     submit rt self t =
       (Raise e,
        t1 ++ [ECreateJob (ctx_namespace (exec_runtime_context self)) body])).
Proof.
  split.
  - intros e t1 Hbuild. split.
    + unfold submit, bind, logger_info, emit. by rewrite Hbuild.
    + destruct (to_k8s_job_emits rt (job self)
                  (t ++ [ELog INFO ("submit job " +:+ job_name (job self))]))
        as (events & Hsnd & Hall).
      rewrite Hbuild in Hsnd. simpl in Hsnd. subst t1.
      eexists. rewrite <- app_assoc. split; [reflexivity|].
      by constructor.
  - intros body t1 e Hbuild Hcreate.
    unfold submit, bind, logger_info, emit, call.
    by rewrite Hbuild, Hcreate.
Qed.

Lemma get_status_emits (self : CalrissianExecution) :
  emits is_status_event (get_status self).
Proof.
  unfold get_status, read_status, get_namespaced_job_name. emits_tac.
Qed.

Lemma _get_container_log_emits (self : CalrissianExecution)
    (container : ContainerNames) :
  emits is_artifact_event (_get_container_log self container).
Proof. unfold _get_container_log. emits_tac. Qed.

Lemma status_event_monitor_event (ev : Event) :
  is_status_query ev = true \/ (exists l m, ev = ELog l m) ->
  is_monitor_event ev.
Proof. by intros [H|(l & m & ->)]; [destruct ev|]. Qed.

Lemma get_status_emits_monitor (self : CalrissianExecution) :
  emits is_monitor_event (get_status self).
Proof.
  unfold get_status, read_status, get_namespaced_job_name. emits_tac.
Qed.

Lemma is_active_emits_monitor (self : CalrissianExecution) :
  emits is_monitor_event (is_active self).
Proof.
  unfold is_active.
  apply emits_bind; [apply get_status_emits_monitor | intros ?]. emits_tac.
Qed.

Lemma monitor_while_emits (self : CalrissianExecution) (interval : Z)
    (fuel : nat) (t t' : Trace) (r : Result unit) :
  monitor_while fuel self interval t = Some (r, t') ->
  exists events, t' = t ++ events /\ Forall is_monitor_event events.
Proof.
  revert t. induction fuel as [|fuel IH]; intros t; [done|].
  cbn [monitor_while].
  destruct (is_active_emits_monitor self t) as (ev1 & Hsnd & Hall).
  destruct (is_active self t) as [[[]|e] t1]; simpl in Hsnd; subst t1.
  - unfold bind, logger_info, emit, time_sleep.
    destruct (interval <? 0)%Z.
    + intros [= <- <-]. eexists. rewrite <- app_assoc. split; [reflexivity|].
      apply Forall_app. split; [done | by repeat constructor].
    + intros H. apply IH in H as (ev2 & -> & Hall2).
      eexists. rewrite <- !app_assoc. split; [reflexivity|].
      apply Forall_app. split; [done|]. by repeat constructor.
  - intros [= <- <-]. by exists ev1.
  - intros [= <- <-]. by exists ev1.
Qed.

(** X21.  Apart from [submit], the execution controller only observes the
    cluster.  Whether they return or raise, the status methods append to the
    trace nothing but status queries, log lines and printed lines; the
    artifact getters nothing but pod lookups, log reads and printed lines;
    and [monitor], when it ends, nothing but status queries, log lines and
    sleeps.  None of them creates a job. *)
Theorem controller_only_observes (self : CalrissianExecution) :
  emits is_status_event (get_status self) /\
  emits is_status_event (is_active self) /\
  emits is_status_event (is_complete self) /\
  emits is_status_event (is_succeeded self) /\
  emits is_status_event (get_start_time self) /\
  emits is_status_event (get_completion_time self) /\
  emits is_artifact_event (get_log self) /\
  emits is_artifact_event (get_output rt self) /\
  emits is_artifact_event (get_usage_report rt self) /\
  (forall fuel interval t r t',
     monitor rt fuel self interval t = Some (r, t') ->
     exists events, t' = t ++ events /\ Forall is_monitor_event events).
Proof.
  split; [apply get_status_emits|].
  do 3 (split; [unfold is_active, is_complete, is_succeeded;
                apply emits_bind; [apply get_status_emits | intros ?];
                emits_tac|]).
  do 2 (split; [unfold get_start_time, get_completion_time, read_status,
                  get_namespaced_job_name; emits_tac|]).
  split.
  { unfold get_log, bound_method_truthy.
    apply emits_bind; [apply emits_lift | intros ?].
    apply emits_bind; [apply _get_container_log_emits | intros ?]. emits_tac. }
  do 2 (split; [unfold get_output, get_usage_report, bound_method_truthy;
                apply emits_bind; [apply emits_lift | intros ?];
                apply emits_bind; [apply _get_container_log_emits | intros ?];
                emits_tac|]).
  intros fuel interval t r t'. unfold monitor.
  destruct (is_active_emits_monitor self t) as (ev1 & Hsnd & Hall).
  destruct (is_active self t) as [[[]|e] t1]; simpl in Hsnd; subst t1.
  - destruct (monitor_while fuel self interval (t ++ ev1))
      as [[[[]|e] t2]|] eqn:Hloop; [| |done].
    + apply monitor_while_emits in Hloop as (ev2 & -> & Hall2).
      assert (Hreport : emits is_monitor_event (monitor_report rt self)).
      { unfold monitor_report, is_complete, is_succeeded.
        apply emits_bind;
          [apply emits_bind; [apply get_status_emits_monitor | intros ?];
           emits_tac | intros ?].
        apply emits_bind.
        - destruct a; [|apply emits_ret].
          apply emits_bind;
            [apply emits_bind; [apply get_status_emits_monitor | intros ?];
             emits_tac | intros ?]. emits_tac.
        - intros ?.
          apply emits_bind;
            [apply emits_bind; [apply get_status_emits_monitor | intros ?];
             emits_tac | intros ?]. emits_tac. }
      destruct (Hreport ((t ++ ev1) ++ ev2)) as (ev3 & Hsnd3 & Hall3).
      intros [= Hrun]. rewrite Hrun in Hsnd3. simpl in Hsnd3. subst t'.
      exists (ev1 ++ ev2 ++ ev3). rewrite <- !app_assoc. split; [done|].
      by repeat (apply Forall_app; split).
    + apply monitor_while_emits in Hloop as (ev2 & -> & Hall2).
      intros [= <- <-]. exists (ev1 ++ ev2). rewrite <- app_assoc.
      split; [done|]. by apply Forall_app.
  - unfold logger_warning, emit. intros [= <- <-].
    eexists. rewrite <- app_assoc. split; [reflexivity|].
    apply Forall_app. split; [done | by repeat constructor].
  - intros [= <- <-]. by exists ev1.
Qed.

End Controller_properties.

(** ** The controller on the example cluster *)

Lemma slow_failed_execution_answers :
  (forall k, k < 3 -> answers slow_failed_execution (status_queries [] + k) ACTIVE) /\
  (forall k, 3 <= k -> answers slow_failed_execution (status_queries [] + k) FAILED).
Proof.
  unfold answers, get_status, read_status, get_namespaced_job_name.
  split; intros k Hk h Hh; run_monad; unfold active_then_failed; rewrite Hh;
    simpl; destruct (Nat.ltb_spec k 3); (lia || reflexivity).
Qed.

Lemma running_execution_answers (k : nat) : answers running_execution k ACTIVE.
Proof. intros h _. reflexivity. Qed.

Lemma get_status_failure_witness :
  namespaced_job_name unreachable_execution = Some "job-1" /\
  get_status unreachable_execution [] =
    (Raise (mkExn ApiException "(500) Reason: Internal Server Error"),
     [EReadJobStatus "job-1" "processing";
      ELog ERROR
        ("Exception when calling get status: (500) Reason: Internal Server Error"
         +:+ newline)]) /\
  fst (is_active unreachable_execution []) =
    Raise (mkExn ApiException "(500) Reason: Internal Server Error").
Proof.
  destruct (get_status_failure unreachable_execution "job-1" [] eq_refl)
    as [Hraise _].
  destruct (Hraise (mkExn ApiException "(500) Reason: Internal Server Error")
              eq_refl) as (Hstatus & Hactive & _).
  split; [reflexivity|]. split; [exact Hstatus|].
  exact (f_equal fst Hactive).
Defined.

Lemma monitor_not_active_witness :
  fst (get_status succeeded_execution []) = Return (Some SUCCEEDED) /\
  monitor (demo_runtime PNone) 0 succeeded_execution 5 [] =
    Some (Return tt,
          [EReadJobStatus "job-1" "processing";
           ELog WARNING "job is not submitted"]).
Proof.
  split; [reflexivity|].
  exact (monitor_not_active (demo_runtime PNone) succeeded_execution "job-1" []
           (Some SUCCEEDED) 0 5 eq_refl eq_refl ltac:(discriminate)).
Defined.

Lemma monitor_sleeps_witness :
  exists events,
    monitor (demo_runtime PNone) 3 slow_failed_execution 5 []
      = Some (Return tt, [] ++ events) /\
    events =
      status_query slow_failed_execution "job-1"
      :: concat (replicate (3 - 1) (loop_turn slow_failed_execution "job-1" 5))
      ++ [status_query slow_failed_execution "job-1";
          status_query slow_failed_execution "job-1";
          status_query slow_failed_execution "job-1";
          ELog INFO "exection is complete True";
          status_query slow_failed_execution "job-1"]
      ++ [] /\
    sleeps events = replicate (3 - 1) 5%Z /\
    status_queries events = 3 + 4.
Proof.
  exact (monitor_sleeps (demo_runtime PNone) slow_failed_execution "job-1" 5 []
           3 FAILED 3 eq_refl ltac:(discriminate) ltac:(discriminate)
           (le_S 1 2 (le_S 1 1 (le_n 1)))
           (proj1 slow_failed_execution_answers)
           (proj2 slow_failed_execution_answers)
           (le_n 3)).
Defined.

Lemma monitor_polls_forever_witness :
  (0 <= 5)%Z /\
  monitor (demo_runtime PNone) 1000 running_execution 5 [] = None.
Proof.
  split; [discriminate|].
  exact (monitor_polls_forever (demo_runtime PNone) running_execution "job-1" 5
           1000 [] eq_refl ltac:(discriminate) running_execution_answers).
Defined.

Lemma get_log_without_pod_witness :
  get_log podless_execution [] =
    (Raise (mkExn IndexError "list index out of range"),
     [EListPods "processing" "job-name=job-1"]).
Proof. exact (get_log_without_pod podless_execution [] eq_refl). Defined.

Lemma time_getters_edges_witness :
  get_start_time running_execution [] =
    (Return (Some 1000%Z), [EReadJobStatus "job-1" "processing"]) /\
  get_completion_time running_execution [] =
    (Return None, [EReadJobStatus "job-1" "processing"]).
Proof.
  destruct (time_getters_edges running_execution "job-1" []
              (demo_response status_running) status_running
              eq_refl eq_refl eq_refl) as (Hstart & Hnone & _).
  exact (conj Hstart (Hnone eq_refl eq_refl)).
Defined.

Lemma submit_returns_witness :
  exists self' t',
    submit (demo_runtime alice_workspace) new_execution [] = (Return self', t') /\
    job self' = job new_execution /\
    exec_runtime_context self' = exec_runtime_context new_execution /\
    namespaced_job_name self' = Some "job-1" /\
    (exists body t1 response,
       to_k8s_job (demo_runtime alice_workspace) (job new_execution)
         ([] ++ [ELog INFO ("submit job " +:+ job_name (job new_execution))])
         = (Return body, t1) /\
       create_namespaced_job (batch_v1_api (exec_runtime_context new_execution))
         t1 (ctx_namespace (exec_runtime_context new_execution)) body
         = Return response /\
       namespaced_job self' = Some response /\
       t' = t1 ++ [ECreateJob (ctx_namespace (exec_runtime_context new_execution))
                     body;
                   ELog INFO ("job " +:+ job_name (job new_execution)
                              +:+ " submitted")]) /\
    (forall u, exists rest,
       snd (get_status self' u) =
         u ++ EReadJobStatus (job_name (job new_execution))
                (ctx_namespace (exec_runtime_context new_execution)) :: rest).
Proof.
  eexists _, _. split; [vm_compute; reflexivity|].
  eapply (submit_returns (demo_runtime alice_workspace) new_execution _ []).
  vm_compute. reflexivity.
Defined.

Lemma status_predicates_consistent_witness :
  fst (is_succeeded succeeded_execution []) = Return true /\
  fst (is_complete succeeded_execution []) = Return true /\
  fst (is_active succeeded_execution []) = Return false.
Proof.
  destruct (status_predicates_consistent succeeded_execution [])
    as (_ & Hsucceeded & _).
  exact (conj eq_refl (Hsucceeded eq_refl)).
Defined.

Lemma get_log_cluster_failure_witness :
  get_log unauthorized_execution [] =
    (Raise (mkExn ApiException "(401) Reason: Unauthorized"),
     [EListPods "processing" "job-name=job-1";
      EPrint ("Exception when calling get status: (401) Reason: Unauthorized"
              +:+ newline)]).
Proof.
  exact (proj1 (get_log_cluster_failure unauthorized_execution []
                  (mkExn ApiException "(401) Reason: Unauthorized")) eq_refl).
Defined.

Lemma submit_failure_witness :
  exists e t1,
    to_k8s_job (demo_runtime PNone) (job unreadable_execution)
      ([] ++ [ELog INFO ("submit job " +:+ job_name (job unreadable_execution))])
      = (Raise e, t1) /\
    submit (demo_runtime PNone) unreadable_execution [] = (Raise e, t1) /\
    exn_class e = AttributeError /\
    exists events, t1 = [] ++ events /\ Forall is_build_event events.
Proof.
  eexists _, _. split; [vm_compute; reflexivity|].
  destruct (submit_failure (demo_runtime PNone) unreadable_execution [])
    as [Hbuild _].
  edestruct Hbuild as [Hsubmit Hevents]; [vm_compute; reflexivity|].
  split; [exact Hsubmit|]. split; [reflexivity | exact Hevents].
Defined.

(** ** Construction of a job *)

Section Construction_properties.

Variable stg : Staging.

Lemma string_length_app (a b : string) :
  String.length (a +:+ b) = String.length a + String.length b.
Proof.
  induction a as [|c a IH]; [done|].
  rewrite string_app_cons. simpl. by rewrite IH.
Qed.

Lemma remove_dots_length (s : string) :
  String.length (remove_dots s) <= String.length s.
Proof.
  induction s as [|c s IH]; [done|].
  simpl. destruct (Ascii.eqb c "."); simpl; lia.
Qed.

(** The job [__init__] returns when every staging call succeeds. *)
Lemma CalrissianJob_init_Return (a : JobArguments) (h h' : list StagingEvent)
    (j : CalrissianJob) :
  CalrissianJob_init stg a h = (Return j, h') ->
  h' = h ++ staged stg a /\
  j =
    {| runtime_context := arg_runtime_context a;
       cwl_entry_point := arg_cwl_entry_point a;
       pod_env_vars :=
         if Py.truthy (arg_pod_env_vars a) then arg_pod_env_vars a
         else PDict [];
       pod_node_selector := arg_pod_node_selector a;
       max_ram := arg_max_ram a;
       max_cores := arg_max_cores a;
       security_context :=
         match arg_security_context a with
         | PNone => default_security_context
         | given => given
         end;
       service_account := ctx_service_account (arg_runtime_context a);
       calling_service_account :=
         ctx_calling_service_account (arg_runtime_context a);
       debug := arg_debug a;
       no_read_only := arg_no_read_only a;
       keep_pods := arg_keep_pods a;
       backoff_limit := arg_backoff_limit a;
       tool_logs := arg_tool_logs a;
       calling_workspace := arg_calling_workspace a;
       executing_workspace := arg_executing_workspace a;
       job_id := arg_job_id a;
       job_name := shorten_namespace (raw_job_name stg) |}.
Proof.
  unfold CalrissianJob_init, staged, run_bind, run_ret, staging_info, run_emit,
    _create_cwl_cm, _create_params_cm, _create_pod_env_vars_cm,
    _create_pod_node_selector_cm, stage, run_call.
  destruct (arg_security_context a); simpl;
    repeat match goal with
      | |- context [create_configmap stg ?x ?n ?k ?c] =>
          destruct (create_configmap stg x n k c) as [[]|?]; simpl
      | |- context [Py.truthy ?o] =>
          lazymatch o with
          | arg_pod_env_vars a => destruct (Py.truthy o) eqn:?
          | arg_pod_node_selector a => destruct (Py.truthy o) eqn:?
          end; simpl
      end;
    try discriminate;
    intros [= <- <-]; rewrite <- ?app_assoc; simpl;
    repeat match goal with H : Py.truthy _ = _ |- _ => rewrite ?H; clear H end;
    by split.
Qed.

Lemma created_config_maps_staged (a : JobArguments) :
  created_config_maps (staged stg a) =
    [("cwl-workflow-" +:+ arg_job_id a, "cwl-workflow");
     ("params-" +:+ arg_job_id a, "params")]
    ++ (if Py.truthy (arg_pod_env_vars a)
        then [("pod-env-vars-" +:+ arg_job_id a, "pod-env-vars")] else [])
    ++ (if Py.truthy (arg_pod_node_selector a)
        then [("pod-node-selector-" +:+ arg_job_id a, "pod-node-selector")]
        else []).
Proof.
  unfold staged, created_config_maps.
  destruct (arg_security_context a), (Py.truthy (arg_pod_env_vars a)),
    (Py.truthy (arg_pod_node_selector a)); reflexivity.
Qed.

(** X22.  The constructor stages the configuration objects in a fixed order
    and under names derived from the job id: when it returns, it has created
    [cwl-workflow-<id>] (key [cwl-workflow], the workflow as YAML), then
    [params-<id>] (key [params], the parameters as YAML), then
    [pod-env-vars-<id>] (key [pod-env-vars], JSON) exactly when the
    environment variables are non-empty, then [pod-node-selector-<id>] (key
    [pod-node-selector], JSON) exactly when the node selector is non-empty,
    each announced by a log line, and nothing else. *)
Theorem constructor_staging (a : JobArguments) (h h' : list StagingEvent)
    (j : CalrissianJob) :
  CalrissianJob_init stg a h = (Return j, h') ->
  h' = h ++ staged stg a /\
  created_config_maps (staged stg a) =
    [("cwl-workflow-" +:+ arg_job_id a, "cwl-workflow");
     ("params-" +:+ arg_job_id a, "params")]
    ++ (if Py.truthy (arg_pod_env_vars a)
        then [("pod-env-vars-" +:+ arg_job_id a, "pod-env-vars")] else [])
    ++ (if Py.truthy (arg_pod_node_selector a)
        then [("pod-node-selector-" +:+ arg_job_id a, "pod-node-selector")]
        else []).
Proof.
  intros H. apply CalrissianJob_init_Return in H as [-> _].
  split; [done | apply created_config_maps_staged].
Qed.

(** X23.  The constructor fails only through staging: an exception of
    [__init__] is the exception of a [create_configmap] call, that call is
    the last event of the run, and nothing is staged after it. *)
Theorem constructor_failure (a : JobArguments) (h h' : list StagingEvent)
    (e : Exn) :
  CalrissianJob_init stg a h = (Raise e, h') ->
  exists before name key content,
    create_configmap stg (h ++ before) name key content = Raise e /\
    h' = (h ++ before) ++ [SCreateConfigMap name key content].
Proof.
  unfold CalrissianJob_init, run_bind, run_ret, staging_info, run_emit,
    _create_cwl_cm, _create_params_cm, _create_pod_env_vars_cm,
    _create_pod_node_selector_cm, stage, run_call.
  destruct (arg_security_context a); simpl;
    repeat match goal with
      | |- context [create_configmap stg ?x ?n ?k ?c] =>
          let E := fresh "Hstage" in
          destruct (create_configmap stg x n k c) as [[]|?] eqn:E; simpl;
          [clear E | rewrite <- ?app_assoc in E]
      | |- context [if Py.truthy ?o then _ else _] =>
          destruct (Py.truthy o); simpl
      | |- context [if negb (Py.truthy ?o) then _ else _] =>
          destruct (Py.truthy o); simpl
      end;
    try discriminate;
    intros [= <- <-]; rewrite <- ?app_assoc;
    eexists _, _, _, _; (split; [eassumption|]);
    by rewrite <- ?app_assoc.
Qed.


(** X24.  The name of a constructed job is the shortened text
    [job-<timestamp without dots>-<uuid>]: it never exceeds 63 characters.
    With a UUID of 36 characters and a timestamp text of at most 22
    characters nothing is cut, so the name ends with the whole UUID. *)
Theorem constructor_job_name (a : JobArguments) (h h' : list StagingEvent)
    (j : CalrissianJob) :
  CalrissianJob_init stg a h = (Return j, h') ->
  job_name j = shorten_namespace (raw_job_name stg) /\
  String.length (job_name j) <= 63 /\
  String.prefix (job_name j) (raw_job_name stg) = true /\
  (String.length (uuid4 stg) = 36 ->
   String.length (now_timestamp stg) <= 22 ->
   job_name j =
     "job-" +:+ remove_dots (now_timestamp stg) +:+ "-" +:+ uuid4 stg).
Proof.
  intros H. apply CalrissianJob_init_Return in H as [_ ->]. cbn [job_name].
  split; [done|]. split; [apply shorten_namespace_length|]. split.
  { destruct (shorten_namespace_app (raw_job_name stg)) as [rest Hrest].
    set (short := shorten_namespace (raw_job_name stg)) in *.
    rewrite Hrest. apply string_prefix_app. }
  intros Hu Hts. rewrite shorten_namespace_loop.
  assert (Hlen : String.length (raw_job_name stg) <= 63).
  { unfold raw_job_name. rewrite !string_length_app, Hu.
    pose proof (remove_dots_length (now_timestamp stg)). simpl. lia. }
  by destruct (Nat.ltb_spec 63 (String.length (raw_job_name stg))); [lia|].
Qed.

(** X25.  What the constructor makes of its arguments: a missing security
    context becomes user 0, group 0, fsGroup 0 and a given one is kept; the
    service accounts are those of the context, whatever [service_account]
    argument was passed; empty or missing environment variables become the
    empty dictionary and others are kept; every other field is the argument
    of the same name. *)
Theorem constructor_fields (a : JobArguments) (h h' : list StagingEvent)
    (j : CalrissianJob) :
  CalrissianJob_init stg a h = (Return j, h') ->
  (arg_security_context a = PNone ->
   security_context j =
     PDict [("runAsUser", PInt 0); ("runAsGroup", PInt 0); ("fsGroup", PInt 0)]) /\
  (arg_security_context a <> PNone ->
   security_context j = arg_security_context a) /\
  service_account j = ctx_service_account (arg_runtime_context a) /\
  calling_service_account j =
    ctx_calling_service_account (arg_runtime_context a) /\
  (Py.truthy (arg_pod_env_vars a) = false -> pod_env_vars j = PDict []) /\
  (Py.truthy (arg_pod_env_vars a) = true ->
   pod_env_vars j = arg_pod_env_vars a) /\
  Py.truthy (pod_env_vars j) = Py.truthy (arg_pod_env_vars a) /\
  runtime_context j = arg_runtime_context a /\
  pod_node_selector j = arg_pod_node_selector a /\
  cwl_entry_point j = arg_cwl_entry_point a /\
  (max_ram j, max_cores j) = (arg_max_ram a, arg_max_cores a) /\
  (debug j, no_read_only j, keep_pods j, tool_logs j) =
    (arg_debug a, arg_no_read_only a, arg_keep_pods a, arg_tool_logs a) /\
  backoff_limit j = arg_backoff_limit a /\
  (calling_workspace j, executing_workspace j, job_id j) =
    (arg_calling_workspace a, arg_executing_workspace a, arg_job_id a).
Proof.
  intros H. apply CalrissianJob_init_Return in H as [_ ->]. simpl.
  repeat split; try done.
  - by intros ->.
  - by destruct (arg_security_context a).
  - by intros ->.
  - by intros ->.
  - by destruct (Py.truthy (arg_pod_env_vars a)) eqn:E.
Qed.

Section Construction_and_build.

Variable rt : Runtime.

(** X26.  Construction and building fit together: every configuration
    object that a volume of the built job refers to was created by the
    constructor of that job, under the same name and with the key of each
    item the volume projects. *)
Theorem staged_volumes (a : JobArguments) (h h' : list StagingEvent)
    (job : CalrissianJob) (t t' : Trace) (j : V1Job) :
  CalrissianJob_init stg a h = (Return job, h') ->
  to_k8s_job rt job t = (Return j, t') ->
  forall (v : V1Volume) (cm : V1ConfigMapVolumeSource),
    v ∈ job_volumes j -> vol_config_map v = Some cm ->
    cmvs_items cm <> [] /\
    Forall (fun item => (cmvs_name cm, ktp_key item) ∈ created_config_maps h')
      (cmvs_items cm).
Proof.
  intros Hinit Hbuild v cm Hv Hcm.
  pose proof (created_config_maps_staged a) as Hcreated.
  apply CalrissianJob_init_Return in Hinit as [-> ->].
  apply to_k8s_job_mounts in Hbuild as (ws & tmp & Hvs & _ & Hws & Htmp & _).
  rewrite Hvs in Hv. apply elem_of_app in Hv as [Hv|Hv].
  - unfold created_config_maps in *. rewrite omap_app, Hcreated.
    unfold initial_mounts in Hv. simpl in Hv.
    destruct (Py.truthy (arg_pod_env_vars a)) eqn:Henv; simpl in Hv;
      rewrite ?Henv in Hv; simpl in Hv;
      destruct (Py.truthy (arg_pod_node_selector a)) eqn:Hns; simpl in Hv;
      unfold append_pair, append in Hv; simpl in Hv;
      repeat (apply elem_of_cons in Hv as [->|Hv]);
      try (by apply elem_of_nil in Hv);
      simpl in Hcm; try discriminate; injection Hcm as <-; simpl;
      (split; [done|]); repeat constructor;
      apply elem_of_app; right; set_solver.
  - apply elem_of_app in Hv as [Hv|Hv];
      apply list_elem_of_fmap in Hv as ([v' m] & -> & Hin).
    + eapply Forall_forall in Hws; [|exact Hin].
      destruct Hws as (claim & pv & Hfst & _). simpl in Hfst, Hcm.
      subst v'. discriminate.
    + eapply Forall_forall in Htmp; [|exact Hin].
      destruct Htmp as (pv & Hfst & _). simpl in Hfst, Hcm.
      subst v'. discriminate.
Qed.

(** X27.  A job constructed without a security context is built to run as
    user 0, group 0 and fsGroup 0, and every built job runs under the
    service account of its context, whatever [service_account] argument the
    constructor was given. *)
Theorem constructed_job_identity (a : JobArguments) (h h' : list StagingEvent)
    (job : CalrissianJob) (t t' : Trace) (j : V1Job) :
  CalrissianJob_init stg a h = (Return job, h') ->
  to_k8s_job rt job t = (Return j, t') ->
  ps_service_account_name (pts_spec (js_template (job_spec j)))
    = ctx_service_account (arg_runtime_context a) /\
  (arg_security_context a = PNone ->
   ps_security_context (pts_spec (js_template (job_spec j)))
     = {| run_as_group := PInt 0; run_as_user := PInt 0; fs_group := PInt 0 |}).
Proof.
  intros Hinit Hbuild. apply CalrissianJob_init_Return in Hinit as [_ ->].
  apply to_k8s_job_built in Hbuild
    as (acc & group & user & fsg & Hg & Hu & Hf & ->).
  simpl in *. split; [done|]. intros Hnone. rewrite Hnone in Hg, Hu, Hf.
  simpl in Hg, Hu, Hf. by injection Hg as <-; injection Hu as <-;
    injection Hf as <-.
Qed.

End Construction_and_build.

End Construction_properties.

(** ** The constructor on the example cluster *)

Lemma constructor_staging_witness :
  exists j h',
    CalrissianJob_init demo_staging demo_arguments [] = (Return j, h') /\
    h' = [] ++ staged demo_staging demo_arguments /\
    created_config_maps h' =
      [("cwl-workflow-42", "cwl-workflow"); ("params-42", "params");
       ("pod-env-vars-42", "pod-env-vars")] /\
    created_config_maps (staged demo_staging demo_arguments) =
      [("cwl-workflow-" +:+ arg_job_id demo_arguments, "cwl-workflow");
       ("params-" +:+ arg_job_id demo_arguments, "params")]
      ++ (if Py.truthy (arg_pod_env_vars demo_arguments)
          then [("pod-env-vars-" +:+ arg_job_id demo_arguments, "pod-env-vars")]
          else [])
      ++ (if Py.truthy (arg_pod_node_selector demo_arguments)
          then [("pod-node-selector-" +:+ arg_job_id demo_arguments,
                 "pod-node-selector")]
          else []).
Proof.
  eexists _, _. split; [vm_compute; reflexivity|].
  edestruct (constructor_staging demo_staging demo_arguments [])
    as [Htrace Hmaps]; [vm_compute; reflexivity|].
  split; [exact Htrace|]. split; [vm_compute; reflexivity | exact Hmaps].
Defined.

Lemma constructor_failure_witness :
  exists e h',
    CalrissianJob_init conflicting_staging demo_arguments [] = (Raise e, h') /\
    e = mkExn ApiException "(409) Reason: Conflict" /\
    created_config_maps h' =
      [("cwl-workflow-42", "cwl-workflow"); ("params-42", "params")] /\
    exists before name key content,
      create_configmap conflicting_staging ([] ++ before) name key content
        = Raise e /\
      h' = ([] ++ before) ++ [SCreateConfigMap name key content].
Proof.
  eexists _, _. split; [vm_compute; reflexivity|].
  split; [reflexivity|]. split; [vm_compute; reflexivity|].
  eapply (constructor_failure conflicting_staging demo_arguments []).
  vm_compute. reflexivity.
Defined.

Lemma constructor_job_name_witness :
  exists j h',
    CalrissianJob_init demo_staging demo_arguments [] = (Return j, h') /\
    String.length (uuid4 demo_staging) = 36 /\
    String.length (now_timestamp demo_staging) <= 22 /\
    job_name j = "job-1699999999123456-2b0e4a46-5d1c-4b7e-9d0a-3c1f8e7a6b5d" /\
    String.length (job_name j) <= 63.
Proof.
  eexists _, _. split; [vm_compute; reflexivity|].
  assert (Hts : String.length (now_timestamp demo_staging) <= 22)
    by (vm_compute; lia).
  split; [reflexivity|]. split; [exact Hts|].
  edestruct (constructor_job_name demo_staging demo_arguments [])
    as (_ & Hlen & _ & Hfull); [vm_compute; reflexivity|].
  split; [exact (Hfull eq_refl Hts) | exact Hlen].
Defined.

Lemma constructor_fields_witness :
  exists j h',
    CalrissianJob_init demo_staging demo_arguments [] = (Return j, h') /\
    arg_security_context demo_arguments = PNone /\
    security_context j =
      PDict [("runAsUser", PInt 0); ("runAsGroup", PInt 0); ("fsGroup", PInt 0)] /\
    arg_service_account demo_arguments = Some "another-sa" /\
    service_account j = "calrissian-sa" /\
    pod_env_vars j = PDict [("A", PStr "1")].
Proof.
  eexists _, _. split; [vm_compute; reflexivity|].
  edestruct (constructor_fields demo_staging demo_arguments [])
    as (Hdefault & _ & Hsa & _ & _ & Henv & _); [vm_compute; reflexivity|].
  split; [reflexivity|]. split; [exact (Hdefault eq_refl)|].
  split; [reflexivity|]. split; [exact Hsa | exact (Henv eq_refl)].
Defined.

Lemma staged_volumes_witness :
  exists job h' j t',
    CalrissianJob_init demo_staging demo_arguments [] = (Return job, h') /\
    to_k8s_job (demo_runtime alice_workspace) job [] = (Return j, t') /\
    vol_name <$> job_volumes j =
      ["volume-cwl-workflow"; "volume-params"; "volume-calrissian-wdir";
       "volume-pod-env-vars"; "workspace-efs-pvc-alice"; "temp-pv-alice-data"] /\
    forall (v : V1Volume) (cm : V1ConfigMapVolumeSource),
      v ∈ job_volumes j -> vol_config_map v = Some cm ->
      cmvs_items cm <> [] /\
      Forall (fun item => (cmvs_name cm, ktp_key item) ∈ created_config_maps h')
        (cmvs_items cm).
Proof.
  eexists _, _, _, _. split; [vm_compute; reflexivity|].
  split; [vm_compute; reflexivity|]. split; [vm_compute; reflexivity|].
  eapply (staged_volumes demo_staging (demo_runtime alice_workspace)
            demo_arguments [] _ _ []);
    vm_compute; reflexivity.
Defined.

Lemma constructed_job_identity_witness :
  exists job h' j t',
    CalrissianJob_init demo_staging demo_arguments [] = (Return job, h') /\
    to_k8s_job (demo_runtime alice_workspace) job [] = (Return j, t') /\
    arg_security_context demo_arguments = PNone /\
    ps_service_account_name (pts_spec (js_template (job_spec j)))
      = "calrissian-sa" /\
    ps_security_context (pts_spec (js_template (job_spec j)))
      = {| run_as_group := PInt 0; run_as_user := PInt 0; fs_group := PInt 0 |}.
Proof.
  eexists _, _, _, _. split; [vm_compute; reflexivity|].
  split; [vm_compute; reflexivity|]. split; [reflexivity|].
  edestruct constructed_job_identity
    with (stg := demo_staging) (rt := demo_runtime alice_workspace)
         (a := demo_arguments) (h := @nil StagingEvent) (t := @nil Event)
    as [Hsa Hctx]; [vm_compute; reflexivity | vm_compute; reflexivity |].
  split; [exact Hsa | exact (Hctx eq_refl)].
Defined.
